(** * auto-marker-label: synthetic-data generation scripts and pipeline

    A shallow embedding of the scripts under [generating_synthetic_data/]
    ([generate_synthetic_data.py], [config_template.py]) and of the
    generation pipeline they drive, together with the properties stated
    about them.

    Layout:
    - [Py]      : the Python effects the scripts use (printing, [sys.exit],
                  exceptions, [os.path.exists], [os.makedirs], [input]);
    - [Aml]     : the keyword signature of [automarkerlabel.generateSimTrajectories];
    - [GenerateSyntheticData] : [generate_synthetic_data.py];
    - [ConfigTemplate]        : [config_template.py];
    - [Pipeline]              : the generation pipeline itself;
    - [Obs], [PipelineObs], [Demo] : the vocabulary of the statements and
                  concrete runs;
    - [CheckHdf5Structure], [InspectSyntheticData], [TestAttentionModels] :
                  [check_hdf5_structure.py], [inspect_synthetic_data.py] and
                  [test_attention_models.py], with their vocabulary in
                  [Hdf5Table], [InspectTable] and [TestsTable];
    - then the lemmas, stage by stage, the claims C1 to C10 and the further
      properties X1 to X23.

    Conventions.  A script is a computation over a [world] (which paths
    exist, what is left on standard input) that yields the events it
    performed and how it ended.  Printing, [os.makedirs] and the clock are
    taken to succeed; [os.path.dirname], [os.path.abspath] and the rendering
    of the elapsed time are parameters.  The command line is what [argparse]
    makes of the declared options.  What h5py, pickle, numpy and torch
    return or raise is a parameter of the script that calls them, and so is
    every rendering of a floating-point number. *)

From Stdlib Require Import ZArith String Ascii List DecimalString Decimal Lia.
From stdpp Require Import base option list strings gmap.

Open Scope Z_scope.
Open Scope string_scope.
Open Scope list_scope.

(** ** Text helpers used by the f-strings of the scripts *)

(** [str(n)] for a Python [int]. *)
Definition show_Z (z : Z) : string := NilZero.string_of_int (Z.to_int z).

(** [str(n)] for a non-negative count ([len(...)], a tensor dimension). *)
Definition show_nat (n : nat) : string := NilZero.string_of_uint (Nat.to_uint n).

(** Python's [s * n] on strings. *)
Fixpoint str_repeat (s : string) (n : nat) : string :=
  match n with
  | O => ""
  | S k => s +:+ str_repeat s k
  end.

(** The line feed written as a backslash escape in the scripts' literals. *)
Definition nl : string := String (ascii_of_nat 10) "".

(** [c.lower()] on one character: only ASCII capitals change. *)
Definition ascii_lower (c : ascii) : ascii :=
  let n := nat_of_ascii c in
  if (Nat.leb 65 n && Nat.leb n 90)%bool then ascii_of_nat (n + 32) else c.

(** [s.lower()]. *)
Fixpoint str_lower (s : string) : string :=
  match s with
  | EmptyString => EmptyString
  | String c t => String (ascii_lower c) (str_lower t)
  end.

(** ** The signature of the core entry point *)

Module Aml.

(** The keyword arguments of [automarkerlabel.generateSimTrajectories]. *)
Record kwargs : Type := Kwargs {
  bodykinpath : string;
  markersetpath : string;
  outputfile : string;
  alignMkR : string;
  alignMkL : string;
  fs : Z;
  num_participants : Z;
  max_len : Z
}.

End Aml.

(** ** Python effects *)

Module Py.

(** Exception classes the scripts and the pipeline can meet.  All of them
    derive from [Exception]; [SystemExit] does not and is kept apart. *)
Inductive exn_class : Type :=
| IndexError
| ValueError
| EOFError
| ConfigError
| DataNotFoundError
| AlignmentError
| EmptyDatasetError
| OtherException (name : string).

Record exn : Type := Exn { exn_type : exn_class; exn_message : string }.

(** What ends a computation early. *)
Inductive stop : Type :=
| SystemExit (code : Z)
| Raised (e : exn).

(** Observable actions, in the order they happen. *)
Inductive event : Type :=
| Print (line : string)            (* print(line) *)
| Input (prompt : string)          (* input(prompt) *)
| PrintExc (e : exn)               (* traceback.print_exc() *)
| ArgparseError (missing : list string)
| Makedirs (dir : string)          (* os.makedirs(dir) *)
| CallCore (kw : Aml.kwargs).      (* the call aml.generateSimTrajectories *)

(** The part of the outside world the scripts read and change. *)
Record world : Type := World {
  fs_exists : string -> bool;      (* os.path.exists *)
  stdin : list string              (* lines still to be read by input() *)
}.

(** A computation: from a world to the events it performed, the world it
    leaves and either the reason it stopped or its value. *)
Definition py (A : Type) : Type := world -> list event * world * (stop + A).

Definition ret {A} (a : A) : py A := fun w => ([], w, inr a).

Definition bind {A B} (m : py A) (k : A -> py B) : py B :=
  fun w =>
    match m w with
    | (t1, w1, inl s) => (t1, w1, inl s)
    | (t1, w1, inr a) =>
        match k a w1 with
        | (t2, w2, r) => (t1 ++ t2, w2, r)
        end
    end.

#[global] Instance py_ret : MRet py := @ret.
#[global] Instance py_bind : MBind py := fun A B k m => bind m k.

Definition emit (e : event) : py unit := fun w => ([e], w, inr tt).

Definition print (line : string) : py unit := emit (Print line).

Definition traceback_print_exc (e : exn) : py unit := emit (PrintExc e).

Definition sys_exit {A} (code : Z) : py A := fun w => ([], w, inl (SystemExit code)).

Definition raise {A} (e : exn) : py A := fun w => ([], w, inl (Raised e)).

Definition os_path_exists (p : string) : py bool :=
  fun w => ([], w, inr (fs_exists w p)).

(** [os.makedirs(d)]: afterwards [d] exists.  The call is taken to succeed. *)
Definition os_makedirs (d : string) : py unit :=
  fun w =>
    ([Makedirs d],
     {| fs_exists := fun p => if String.eqb p d then true else fs_exists w p;
        stdin := stdin w |},
     inr tt).

(** [input(prompt)]: one line of standard input, [EOFError] when none is left. *)
Definition input (prompt : string) : py string :=
  fun w =>
    match stdin w with
    | [] => ([Input prompt], w, inl (Raised (Exn EOFError "EOF when reading a line")))
    | l :: rest => ([Input prompt], {| fs_exists := fs_exists w; stdin := rest |}, inr l)
    end.

(** [if c: body] *)
Definition when_ (c : bool) (body : py unit) : py unit :=
  if c then body else ret tt.

(** [try: body / except Exception as e: handler e].  [SystemExit] is not an
    [Exception] and passes through. *)
Definition try_except {A} (body : py A) (handler : exn -> py A) : py A :=
  fun w =>
    match body w with
    | (t1, w1, inl (Raised e)) =>
        match handler e w1 with
        | (t2, w2, r) => (t1 ++ t2, w2, r)
        end
    | r => r
    end.

(** [l[i]] on a Python list. *)
Definition list_index {A} (l : list A) (i : nat) : py A :=
  match nth_error l i with
  | Some x => ret x
  | None => raise (Exn IndexError "list index out of range")
  end.

(** [t[i]] on a tuple such as a tensor's [shape]. *)
Definition tuple_index {A} (l : list A) (i : nat) : py A :=
  match nth_error l i with
  | Some x => ret x
  | None => raise (Exn IndexError "tuple index out of range")
  end.

(** [[f(x) for x in l]] *)
Fixpoint comprehension {A B} (f : A -> py B) (l : list A) : py (list B) :=
  match l with
  | [] => ret []
  | x :: t => bind (f x) (fun y => bind (comprehension f t) (fun ys => ret (y :: ys)))
  end.

(** [min(l)] and [max(l)] on a list of counts. *)
Definition py_min (l : list nat) : py nat :=
  match l with
  | [] => raise (Exn ValueError "min() arg is an empty sequence")
  | x :: t => ret (fold_left Nat.min t x)
  end.

Definition py_max (l : list nat) : py nat :=
  match l with
  | [] => raise (Exn ValueError "max() arg is an empty sequence")
  | x :: t => ret (fold_left Nat.max t x)
  end.

(** The call of the core: it either raises or returns the dataset. *)
Definition call_core {D} (core : Aml.kwargs -> exn + D) (kw : Aml.kwargs) : py D :=
  fun w =>
    ([CallCore kw], w,
     match core kw with
     | inl e => inl (Raised e)
     | inr d => inr d
     end).

(** The status the process ends with: 0 when [main] returns, the argument
    of [sys.exit], and 1 for an exception nobody caught. *)
Definition exit_status {A} (r : stop + A) : Z :=
  match r with
  | inr _ => 0
  | inl (SystemExit c) => c
  | inl (Raised _) => 1
  end.

(** Observations on a finished run. *)
Definition events {A} (x : list event * world * (stop + A)) : list event := fst (fst x).
Definition outcome {A} (x : list event * world * (stop + A)) : stop + A := snd x.
Definition status {A} (x : list event * world * (stop + A)) : Z := exit_status (snd x).

(** A run continued after the events [t] of what came before it. *)
Definition after {A} (t : list event) (x : list event * world * (stop + A))
  : list event * world * (stop + A) :=
  (t ++ x.1.1, x.1.2, x.2).

(** The arguments of every call of the core, in order. *)
Fixpoint core_calls (t : list event) : list Aml.kwargs :=
  match t with
  | [] => []
  | CallCore kw :: t' => kw :: core_calls t'
  | _ :: t' => core_calls t'
  end.

(** The lines written by [print], in order. *)
Fixpoint printed (t : list event) : list string :=
  match t with
  | [] => []
  | Print s :: t' => s :: printed t'
  | _ :: t' => printed t'
  end.

(** The prompts shown by [input], in order. *)
Fixpoint prompts (t : list event) : list string :=
  match t with
  | [] => []
  | Input s :: t' => s :: prompts t'
  | _ :: t' => prompts t'
  end.

End Py.

(** ** generate_synthetic_data.py *)

Module GenerateSyntheticData.
Import Py.

(** The command line as [argparse] sees it: for each declared option, the
    value given or nothing.  Values of the [type=int] options are already
    integers. *)
Record cmdline : Type := Cmdline {
  opt_bodykin : option string;
  opt_markerset : option string;
  opt_output : option string;
  opt_align_right : option string;
  opt_align_left : option string;
  opt_fs : option Z;
  opt_num_participants : option Z;
  opt_max_len : option Z
}.

(** The namespace [parser.parse_args()] returns. *)
Record Namespace : Type := Args {
  bodykin : string;
  markerset : string;
  output : string;
  align_right : string;
  align_left : string;
  fs : Z;
  num_participants : Z;
  max_len : Z
}.

(** The required options that were not given, in declaration order. *)
Definition missing_required (c : cmdline) : list string :=
  (if opt_bodykin c is Some _ then [] else ["--bodykin"]) ++
  (if opt_markerset c is Some _ then [] else ["--markerset"]) ++
  (if opt_output c is Some _ then [] else ["--output"]) ++
  (if opt_align_right c is Some _ then [] else ["--align-right"]) ++
  (if opt_align_left c is Some _ then [] else ["--align-left"]) ++
  (if opt_fs c is Some _ then [] else ["--fs"]).

(** [parser.parse_args()]: the six required options, and the two optional
    ones with [default=100] and [default=240]; a missing required option
    ends the process with status 2. *)
Definition parse_args (c : cmdline) : py Namespace :=
  match opt_bodykin c, opt_markerset c, opt_output c,
        opt_align_right c, opt_align_left c, opt_fs c with
  | Some b, Some m, Some o, Some r, Some l, Some f =>
      mret {| bodykin := b; markerset := m; output := o;
              align_right := r; align_left := l; fs := f;
              num_participants := default 100 (opt_num_participants c);
              max_len := default 240 (opt_max_len c) |}
  | _, _, _, _, _, _ =>
      emit (ArgparseError (missing_required c)) ;; sys_exit 2
  end.

Section Main.

(** The dataset is a list of tensors; the script only reads their [shape]. *)
Context {tensor : Type}.
Variable shape : tensor -> list nat.

(** The core, [aml.generateSimTrajectories]. *)
Variable generateSimTrajectories : Aml.kwargs -> exn + list tensor.

(** [os.path.dirname], [os.path.abspath] and the two renderings of the
    elapsed wall-clock time (seconds and minutes, one decimal). *)
Variable os_path_dirname : string -> string.
Variable os_path_abspath : string -> string.
Variable elapsed_1f : string.
Variable elapsed_min_1f : string.

Definition rule : string := str_repeat "=" 70.

(** Lines 77-88: the three checks made before anything else happens. *)
Definition validate_inputs (args : Namespace) : py unit :=
  b ← os_path_exists (bodykin args);
  when_ (negb b)
    (print ("ERROR: Body kinematics file not found: " +:+ bodykin args) ;;
     print "Download from: https://doi.org/10.5281/zenodo.4293999" ;;
     sys_exit 1) ;;
  m ← os_path_exists (markerset args);
  when_ (negb m)
    (print ("ERROR: Marker set file not found: " +:+ markerset args) ;;
     sys_exit 1) ;;
  when_ ((num_participants args <? 1)%Z || (100 <? num_participants args)%Z)
    (print "ERROR: num_participants must be between 1 and 100" ;;
     sys_exit 1).

(** Lines 90-94. *)
Definition create_output_dir (args : Namespace) : py unit :=
  let output_dir := os_path_dirname (output args) in
  e ← os_path_exists output_dir;
  when_ (negb (String.eqb output_dir "") && negb e)
    (os_makedirs output_dir ;;
     print ("Created output directory: " +:+ output_dir)).

(** Lines 96-108. *)
Definition display_configuration (args : Namespace) : py unit :=
  print rule ;;
  print "SYNTHETIC TRAJECTORY GENERATION" ;;
  print rule ;;
  print ("Body kinematics:    " +:+ bodykin args) ;;
  print ("Marker set:         " +:+ markerset args) ;;
  print ("Output file:        " +:+ output args) ;;
  print ("Alignment markers:  " +:+ align_right args +:+ " (R) / "
            +:+ align_left args +:+ " (L)") ;;
  print ("Sampling frequency: " +:+ show_Z (fs args) +:+ " Hz") ;;
  print ("Participants:       " +:+ show_Z (num_participants args) +:+ " / 100") ;;
  print ("Max segment length: " +:+ show_Z (max_len args) +:+ " frames") ;;
  print rule ;;
  print "".

(** Lines 115-124: the keyword arguments handed to the core. *)
Definition core_kwargs (args : Namespace) : Aml.kwargs :=
  {| Aml.bodykinpath := bodykin args;
     Aml.markersetpath := markerset args;
     Aml.outputfile := output args;
     Aml.alignMkR := align_right args;
     Aml.alignMkL := align_left args;
     Aml.fs := fs args;
     Aml.num_participants := num_participants args;
     Aml.max_len := max_len args |}.

(** Lines 128-140: the summary printed after the core returned. *)
Definition summary (args : Namespace) (data : list tensor) : py unit :=
  print "" ;;
  print rule ;;
  print "GENERATION COMPLETE" ;;
  print rule ;;
  print ("Total segments:     " +:+ show_nat (length data)) ;;
  d0 ← list_index data 0;
  mk ← tuple_index (shape d0) 1;
  print ("Markers per segment: " +:+ show_nat mk) ;;
  lens ← comprehension (fun x => tuple_index (shape x) 0) data;
  lo ← py_min lens;
  lens' ← comprehension (fun x => tuple_index (shape x) 0) data;
  hi ← py_max lens';
  print ("Segment lengths:    " +:+ show_nat lo +:+ " - " +:+ show_nat hi
            +:+ " frames") ;;
  print ("Time elapsed:       " +:+ elapsed_1f +:+ " seconds ("
            +:+ elapsed_min_1f +:+ " minutes)") ;;
  print ("Output saved to:    " +:+ os_path_abspath (output args)) ;;
  print rule ;;
  print "" ;;
  print "Next step: Train the model using trainAlgorithm.py".

(** Lines 142-146: the handler of [except Exception as e]. *)
Definition on_exception (e : exn) : py unit :=
  print (nl +:+ "ERROR during generation: " +:+ exn_message e) ;;
  traceback_print_exc e ;;
  sys_exit 1.

(** Lines 114-146: the [try] block, that is the call of the core, the
    summary and the handler. *)
Definition generation (args : Namespace) : py unit :=
  try_except
    (data ← call_core generateSimTrajectories (core_kwargs args);
     summary args data)
    on_exception.

(** Lines 76-146, after the arguments were parsed. *)
Definition run (args : Namespace) : py unit :=
  validate_inputs args ;;
  create_output_dir args ;;
  display_configuration args ;;
  print "Starting generation..." ;;
  generation args.

Definition main (c : cmdline) : py unit :=
  args ← parse_args c;
  run args.

End Main.

End GenerateSyntheticData.

(** ** config_template.py *)

Module ConfigTemplate.
Import Py.

(** The module-level constants of the CONFIGURATION block.  The file is a
    template whose constants are meant to be edited, so they are gathered
    in a record; [template] below holds the values the file ships with. *)
Record constants : Type := Constants {
  BODYKIN_PATH : string;
  MARKERSET_PATH : string;
  OUTPUT_PATH : string;
  ALIGN_MARKER_RIGHT : string;
  ALIGN_MARKER_LEFT : string;
  SAMPLING_FREQUENCY : Z;
  NUM_PARTICIPANTS : Z;
  MAX_SEGMENT_LENGTH : Z
}.

(** Lines 25-39. *)
Definition template : constants :=
  {| BODYKIN_PATH := "../data/bodykinematics.hdf5";
     MARKERSET_PATH := "../data/MarkerSet.xml";
     OUTPUT_PATH := "../data/simulatedTrajectories.pickle";
     ALIGN_MARKER_RIGHT := "RAC";
     ALIGN_MARKER_LEFT := "LAC";
     SAMPLING_FREQUENCY := 240;
     NUM_PARTICIPANTS := 100;
     MAX_SEGMENT_LENGTH := 240 |}.

(** [for x in l: body x] *)
Fixpoint for_each {A} (l : list A) (body : A -> py unit) : py unit :=
  match l with
  | [] => mret tt
  | x :: t => body x ;; for_each t body
  end.

(** Truth value of a list: non-empty. *)
Definition truthy {A} (l : list A) : bool :=
  match l with
  | [] => false
  | _ :: _ => true
  end.

Section Main.

Variable c : constants.

Context {tensor : Type}.
Variable shape : tensor -> list nat.
Variable generateSimTrajectories : Aml.kwargs -> exn + list tensor.
Variable os_path_dirname : string -> string.
Variable os_path_abspath : string -> string.
Variable elapsed_1f : string.
Variable elapsed_min_1f : string.

(** Lines 74-104.  [errors] and [warnings] grow by [append] in program
    order and are returned as a pair. *)
Definition validate_config : py (list string * list string) :=
  let errors : list string := [] in
  let warnings : list string := [] in
  b ← os_path_exists (BODYKIN_PATH c);
  let errors :=
    if negb b
    then errors ++ ["Body kinematics file not found: " +:+ BODYKIN_PATH c;
                    "  Download from: https://doi.org/10.5281/zenodo.4293999"]
    else errors in
  m ← os_path_exists (MARKERSET_PATH c);
  let errors :=
    if negb m
    then errors ++ ["Marker set file not found: " +:+ MARKERSET_PATH c]
    else errors in
  let errors :=
    if ((NUM_PARTICIPANTS c <? 1)%Z || (100 <? NUM_PARTICIPANTS c)%Z)
    then errors ++ ["NUM_PARTICIPANTS must be 1-100, got "
                      +:+ show_Z (NUM_PARTICIPANTS c)]
    else errors in
  let warnings :=
    if ((SAMPLING_FREQUENCY c <? 50)%Z || (500 <? SAMPLING_FREQUENCY c)%Z)
    then warnings ++ ["Unusual sampling frequency: "
                        +:+ show_Z (SAMPLING_FREQUENCY c) +:+ " Hz";
                      "  Common values: 120, 240 Hz"]
    else warnings in
  let warnings :=
    if ((MAX_SEGMENT_LENGTH c <? 60)%Z || (500 <? MAX_SEGMENT_LENGTH c)%Z)
    then warnings ++ ["Unusual max segment length: "
                        +:+ show_Z (MAX_SEGMENT_LENGTH c) +:+ " frames";
                      "  Typical range: 120-240 frames"]
    else warnings in
  let output_dir := os_path_dirname (OUTPUT_PATH c) in
  e ← os_path_exists output_dir;
  let warnings :=
    if negb (String.eqb output_dir "") && negb e
    then warnings ++ ["Output directory will be created: " +:+ output_dir]
    else warnings in
  mret (errors, warnings).

Definition rule : string := str_repeat "=" 70.
Definition dashes : string := str_repeat "-" 70.

(** Lines 112-127. *)
Definition display_configuration : py unit :=
  print rule ;;
  print "SYNTHETIC TRAJECTORY GENERATION - CONFIGURATION" ;;
  print rule ;;
  print "" ;;
  print "CONFIGURATION:" ;;
  print dashes ;;
  print ("Body kinematics:    " +:+ BODYKIN_PATH c) ;;
  print ("Marker set:         " +:+ MARKERSET_PATH c) ;;
  print ("Output file:        " +:+ OUTPUT_PATH c) ;;
  print ("Alignment markers:  " +:+ ALIGN_MARKER_RIGHT c +:+ " (R) / "
            +:+ ALIGN_MARKER_LEFT c +:+ " (L)") ;;
  print ("Sampling frequency: " +:+ show_Z (SAMPLING_FREQUENCY c) +:+ " Hz") ;;
  print ("Participants:       " +:+ show_Z (NUM_PARTICIPANTS c) +:+ " / 100") ;;
  print ("Max segment length: " +:+ show_Z (MAX_SEGMENT_LENGTH c) +:+ " frames") ;;
  print "".

(** Lines 134-138. *)
Definition report_warnings (warnings : list string) : py unit :=
  when_ (truthy warnings)
    (print "⚠️  WARNINGS:" ;;
     for_each warnings (fun w => print ("    " +:+ w)) ;;
     print "").

(** Lines 140-146. *)
Definition report_errors (errors : list string) : py unit :=
  when_ (truthy errors)
    (print "❌ ERRORS:" ;;
     for_each errors (fun e => print ("    " +:+ e)) ;;
     print "" ;;
     print "Please fix errors and run again." ;;
     sys_exit 1).

(** Lines 151-155: [response.lower() not in ['y', 'yes']]. *)
Definition declined (response : string) : bool :=
  negb (String.eqb (str_lower response) "y"
        || String.eqb (str_lower response) "yes").

Definition confirm : py unit :=
  response ← input "Proceed with generation? [y/N]: ";
  when_ (declined response)
    (print "Cancelled." ;;
     sys_exit 0).

(** Lines 163-167. *)
Definition create_output_dir : py unit :=
  let output_dir := os_path_dirname (OUTPUT_PATH c) in
  e ← os_path_exists output_dir;
  when_ (negb (String.eqb output_dir "") && negb e)
    (os_makedirs output_dir ;;
     print ("Created directory: " +:+ output_dir)).

(** Lines 173-182. *)
Definition core_kwargs : Aml.kwargs :=
  {| Aml.bodykinpath := BODYKIN_PATH c;
     Aml.markersetpath := MARKERSET_PATH c;
     Aml.outputfile := OUTPUT_PATH c;
     Aml.alignMkR := ALIGN_MARKER_RIGHT c;
     Aml.alignMkL := ALIGN_MARKER_LEFT c;
     Aml.fs := SAMPLING_FREQUENCY c;
     Aml.num_participants := NUM_PARTICIPANTS c;
     Aml.max_len := MAX_SEGMENT_LENGTH c |}.

(** Lines 186-199. *)
Definition summary (data : list tensor) : py unit :=
  print "" ;;
  print rule ;;
  print "GENERATION COMPLETE" ;;
  print rule ;;
  print ("Total segments:      " +:+ show_nat (length data)) ;;
  d0 ← list_index data 0;
  mk ← tuple_index (shape d0) 1;
  print ("Markers per segment: " +:+ show_nat mk) ;;
  print ("Time elapsed:        " +:+ elapsed_1f +:+ " seconds ("
            +:+ elapsed_min_1f +:+ " min)") ;;
  print ("Output saved to:     " +:+ os_path_abspath (OUTPUT_PATH c)) ;;
  print "" ;;
  print "Next steps:" ;;
  print ("  1. Inspect data: python inspect_synthetic_data.py " +:+ OUTPUT_PATH c) ;;
  print "  2. Train model:  python ../trainAlgorithm.py" ;;
  print rule.

(** Lines 111-199.  No [try] surrounds the call of the core here: what it
    raises leaves [main]. *)
Definition main : py unit :=
  display_configuration ;;
  print "VALIDATION:" ;;
  print dashes ;;
  '(errors, warnings) ← validate_config;
  report_warnings warnings ;;
  report_errors errors ;;
  print "✓ Configuration valid" ;;
  print "" ;;
  confirm ;;
  print "" ;;
  print rule ;;
  print "STARTING GENERATION" ;;
  print rule ;;
  print "" ;;
  create_output_dir ;;
  data ← call_core generateSimTrajectories core_kwargs;
  summary data.

End Main.

End ConfigTemplate.

(** ** The generation pipeline

    [automarkerlabel.py], which holds [generateSimTrajectories], is not part of
    the sources embedded here; only its callers are.  The pipeline is therefore
    modelled from its specification, component by component. *)

Module Pipeline.
Import Py.

(** Modelled from the spec: the error discipline of section 7, a computation
    that either fails with an exception or yields a value (the core that
    raises these is missing). *)
Definition result (A : Type) : Type := exn + A.

(** Modelled from the spec: a value that is there, and the sequencing of
    two fallible steps, the first failure ending the computation (the core
    is missing). *)
#[global] Instance result_ret : MRet result := fun A a => inr a.

(** Modelled from the spec: sequencing for the missing core's fallible
    steps. *)
#[global] Instance result_bind : MBind result :=
  fun A B k m => match m with inl e => inl e | inr a => k a end.

(** Modelled from the spec: an external collaborator that fails (section
    4.1, 4.2) is an absent answer, turned into the exception class the
    contract names. *)
Definition or_fail {A} (cls : exn_class) (msg : string) (o : option A) : result A :=
  match o with
  | Some a => inr a
  | None => inl (Exn cls msg)
  end.

(** Modelled from the spec: [f(x)] for every [x] in order, stopping at the
    first failure. *)
Fixpoint traverse {A B} (f : A -> result B) (l : list A) : result (list B) :=
  match l with
  | [] => inr []
  | x :: t =>
      match f x with
      | inl e => inl e
      | inr y =>
          match traverse f t with
          | inl e => inl e
          | inr ys => inr (y :: ys)
          end
      end
  end.

(** Modelled from the spec: section 4.5, the plain partition of a frame
    sequence into chunks of [M] frames, the last one holding the
    remainder.  [fuel] bounds the number of chunks. *)
Fixpoint chunks_upto {A} (fuel M : nat) (l : list A) : list (list A) :=
  match fuel with
  | O => []
  | S k =>
      match l with
      | [] => []
      | _ :: _ => take M l :: chunks_upto k M (drop M l)
      end
  end.

(** Modelled from the spec: the partition of section 4.5; a sequence of [L]
    frames never has more than [L] chunks, so that much fuel is enough. *)
Definition chunks {A} (M : nat) (l : list A) : list (list A) :=
  chunks_upto (length l) M l.

Section Numeric.

(** Modelled from the spec: the numbers of the geometry (double
    precision, section 4.3) with their sum, difference and product.  A
    NaN is never an element of [R]: a missing value is [None]. *)
Variable R : Type.
Variable radd rsub rmul : R -> R -> R.

(** Modelled from the spec: the 3-vectors of section 3 (the core that
    declares them is missing). *)
Definition vec3 : Type := R * R * R.

(** Modelled from the spec: the 3x3 matrices of section 3, by rows. *)
Definition mat3 : Type := vec3 * vec3 * vec3.

(** Modelled from the spec: the orthonormality test of section 3
    (determinant close to +1, within a tolerance the spec leaves open). *)
Variable orthonormal : mat3 -> bool.

(** Modelled from the spec: the construction of the alignment basis and
    of the reference point from the right and left marker positions;
    section 9 leaves the convention to the implementer. *)
Variable basis_of : vec3 -> vec3 -> mat3.
Variable origin_of : vec3 -> vec3 -> vec3.

(** *** Data model (section 3) *)

(** Modelled from the spec: MarkerDefinition. *)
Record MarkerDefinition : Type := {
  name : string;
  hostSegment : string;
  localOffset : vec3
}.

(** Modelled from the spec: SegmentMotion.  An entry of [rotation] or
    [translation] that the source marks invalid or missing is [None]. *)
Record SegmentMotion : Type := {
  segmentName : string;
  rotation : list (option mat3);
  translation : list (option vec3);
  scale : vec3
}.

(** Modelled from the spec: TrialKinematics, segment name to motion, with
    the frame count all its segments share. *)
Record TrialKinematics : Type := {
  frameCount : nat;
  segments : gmap string SegmentMotion
}.

(** Modelled from the spec: a marker position in one frame, NaN being
    [None]. *)
Definition position : Type := option vec3.

(** Modelled from the spec: GlobalMarkerTrajectory, here frame by frame
    with the markers of a frame in catalog order, the layout of the
    output array (frames, markers, 3). *)
Definition GlobalMarkerTrajectory : Type := list (list position).

(** Modelled from the spec: AlignmentFrame. *)
Record AlignmentFrame : Type := {
  frame_rotation : mat3;
  frame_translation : vec3
}.

(** Modelled from the spec: TrajectorySegment, a contiguous chunk of a
    GlobalMarkerTrajectory. *)
Definition TrajectorySegment : Type := list (list position).

(** Modelled from the spec: the shape (frameCount, numMarkers, 3) of a
    TrajectorySegment. *)
Definition shape (s : TrajectorySegment) : list nat :=
  [length s; match s with [] => O | fr :: _ => length fr end; 3%nat].

(** Modelled from the spec: whether a position is NaN. *)
Definition is_nan (p : position) : bool :=
  match p with
  | None => true
  | Some _ => false
  end.

(** Modelled from the spec: a segment without any NaN. *)
Definition nan_free (s : TrajectorySegment) : bool :=
  forallb (forallb (fun p => negb (is_nan p))) s.

(** *** Kinematics Reader (section 4.2) *)

(** Modelled from the spec: the reader's three operations; an absent
    answer is its DataNotFoundError. *)
Record KinematicsReader : Type := {
  listParticipants : list string;
  listTrials : string -> option (list string);
  readTrial : string -> string -> option TrialKinematics
}.

(** *** Forward Kinematics Engine (section 4.3) *)

(** Modelled from the spec: the sum of two vectors, for [+ t_seg(f)]. *)
Definition vadd (a b : vec3) : vec3 :=
  let '(a1, a2, a3) := a in
  let '(b1, b2, b3) := b in
  (radd a1 b1, radd a2 b2, radd a3 b3).

(** Modelled from the spec: the difference of two vectors, for [p - t]. *)
Definition vsub (a b : vec3) : vec3 :=
  let '(a1, a2, a3) := a in
  let '(b1, b2, b3) := b in
  (rsub a1 b1, rsub a2 b2, rsub a3 b3).

(** Modelled from the spec: the elementwise product of section 4.3. *)
Definition hadamard (a b : vec3) : vec3 :=
  let '(a1, a2, a3) := a in
  let '(b1, b2, b3) := b in
  (rmul a1 b1, rmul a2 b2, rmul a3 b3).

(** Modelled from the spec: the inner product behind the matrix-vector
    product of section 4.3. *)
Definition dot (a b : vec3) : R :=
  let '(a1, a2, a3) := a in
  let '(b1, b2, b3) := b in
  radd (radd (rmul a1 b1) (rmul a2 b2)) (rmul a3 b3).

(** Modelled from the spec: matrix times vector, the matrix given by rows. *)
Definition mat_vec (m : mat3) (v : vec3) : vec3 :=
  let '(r1, r2, r3) := m in
  (dot r1 v, dot r2 v, dot r3 v).

(** Modelled from the spec: the transpose, for [Rt] of section 4.4. *)
Definition transpose (m : mat3) : mat3 :=
  let '((a11, a12, a13), (a21, a22, a23), (a31, a32, a33)) := m in
  ((a11, a21, a31), (a12, a22, a32), (a13, a23, a33)).

(** Modelled from the spec: the global position of marker [m] at frame
    [f], [R_seg(f) . (scale * offset) + t_seg(f)], and NaN where the
    host segment's motion is invalid or missing at [f]. *)
Definition marker_position (sm : SegmentMotion) (m : MarkerDefinition) (f : nat)
  : position :=
  match rotation sm !! f, translation sm !! f with
  | Some (Some Rf), Some (Some tf) =>
      Some (vadd (mat_vec Rf (hadamard (scale sm) (localOffset m))) tf)
  | _, _ => None
  end.

(** Modelled from the spec: every rotation that is present passes the
    orthonormality test. *)
Definition rotations_valid (sm : SegmentMotion) : bool :=
  forallb (fun r => match r with Some Rf => orthonormal Rf | None => true end)
          (rotation sm).

(** Modelled from the spec: the host segment of a marker in a trial; a
    segment the trial lacks, or corrupt rotation data, fails the trial
    with a DataNotFoundError-class error (sections 4.2 and 7). *)
Definition host_motion (trial : TrialKinematics) (m : MarkerDefinition)
  : result (MarkerDefinition * SegmentMotion) :=
  sm ← or_fail DataNotFoundError ("segment not in trial: " +:+ hostSegment m)
         (segments trial !! hostSegment m);
  if rotations_valid sm
  then mret (m, sm)
  else inl (Exn DataNotFoundError ("corrupt rotation data: " +:+ hostSegment m)).

(** Modelled from the spec: ForwardKinematics, one position per marker per
    frame of the trial. *)
Definition ForwardKinematics (catalog : list MarkerDefinition) (trial : TrialKinematics)
  : result GlobalMarkerTrajectory :=
  hosts ← traverse (host_motion trial) catalog;
  mret (map (fun f => map (fun h => marker_position h.2 h.1 f) hosts)
            (seq 0 (frameCount trial))).

(** *** Alignment Estimator (section 4.4) *)

(** Modelled from the spec: the index of a marker name in the catalog. *)
Fixpoint marker_index (nm : string) (catalog : list MarkerDefinition) : option nat :=
  match catalog with
  | [] => None
  | m :: rest =>
      if String.eqb (name m) nm then Some O
      else S <$> marker_index nm rest
  end.

(** Modelled from the spec: the two alignment markers of a frame when both
    are non-NaN. *)
Definition both_valid (ir il : nat) (fr : list position) : option (vec3 * vec3) :=
  match fr !! ir, fr !! il with
  | Some (Some r), Some (Some l) => Some (r, l)
  | _, _ => None
  end.

(** Modelled from the spec: the linear scan for the first valid frame,
    first occurrence winning. *)
Fixpoint first_valid (ir il : nat) (traj : GlobalMarkerTrajectory)
  : option (vec3 * vec3) :=
  match traj with
  | [] => None
  | fr :: rest =>
      match both_valid ir il fr with
      | Some rl => Some rl
      | None => first_valid ir il rest
      end
  end.

(** Modelled from the spec: [estimate], failing with AlignmentError when
    no frame has both markers. *)
Definition estimate (traj : GlobalMarkerTrajectory) (ir il : nat)
  : result AlignmentFrame :=
  rl ← or_fail AlignmentError "no valid alignment frame" (first_valid ir il traj);
  mret {| frame_rotation := basis_of rl.1 rl.2;
          frame_translation := origin_of rl.1 rl.2 |}.

(** Modelled from the spec: [apply], every marker of every frame sent to
    [Rt . (p - t)] with the one frame of the trial; a NaN stays a NaN. *)
Definition apply_alignment (traj : GlobalMarkerTrajectory) (a : AlignmentFrame)
  : GlobalMarkerTrajectory :=
  map (map (fmap (fun p => mat_vec (transpose (frame_rotation a))
                                   (vsub p (frame_translation a)))))
      traj.

(** *** Segmenter (section 4.5) *)

(** Modelled from the spec: a chunk with no valid data for any marker. *)
Definition all_nan (chunk : TrajectorySegment) : bool :=
  forallb (forallb is_nan) chunk.

(** Modelled from the spec: trailing all-NaN chunks are dropped. *)
Fixpoint drop_trailing_nan (cs : list TrajectorySegment) : list TrajectorySegment :=
  match cs with
  | [] => []
  | c :: rest =>
      match drop_trailing_nan rest with
      | [] => if all_nan c then [] else [c]
      | kept => c :: kept
      end
  end.

(** Modelled from the spec: [split(trajectory, maxLen)]. *)
Definition split (traj : GlobalMarkerTrajectory) (maxLen : nat)
  : list TrajectorySegment :=
  drop_trailing_nan (chunks maxLen traj).

(** *** Dataset Assembler (section 4.6) *)

(** Modelled from the spec: what the run reports about each trial and
    participant (section 7). *)
Inductive log_entry : Type :=
| TrialProcessed (participant trial : string) (segments : nat)
| TrialSkipped (participant trial : string) (e : exn)
| ParticipantSkipped (participant : string) (e : exn).

(** Modelled from the spec: the Marker Catalog's [load] and the opening of
    the archive, the two external collaborators of section 6. *)
Variable load : string -> option (list MarkerDefinition).
Variable open_archive : string -> KinematicsReader.

(** Modelled from the spec: one trial through forward kinematics,
    alignment and segmentation. *)
Definition process_trial (catalog : list MarkerDefinition) (ir il maxLen : nat)
    (trial : TrialKinematics) : result (list TrajectorySegment) :=
  traj ← ForwardKinematics catalog trial;
  a ← estimate traj ir il;
  mret (split (apply_alignment traj a) maxLen).

(** Modelled from the spec: the failure policy for one trial, which is
    logged and skipped when it fails. *)
Definition run_trial (rd : KinematicsReader) (catalog : list MarkerDefinition)
    (ir il maxLen : nat) (p t : string) : log_entry * list TrajectorySegment :=
  match
    trial ← or_fail DataNotFoundError ("trial not found: " +:+ t) (readTrial rd p t);
    process_trial catalog ir il maxLen trial
  with
  | inl e => (TrialSkipped p t e, [])
  | inr segs => (TrialProcessed p t (length segs), segs)
  end.

(** Modelled from the spec: the trials of one participant in archive order. *)
Definition run_participant (rd : KinematicsReader) (catalog : list MarkerDefinition)
    (ir il maxLen : nat) (p : string) : list log_entry * list TrajectorySegment :=
  match listTrials rd p with
  | None => ([ParticipantSkipped p (Exn DataNotFoundError ("participant not found: " +:+ p))], [])
  | Some ts =>
      let rs := map (run_trial rd catalog ir il maxLen p) ts in
      (map fst rs, concat (map snd rs))
  end.

(** Modelled from the spec: [generate(config)], the run's log and either
    the exception it fails with or the ordered dataset.  The first
    [numParticipants] participants in archive order are processed;
    asking for more than the archive holds is a ConfigError raised before
    any trial is read; a run that yields no segment at all fails with
    EmptyDatasetError. *)
Definition generate (config : Aml.kwargs)
  : list log_entry * result (list TrajectorySegment) :=
  match load (Aml.markersetpath config) with
  | None => ([], inl (Exn ConfigError "marker set could not be loaded"))
  | Some catalog =>
      let rd := open_archive (Aml.bodykinpath config) in
      let available := listParticipants rd in
      if (Z.of_nat (length available) <? Aml.num_participants config)%Z
      then ([], inl (Exn ConfigError "more participants requested than available"))
      else
        match marker_index (Aml.alignMkR config) catalog,
              marker_index (Aml.alignMkL config) catalog with
        | Some ir, Some il =>
            let selected := take (Z.to_nat (Aml.num_participants config)) available in
            let rs := map (run_participant rd catalog ir il
                             (Z.to_nat (Aml.max_len config))) selected in
            let log := concat (map fst rs) in
            match concat (map snd rs) with
            | [] => (log, inl (Exn EmptyDatasetError "no trial produced a segment"))
            | data => (log, inr data)
            end
        | _, _ => ([], inl (Exn ConfigError "alignment marker not in marker set"))
        end
  end.

(** Modelled from the spec: the core as the scripts call it. *)
Definition generateSimTrajectories (config : Aml.kwargs)
  : exn + list TrajectorySegment :=
  (generate config).2.

End Numeric.

Arguments name {R} _.
Arguments hostSegment {R} _.
Arguments localOffset {R} _.
Arguments segmentName {R} _.
Arguments rotation {R} _.
Arguments translation {R} _.
Arguments scale {R} _.
Arguments frameCount {R} _.
Arguments segments {R} _.
Arguments listParticipants {R} _.
Arguments listTrials {R} _ _.
Arguments readTrial {R} _ _ _.
Arguments shape {R} _.
Arguments is_nan {R} _.
Arguments nan_free {R} _.
Arguments all_nan {R} _.
Arguments drop_trailing_nan {R} _.
Arguments split {R} _ _.
Arguments marker_index {R} _ _.
Arguments both_valid {R} _ _ _.
Arguments first_valid {R} _ _ _.

End Pipeline.

(** ** Vocabulary of the statements *)

Module Obs.
Import Py.

(** A core that checks the range of [num_participants] itself before doing
    anything else: the shape of an out-of-range error branch. *)
Definition range_checked {D} (core : Aml.kwargs -> exn + D) (kw : Aml.kwargs)
  : exn + D :=
  if ((Aml.num_participants kw <? 1)%Z || (100 <? Aml.num_participants kw)%Z)
  then inl (Exn ConfigError "num_participants out of range")
  else core kw.

(** What the handler of [generate_synthetic_data.py] prints for [e]. *)
Definition error_line (e : exn) : string :=
  nl +:+ "ERROR during generation: " +:+ exn_message e.

(** The exception [data[0]] raises on an empty dataset. *)
Definition empty_index_error : exn := Exn IndexError "list index out of range".

Section Wrapper.
Import GenerateSyntheticData.

(** The three checks of lines 77-88 all pass. *)
Definition validated (args : Namespace) (w : world) : bool :=
  fs_exists w (bodykin args) && fs_exists w (markerset args)
  && (1 <=? num_participants args)%Z && (num_participants args <=? 100)%Z.

(** The message of the check that fails first. *)
Definition rejection (args : Namespace) (w : world) : list string :=
  if negb (fs_exists w (bodykin args)) then
    ["ERROR: Body kinematics file not found: " +:+ bodykin args;
     "Download from: https://doi.org/10.5281/zenodo.4293999"]
  else if negb (fs_exists w (markerset args)) then
    ["ERROR: Marker set file not found: " +:+ markerset args]
  else
    ["ERROR: num_participants must be between 1 and 100"].

(** The lines of the summary up to the segment count. *)
Definition summary_head (n : nat) : list string :=
  [""; rule; "GENERATION COMPLETE"; rule; "Total segments:     " +:+ show_nat n].

(** The remaining lines of a summary that was printed to its end. *)
Definition summary_tail (abspath : string -> string) (e1 e2 : string)
    (args : Namespace) (mk lo hi : nat) : list string :=
  ["Markers per segment: " +:+ show_nat mk;
   "Segment lengths:    " +:+ show_nat lo +:+ " - " +:+ show_nat hi +:+ " frames";
   "Time elapsed:       " +:+ e1 +:+ " seconds (" +:+ e2 +:+ " minutes)";
   "Output saved to:    " +:+ abspath (output args);
   rule; "";
   "Next step: Train the model using trainAlgorithm.py"].

(** The last line of a completed summary. *)
Definition next_step : string :=
  "Next step: Train the model using trainAlgorithm.py".

(** A fatal error was reported: by [argparse], by one of the checks, or
    by the handler together with the traceback. *)
Definition fatal_report (t : list event) : Prop :=
  (exists missing, In (ArgparseError missing) t)
  \/ (exists msg, In ("ERROR: " +:+ msg) (printed t))
  \/ (exists e, In (error_line e) (printed t) /\ In (PrintExc e) t).

(** The line that reports the segment count. *)
Definition total_segments (n : nat) : string :=
  "Total segments:     " +:+ show_nat n.

End Wrapper.

Section Template.
Import ConfigTemplate.

(** The entries [validate_config] appends to [errors]. *)
Definition expected_errors (c : constants) (w : world) : list string :=
  (if fs_exists w (BODYKIN_PATH c) then []
   else ["Body kinematics file not found: " +:+ BODYKIN_PATH c;
         "  Download from: https://doi.org/10.5281/zenodo.4293999"]) ++
  (if fs_exists w (MARKERSET_PATH c) then []
   else ["Marker set file not found: " +:+ MARKERSET_PATH c]) ++
  (if ((NUM_PARTICIPANTS c <? 1)%Z || (100 <? NUM_PARTICIPANTS c)%Z)
   then ["NUM_PARTICIPANTS must be 1-100, got " +:+ show_Z (NUM_PARTICIPANTS c)]
   else []).

(** The entries [validate_config] appends to [warnings]. *)
Definition expected_warnings (dirname : string -> string) (c : constants) (w : world)
  : list string :=
  (if ((SAMPLING_FREQUENCY c <? 50)%Z || (500 <? SAMPLING_FREQUENCY c)%Z)
   then ["Unusual sampling frequency: " +:+ show_Z (SAMPLING_FREQUENCY c) +:+ " Hz";
         "  Common values: 120, 240 Hz"]
   else []) ++
  (if ((MAX_SEGMENT_LENGTH c <? 60)%Z || (500 <? MAX_SEGMENT_LENGTH c)%Z)
   then ["Unusual max segment length: " +:+ show_Z (MAX_SEGMENT_LENGTH c) +:+ " frames";
         "  Typical range: 120-240 frames"]
   else []) ++
  (if negb (String.eqb (dirname (OUTPUT_PATH c)) "") && negb (fs_exists w (dirname (OUTPUT_PATH c)))
   then ["Output directory will be created: " +:+ dirname (OUTPUT_PATH c)]
   else []).

(** The first line of each of the two warnings about unusual values. *)
Definition frequency_warning (c : constants) : string :=
  "Unusual sampling frequency: " +:+ show_Z (SAMPLING_FREQUENCY c) +:+ " Hz".

Definition length_warning (c : constants) : string :=
  "Unusual max segment length: " +:+ show_Z (MAX_SEGMENT_LENGTH c) +:+ " frames".

(** The prompt of the confirmation step. *)
Definition prompt : string := "Proceed with generation? [y/N]: ".
End Template.

End Obs.

(** ** Vocabulary of the statements about the pipeline *)

Module PipelineObs.
Import Py Pipeline.

(** [ceil(L / M)] on counts. *)
Definition ceil_div (L M : nat) : nat := ((L + M - 1) / M)%nat.

(** The frames [start, stop) as a list. *)
Definition frames_of (r : nat * nat) : list nat := seq r.1 (r.2 - r.1).

Section Segments.
Context {R : Type}.

(** The chunks of the partition that [split] does not emit. *)
Definition dropped (traj : GlobalMarkerTrajectory R) (M : nat)
  : list (TrajectorySegment R) :=
  drop (length (split traj M)) (chunks M traj).

(** The frame range [start, stop) of the [i]-th chunk of a trial cut with
    [maxLen = M]. *)
Definition frame_range (M i : nat) (c : TrajectorySegment R) : nat * nat :=
  ((i * M)%nat, (i * M + length c)%nat).

Definition frame_ranges (M : nat) (cs : list (TrajectorySegment R))
  : list (nat * nat) :=
  imap (frame_range M) cs.

(** The frames covered by the chunks, one range after the other. *)
Definition covered (M : nat) (cs : list (TrajectorySegment R)) : list nat :=
  concat (map frames_of (frame_ranges M cs)).

(** Both entries of the motion at frame [f] are present. *)
Definition frame_present (sm : SegmentMotion R) (f : nat) : bool :=
  match rotation sm !! f, translation sm !! f with
  | Some (Some _), Some (Some _) => true
  | _, _ => false
  end.

(** No frame of any segment of the trial is marked invalid or missing. *)
Definition trial_complete (trial : TrialKinematics R) : bool :=
  forallb (fun kv => forallb (frame_present kv.2) (seq 0 (frameCount trial)))
          (map_to_list (segments trial)).

(** The same holds for every trial of the first [n] participants. *)
Definition source_complete (rd : KinematicsReader R) (n : nat) : bool :=
  forallb
    (fun p =>
       match listTrials rd p with
       | None => true
       | Some ts =>
           forallb (fun t => match readTrial rd p t with
                             | None => true
                             | Some trial => trial_complete trial
                             end) ts
       end)
    (take n (listParticipants rd)).

(** Two readers give the same answers about the first [n] participants. *)
Definition same_selection (rd1 rd2 : KinematicsReader R) (n : nat) : Prop :=
  listParticipants rd1 = listParticipants rd2 /\
  forall p, In p (take n (listParticipants rd1)) ->
            listTrials rd1 p = listTrials rd2 p
            /\ forall t, readTrial rd1 p t = readTrial rd2 p t.
End Segments.

(** *** An instance on integer coordinates, for the test scenarios *)

Module Scenario.

Definition zvec : Type := vec3 Z.
Definition zmat : Type := mat3 Z.

Definition identity : zmat := ((1, 0, 0), (0, 1, 0), (0, 0, 1))%Z.

(** Rows of unit length, pairwise orthogonal. *)
Definition orthonormal (m : zmat) : bool :=
  let '(r1, r2, r3) := m in
  let d := dot Z Z.add Z.mul in
  (d r1 r1 =? 1)%Z && (d r2 r2 =? 1)%Z && (d r3 r3 =? 1)%Z
  && (d r1 r2 =? 0)%Z && (d r1 r3 =? 0)%Z && (d r2 r3 =? 0)%Z.

(** The convention chosen for the scenarios: world axes, centred at the
    midpoint of the two alignment markers. *)
Definition basis_of (r l : zvec) : zmat := identity.

Definition origin_of (r l : zvec) : zvec :=
  let '(r1, r2, r3) := r in
  let '(l1, l2, l3) := l in
  ((r1 + l1) / 2, (r2 + l2) / 2, (r3 + l3) / 2)%Z.

Definition marker (nm seg : string) (x y z : Z) : MarkerDefinition Z :=
  {| name := nm; hostSegment := seg; localOffset := (x, y, z) |}.

(** Five markers on two segments; RAC and LAC are the alignment pair. *)
Definition catalog : list (MarkerDefinition Z) :=
  [marker "RAC" "torso" 200 0 400; marker "LAC" "torso" (-200) 0 400;
   marker "C7" "torso" 0 (-80) 450; marker "RASI" "pelvis" 120 90 0;
   marker "LASI" "pelvis" (-120) 90 0].

(** A segment standing still for [n] frames, [gap] telling which frames
    the source marks missing. *)
Definition still (seg : string) (n : nat) (gap : nat -> bool) : SegmentMotion Z :=
  {| segmentName := seg;
     rotation := map (fun f => if gap f then None else Some identity) (seq 0 n);
     translation := map (fun f => if gap f then None else Some (0, 0, 1000)%Z) (seq 0 n);
     scale := (1, 1, 1)%Z |}.

Definition trial (n : nat) (gap : nat -> bool) : TrialKinematics Z :=
  {| frameCount := n;
     segments := <["torso" := still "torso" n gap]>
                   (<["pelvis" := still "pelvis" n gap]> ∅) |}.

(** An archive whose participants each hold the one trial [walk]. *)
Definition archive (participants : list string) (n : nat) (gap : nat -> bool)
  : KinematicsReader Z :=
  {| listParticipants := participants;
     listTrials := fun p => if bool_decide (p ∈ participants) then Some ["walk"] else None;
     readTrial := fun p t =>
       if bool_decide (p ∈ participants) && String.eqb t "walk"
       then Some (trial n gap) else None |}.

Definition config (n maxLen : Z) : Aml.kwargs :=
  {| Aml.bodykinpath := "bodykinematics.hdf5";
     Aml.markersetpath := "MarkerSet.xml";
     Aml.outputfile := "simulatedTrajectories.pickle";
     Aml.alignMkR := "RAC";
     Aml.alignMkL := "LAC";
     Aml.fs := 240;
     Aml.num_participants := n;
     Aml.max_len := maxLen |}.

(** The pipeline on this instance, reading [rd] and the catalog above. *)
Definition generate (rd : KinematicsReader Z) (cfg : Aml.kwargs) :=
  Pipeline.generate Z Z.add Z.sub Z.mul orthonormal basis_of origin_of
    (fun _ => Some catalog) (fun _ => rd) cfg.

(** An archive that differs from [archive participants n gap] only in
    what it holds for the participant [other]. *)
Definition archive_but (participants : list string) (n : nat) (gap : nat -> bool)
    (other : string) : KinematicsReader Z :=
  {| listParticipants := participants;
     listTrials := fun p =>
       if String.eqb p other then Some ["run"; "jump"]
       else if bool_decide (p ∈ participants) then Some ["walk"] else None;
     readTrial := fun p t =>
       if String.eqb p other then Some (trial 7 gap)
       else if bool_decide (p ∈ participants) && String.eqb t "walk"
            then Some (trial n gap) else None |}.

(** A trajectory of one marker: 240 valid frames, then 60 frames of NaN. *)
Definition fading : GlobalMarkerTrajectory Z :=
  replicate 240 [Some (0, 0, 0)%Z] ++ replicate 60 [None].

(** Ten frames of one marker, all NaN. *)
Definition blank : GlobalMarkerTrajectory Z := replicate 10 [None].

(** The five aligned marker positions of a frame of a still trial. *)
Definition still_frame : list (position Z) :=
  [Some (200, 0, 0); Some (-200, 0, 0); Some (0, -80, 50);
   Some (120, 90, -400); Some (-120, 90, -400)]%Z.

(** No frame is missing. *)
Definition no_gap (f : nat) : bool := false.

(** Frame 1 alone is missing. *)
Definition one_gap (f : nat) : bool := Nat.eqb f 1.

End Scenario.

End PipelineObs.

(** ** Concrete runs of the two scripts *)

Module Demo.
Import Py.

(** A tensor reduced to its shape. *)
Definition tensor : Type := list nat.
Definition shape (t : tensor) : list nat := t.

(** Cores that return two segments, return nothing, and raise. *)
Definition core_two (kw : Aml.kwargs) : exn + list tensor :=
  inr [[240; 5; 3]; [60; 5; 3]]%nat.
Definition core_none (kw : Aml.kwargs) : exn + list tensor := inr [].
Definition core_raising (kw : Aml.kwargs) : exn + list tensor :=
  inl (Exn EmptyDatasetError "no trial produced a segment").

Definition dirname (p : string) : string := "".
Definition abspath (p : string) : string := "/work/" +:+ p.
Definition seconds : string := "2.0".
Definition minutes : string := "0.0".

(** Every path exists and the user answers [y]. *)
Definition world_ready : world := {| fs_exists := fun _ => true; stdin := ["y"] |}.

(** Every path exists and the user answers [n]. *)
Definition world_declining : world := {| fs_exists := fun _ => true; stdin := ["n"] |}.

(** The first example of the script's help text, without the two optional
    arguments. *)
Definition cmd_defaults : GenerateSyntheticData.cmdline :=
  {| GenerateSyntheticData.opt_bodykin := Some "../data/bodykinematics.hdf5";
     GenerateSyntheticData.opt_markerset := Some "../data/MarkerSet.xml";
     GenerateSyntheticData.opt_output := Some "../data/simulatedTrajectories.pickle";
     GenerateSyntheticData.opt_align_right := Some "RAC";
     GenerateSyntheticData.opt_align_left := Some "LAC";
     GenerateSyntheticData.opt_fs := Some 240%Z;
     GenerateSyntheticData.opt_num_participants := None;
     GenerateSyntheticData.opt_max_len := None |}.

(** The same with [--num-participants n --max-len 180]. *)
Definition cmd_with (n : Z) : GenerateSyntheticData.cmdline :=
  {| GenerateSyntheticData.opt_bodykin := Some "../data/bodykinematics.hdf5";
     GenerateSyntheticData.opt_markerset := Some "../data/MarkerSet.xml";
     GenerateSyntheticData.opt_output := Some "../data/simulatedTrajectories.pickle";
     GenerateSyntheticData.opt_align_right := Some "RAC";
     GenerateSyntheticData.opt_align_left := Some "LAC";
     GenerateSyntheticData.opt_fs := Some 240%Z;
     GenerateSyntheticData.opt_num_participants := Some n;
     GenerateSyntheticData.opt_max_len := Some 180%Z |}.

(** What [parse_args] makes of [cmd_with n]. *)
Definition args_with (n : Z) : GenerateSyntheticData.Namespace :=
  {| GenerateSyntheticData.bodykin := "../data/bodykinematics.hdf5";
     GenerateSyntheticData.markerset := "../data/MarkerSet.xml";
     GenerateSyntheticData.output := "../data/simulatedTrajectories.pickle";
     GenerateSyntheticData.align_right := "RAC";
     GenerateSyntheticData.align_left := "LAC";
     GenerateSyntheticData.fs := 240%Z;
     GenerateSyntheticData.num_participants := n;
     GenerateSyntheticData.max_len := 180%Z |}.

(** The template with another participant count. *)
Definition template_with (n : Z) : ConfigTemplate.constants :=
  {| ConfigTemplate.BODYKIN_PATH := "../data/bodykinematics.hdf5";
     ConfigTemplate.MARKERSET_PATH := "../data/MarkerSet.xml";
     ConfigTemplate.OUTPUT_PATH := "../data/simulatedTrajectories.pickle";
     ConfigTemplate.ALIGN_MARKER_RIGHT := "RAC";
     ConfigTemplate.ALIGN_MARKER_LEFT := "LAC";
     ConfigTemplate.SAMPLING_FREQUENCY := 1000;
     ConfigTemplate.NUM_PARTICIPANTS := n;
     ConfigTemplate.MAX_SEGMENT_LENGTH := 30 |}.

End Demo.

(** ** Further vocabulary for the two generation scripts *)

Module More.
Import Py.

(** The directories created by [os.makedirs], in order. *)
Fixpoint made_dirs (t : list event) : list string :=
  match t with
  | [] => []
  | Makedirs d :: t' => d :: made_dirs t'
  | _ :: t' => made_dirs t'
  end.

(** The tracebacks printed, in order. *)
Fixpoint tracebacks (t : list event) : list exn :=
  match t with
  | [] => []
  | PrintExc e :: t' => e :: tracebacks t'
  | _ :: t' => tracebacks t'
  end.

(** The exception [t[i]] raises on a tuple that is too short. *)
Definition tuple_index_error : exn := Exn IndexError "tuple index out of range".

(** The exception [input] raises at the end of standard input. *)
Definition eof_error : exn := Exn EOFError "EOF when reading a line".

Section Shapes.
Context {tensor : Type}.
Variable shape : tensor -> list nat.

(** [[x.shape[0] for x in data]] when every tensor has a first
    dimension. *)
Fixpoint first_dims (data : list tensor) : option (list nat) :=
  match data with
  | [] => Some []
  | x :: t =>
      match nth_error (shape x) 0 with
      | None => None
      | Some n =>
          match first_dims t with
          | None => None
          | Some ns => Some (n :: ns)
          end
      end
  end.
End Shapes.

(** The stored state of the world after [os.makedirs d]. *)
Definition with_dir (w : world) (d : string) : world :=
  {| fs_exists := fun p => if String.eqb p d then true else fs_exists w p;
     stdin := stdin w |}.

(** The spellings of [y] and [yes] in upper and lower case. *)
Definition yes_spellings : list string :=
  ["y"; "Y"; "yes"; "yeS"; "yEs"; "yES"; "Yes"; "YeS"; "YEs"; "YES"].

End More.

(** ** What the wrapper's summary prints and how it ends, as a function *)

Module SummaryTable.
Import Py Obs More.

Section Table.
Context {tensor : Type}.
Variable shape : tensor -> list nat.
Variable abspath : string -> string.
Variables e1 e2 : string.

(** The lines of the summary and the exception that ends it, if any. *)
Definition summary_outcome (args : GenerateSyntheticData.Namespace)
    (data : list tensor) : list string * option exn :=
  match data with
  | [] => (summary_head 0, Some empty_index_error)
  | d0 :: _ =>
      match nth_error (shape d0) 1 with
      | None => (summary_head (length data), Some tuple_index_error)
      | Some mk =>
          match first_dims shape data with
          | Some (l :: ls) =>
              (summary_head (length data)
                 ++ summary_tail abspath e1 e2 args mk
                      (fold_left Nat.min ls l) (fold_left Nat.max ls l),
               None)
          | _ =>
              (summary_head (length data)
                 ++ ["Markers per segment: " +:+ show_nat mk],
               Some tuple_index_error)
          end
      end
  end.
End Table.

End SummaryTable.

(** ** The wrapper's run after validation, laid out *)

Module WrapperTable.
Import Py Obs More.

(** The configuration block of lines 97-108. *)
Definition display_lines (args : GenerateSyntheticData.Namespace) : list string :=
  [GenerateSyntheticData.rule;
   "SYNTHETIC TRAJECTORY GENERATION";
   GenerateSyntheticData.rule;
   "Body kinematics:    " +:+ GenerateSyntheticData.bodykin args;
   "Marker set:         " +:+ GenerateSyntheticData.markerset args;
   "Output file:        " +:+ GenerateSyntheticData.output args;
   "Alignment markers:  " +:+ GenerateSyntheticData.align_right args +:+ " (R) / "
      +:+ GenerateSyntheticData.align_left args +:+ " (L)";
   "Sampling frequency: " +:+ show_Z (GenerateSyntheticData.fs args) +:+ " Hz";
   "Participants:       "
      +:+ show_Z (GenerateSyntheticData.num_participants args) +:+ " / 100";
   "Max segment length: " +:+ show_Z (GenerateSyntheticData.max_len args) +:+ " frames";
   GenerateSyntheticData.rule;
   ""].

(** Whether lines 91-94 create the directory [d] of the output path. *)
Definition must_create (w : world) (d : string) : bool :=
  negb (String.eqb d "") && negb (fs_exists w d).

(** A dataset the summary can be printed for: a first tensor with two
    dimensions at least, and a first dimension on every tensor. *)
Definition well_shaped {tensor : Type} (shape : tensor -> list nat)
    (data : list tensor) : Prop :=
  (exists d ds, data = d :: ds /\ (2 <= length (shape d))%nat)
  /\ Forall (fun x => (1 <= length (shape x))%nat) data.

End WrapperTable.

(** ** The template's run past the prompt, laid out *)

Module TemplateTable.
Import Py Obs More.

Section Table.
Variable c : ConfigTemplate.constants.
Context {tensor : Type}.
Variable shape : tensor -> list nat.
Variable abspath : string -> string.
Variables e1 e2 : string.

(** The first five lines of the template's summary. *)
Definition summary_head_t (n : nat) : list string :=
  [""; ConfigTemplate.rule; "GENERATION COMPLETE"; ConfigTemplate.rule;
   "Total segments:      " +:+ show_nat n].

(** The lines of the template's summary and the exception that ends it,
    if any. *)
Definition summary_outcome_t (data : list tensor) : list string * option exn :=
  match data with
  | [] => (summary_head_t 0, Some empty_index_error)
  | d0 :: _ =>
      match nth_error (shape d0) 1 with
      | None => (summary_head_t (length data), Some tuple_index_error)
      | Some mk =>
          (summary_head_t (length data)
             ++ ["Markers per segment: " +:+ show_nat mk;
                 "Time elapsed:        " +:+ e1 +:+ " seconds (" +:+ e2 +:+ " min)";
                 "Output saved to:     " +:+ abspath (ConfigTemplate.OUTPUT_PATH c);
                 "";
                 "Next steps:";
                 "  1. Inspect data: python inspect_synthetic_data.py "
                    +:+ ConfigTemplate.OUTPUT_PATH c;
                 "  2. Train model:  python ../trainAlgorithm.py";
                 ConfigTemplate.rule],
           None)
      end
  end.
End Table.

(** The user answers the prompt with [y] or [yes] in any letter case. *)
Definition answers_yes (w : world) : bool :=
  match stdin w with
  | [] => false
  | response :: _ => negb (ConfigTemplate.declined response)
  end.

(** The warning about the output directory. *)
Definition directory_warning (d : string) : string :=
  "Output directory will be created: " +:+ d.

End TemplateTable.

(** ** Further concrete runs *)

Module MoreDemo.
Import Py.

(** The output path lies in [../data]. *)
Definition dirname_data (p : string) : string := "../data".

(** Everything exists but the directory [../data]; the user answers
    [YES]. *)
Definition world_fresh : world :=
  {| fs_exists := fun p => negb (String.eqb p "../data"); stdin := ["YES"] |}.

End MoreDemo.

(** ** Python idioms shared by the two inspection scripts *)

Module PyLib.
Import Py.

(** A library call that either raises or returns. *)
Definition lift {A} (r : exn + A) : py A :=
  match r with
  | inl e => raise e
  | inr a => ret a
  end.

(** [for x in l: body x] *)
Fixpoint for_each {A} (l : list A) (body : A -> py unit) : py unit :=
  match l with
  | [] => ret tt
  | x :: t => body x ;; for_each t body
  end.

(** The formats [{s:15s}] and [{n:<8}]: padded with spaces on the right,
    never cut. *)
Definition ljust (s : string) (width : nat) : string :=
  s +:+ str_repeat " " (width - String.length s)%nat.

(** The formats [{n:3d}] and [{n:5d}]: padded with spaces on the left. *)
Definition rjust (s : string) (width : nat) : string :=
  str_repeat " " (width - String.length s)%nat +:+ s.

(** The format [{n:,}]: the digits of [n] reversed, with a comma after
    every third digit that has a digit before it. *)
Fixpoint commas (reversed : list ascii) (since : nat) : list ascii :=
  match reversed with
  | [] => []
  | c :: rest =>
      match rest with
      | [] => [c]
      | _ :: _ =>
          if (since =? 2)%nat then c :: ","%char :: commas rest 0
          else c :: commas rest (S since)
      end
  end.

Definition show_thousands (n : nat) : string :=
  string_of_list_ascii
    (rev (commas (rev (list_ascii_of_string (show_nat n))) 0)).

(** A computation that only prints: the lines [ls], whatever the world,
    which it leaves as it was, and the result [r]. *)
Definition yields {A} (m : py A) (ls : list string) (r : stop + A) : Prop :=
  forall w, m w = (map Print ls, w, r).

(** A computation that only prints and that returns when [ok] holds, with
    a value that satisfies [P], and raises an exception otherwise. *)
Definition settles {A} (m : py A) (ok : bool) (P : A -> Prop) : Prop :=
  if ok then exists ls a, yields m ls (inr a) /\ P a
  else exists ls e, yields m ls (inl (Raised e)).

End PyLib.

(** ** check_hdf5_structure.py *)

Module CheckHdf5Structure.
Import Py PyLib.

(** What a name in an HDF5 file stands for: a group with its members in
    the order [keys()] lists them, a dataset with its [shape] and the text
    of its [dtype], or a committed datatype, which is neither.  The file
    object itself is the group of its top-level members. *)
#[warnings="-register-all"]
Inductive item : Type :=
| Group (members : list (string * item))
| Dataset (shape : list nat) (dtype : string)
| Datatype.

Definition file : Type := list (string * item).

(** [group[key]] as a lookup; names are unique within a group. *)
Fixpoint lookup (key : string) (members : list (string * item)) : option item :=
  match members with
  | [] => None
  | (k, it) :: rest => if String.eqb k key then Some it else lookup key rest
  end.

(** [key in group] *)
Definition contains (members : list (string * item)) (key : string) : bool :=
  if lookup key members is Some _ then true else false.

Definition class_name (it : item) : string :=
  match it with
  | Group _ => "Group"
  | Dataset _ _ => "Dataset"
  | Datatype => "Datatype"
  end.

(** The exception of [it.attr] for an attribute the object lacks. *)
Definition attribute_error (it : item) (attr : string) : exn :=
  Exn (OtherException "AttributeError")
      ("'" +:+ class_name it +:+ "' object has no attribute '" +:+ attr +:+ "'").

(** [str(t)] for a tuple of dimensions. *)
Definition show_tuple (t : list nat) : string :=
  match t with
  | [] => "()"
  | [n] => "(" +:+ show_nat n +:+ ",)"
  | _ => "(" +:+ String.concat ", " (map show_nat t) +:+ ")"
  end.

(** [', '.join(l[:5])] followed by ['...'] when [len(l) > 5]. *)
Definition first_five (l : list string) : string :=
  String.concat ", " (take 5 l) +:+ (if (5 <? length l)%nat then "..." else "").

(** Lines 22-32.  The loop body for one member and, inside it, the loop of
    the recursive call over the members of a group; [group[key]] is the
    member listed under [key]. *)
Fixpoint print_member (indent : nat) (key : string) (it : item) {struct it} : py unit :=
  let prefix := str_repeat "  " indent in
  match it with
  | Group members =>
      print (prefix +:+ "📁 " +:+ key +:+ "/") ;;
      when_ (indent <? 3)%nat
        ((fix members_loop (l : list (string * item)) : py unit :=
            match l with
            | [] => ret tt
            | (k, i) :: rest => print_member (indent + 1) k i ;; members_loop rest
            end) members)
  | Dataset shape dtype =>
      print (prefix +:+ "📄 " +:+ key +:+ " - shape: " +:+ show_tuple shape
               +:+ ", dtype: " +:+ dtype)
  | Datatype => ret tt
  end.

Definition print_group_structure (group : list (string * item)) (indent : nat)
  : py unit :=
  for_each group (fun m => print_member indent m.1 m.2).

(** The command line: the positional argument, if given, and the flag. *)
Record cmdline : Type := Cmdline {
  opt_hdf5_file : option string;
  opt_verbose : bool
}.

Record Namespace : Type := Args {
  hdf5_file : string;
  verbose : bool
}.

(** [parser.parse_args()]: without the positional argument the process
    ends with status 2. *)
Definition parse_args (c : cmdline) : py Namespace :=
  match opt_hdf5_file c with
  | Some f => ret {| hdf5_file := f; verbose := opt_verbose c |}
  | None => emit (ArgparseError ["hdf5_file"]) ;; sys_exit 2
  end.

Definition rule : string := str_repeat "=" 70.
Definition dashes : string := str_repeat "-" 70.

Section Main.

(** [h5py.File(path, 'r')]: the members of the file, or the exception
    raised for a file that cannot be read. *)
Variable h5py_File : string -> exn + file.

(** The exceptions of h5py for a name a group does not have and for a
    name looked up in something that is not a group. *)
Variable key_error : string -> exn.
Variable bad_subscript : item -> string -> exn.

(** [np.array(dataset)] and the texts [print] shows for [a[:, :, 0]] and
    for [a[:3, :]]; each may raise. *)
Context {array : Type}.
Variable np_array : item -> exn + array.
Variable frame0 : array -> exn + string.
Variable first3 : array -> exn + string.

(** [os.path.abspath] and the size of the file in GB, two decimals. *)
Variable os_path_abspath : string -> string.
Variable size_gb_2f : string -> string.

(** [group[key]] *)
Definition getitem (group : list (string * item)) (key : string) : py item :=
  match lookup key group with
  | Some it => ret it
  | None => raise (key_error key)
  end.

(** [it[key]] *)
Definition subscript (it : item) (key : string) : py item :=
  match it with
  | Group members => getitem members key
  | _ => raise (bad_subscript it key)
  end.

(** [hf[k1][k2]...] *)
Fixpoint descend (it : item) (names : list string) : py item :=
  match names with
  | [] => ret it
  | key :: rest => x ← subscript it key; descend x rest
  end.

(** [list(it.keys())] *)
Definition keys (it : item) : py (list string) :=
  match it with
  | Group members => ret (map fst members)
  | _ => raise (attribute_error it "keys")
  end.

(** [it.shape] *)
Definition shape_of (it : item) : py (list nat) :=
  match it with
  | Dataset shape _ => ret shape
  | _ => raise (attribute_error it "shape")
  end.

(** Lines 72-95; the value is [(sids, trials)], which line 124 reads. *)
Definition kinematics (hf : file) : py (list string * list string) :=
  print "🏃 KINEMATICS DATA:" ;;
  print dashes ;;
  kin ← getitem hf "kin";
  sids ← keys kin;
  print ("Number of participants: " +:+ show_nat (length sids)) ;;
  print ("Participant IDs: " +:+ first_five sids) ;;
  print "" ;;
  sample_sid ← list_index sids 0;
  participant ← descend (Group hf) ["kin"; sample_sid];
  trials ← keys participant;
  print ("Example participant: " +:+ sample_sid) ;;
  print ("  Trials: " +:+ show_nat (length trials)) ;;
  print ("  Trial names: " +:+ first_five trials) ;;
  print "" ;;
  sample_trial ← list_index trials 0;
  trial ← descend (Group hf) ["kin"; sample_sid; sample_trial];
  segments ← keys trial;
  print ("  Example trial: " +:+ sample_trial) ;;
  print ("    Body segments: " +:+ show_nat (length segments)) ;;
  for_each segments (fun seg =>
    data ← descend (Group hf) ["kin"; sample_sid; sample_trial; seg];
    shape ← shape_of data;
    print ("      • " +:+ ljust seg 15 +:+ " - shape: " +:+ show_tuple shape)) ;;
  print "" ;;
  ret (sids, trials).

(** Lines 99-106 and 110-117: the two blocks differ in their title and
    in the name of the group. *)
Definition per_segment (title name : string) (hf : file) : py unit :=
  print title ;;
  print dashes ;;
  group ← getitem hf name;
  segments ← keys group;
  print ("Body segments: " +:+ show_nat (length segments)) ;;
  for_each segments (fun seg =>
    data ← descend (Group hf) [name; seg];
    shape ← shape_of data;
    print ("  • " +:+ ljust seg 15 +:+ " - shape: " +:+ show_tuple shape
             +:+ " (participants × 3)")) ;;
  print "".

Definition center_of_mass : file -> py unit :=
  per_segment "📍 CENTER OF MASS DATA:" "com".

Definition scale : file -> py unit :=
  per_segment "📏 SCALE DATA (Body Dimensions):" "scale".

(** Lines 121-133.  [sample] holds [sids] and [trials], which are bound
    exactly when ['kin' in hf] held at line 71. *)
Definition sample_data (hf : file) (sample : option (list string * list string))
  : py unit :=
  print "🔍 SAMPLE DATA:" ;;
  print dashes ;;
  match sample with
  | Some (sids, trials) =>
      sid ← list_index sids 0;
      trial ← list_index trials 0;
      torso ← descend (Group hf) ["kin"; sid; trial; "torso"];
      sample_data ← lift (np_array torso);
      print "Sample transformation matrix (torso, frame 0):" ;;
      text ← lift (frame0 sample_data);
      print text ;;
      print ""
  | None => ret tt
  end ;;
  when_ (contains hf "scale")
    (torso ← descend (Group hf) ["scale"; "torso"];
     sample_scale ← lift (np_array torso);
     print "Sample scale factors (torso, first 3 participants):" ;;
     text ← lift (first3 sample_scale);
     print text ;;
     print "").

(** Lines 137-140. *)
Definition full_structure (hf : file) : py unit :=
  print "🗂️  FULL FILE STRUCTURE:" ;;
  print dashes ;;
  print_group_structure hf 0 ;;
  print "".

(** Lines 62-140: the [with] block. *)
Definition with_file (args : Namespace) : py unit :=
  hf ← lift (h5py_File (hdf5_file args));
  print "📦 TOP-LEVEL GROUPS:" ;;
  print dashes ;;
  for_each (map fst hf) (fun key => print ("  • " +:+ key +:+ "/")) ;;
  print "" ;;
  sample ← (if contains hf "kin"
            then s ← kinematics hf; ret (Some s)
            else ret None);
  when_ (contains hf "com") (center_of_mass hf) ;;
  when_ (contains hf "scale") (scale hf) ;;
  when_ (verbose args) (sample_data hf sample) ;;
  when_ (verbose args) (full_structure hf).

(** Lines 62-144: the body of the [try]. *)
Definition inspect (args : Namespace) : py unit :=
  with_file args ;;
  print rule ;;
  print "✓ File appears valid and properly formatted" ;;
  print rule.

(** Lines 146-150. *)
Definition on_exception (e : exn) : py unit :=
  print (nl +:+ "❌ ERROR reading file: " +:+ exn_message e) ;;
  traceback_print_exc e ;;
  sys_exit 1.

(** Lines 35-150. *)
Definition main (c : cmdline) : py unit :=
  args ← parse_args c;
  found ← os_path_exists (hdf5_file args);
  when_ (negb found)
    (print ("ERROR: File not found: " +:+ hdf5_file args) ;;
     print "" ;;
     print "Download the body kinematics data from:" ;;
     print "https://doi.org/10.5281/zenodo.4293999" ;;
     sys_exit 1) ;;
  print rule ;;
  print "BODY KINEMATICS HDF5 FILE INSPECTION" ;;
  print rule ;;
  print ("File: " +:+ os_path_abspath (hdf5_file args)) ;;
  print ("Size: " +:+ size_gb_2f (hdf5_file args) +:+ " GB") ;;
  print rule ;;
  print "" ;;
  try_except (inspect args) on_exception.

End Main.

End CheckHdf5Structure.

(** ** What the HDF5 checker looks at, as functions of the file *)

Module Hdf5Table.
Import Py PyLib CheckHdf5Structure.

(** The number of groups and datasets of a tree within its first [levels]
    levels, the height of a tree and all its groups and datasets. *)
Fixpoint entries_upto (levels : nat) (it : item) : nat :=
  match levels with
  | O => O
  | S l =>
      match it with
      | Group members => S (list_sum (map (fun m => entries_upto l m.2) members))
      | Dataset _ _ => 1
      | Datatype => 0
      end
  end.

Fixpoint height (it : item) : nat :=
  match it with
  | Group members =>
      S ((fix members_height (l : list (string * item)) : nat :=
            match l with
            | [] => O
            | m :: rest => Nat.max (height m.2) (members_height rest)
            end) members)
  | Dataset _ _ => 1
  | Datatype => 0
  end.

Fixpoint entries (it : item) : nat :=
  match it with
  | Group members =>
      S ((fix members_entries (l : list (string * item)) : nat :=
            match l with
            | [] => O
            | m :: rest => (entries m.2 + members_entries rest)%nat
            end) members)
  | Dataset _ _ => 1
  | Datatype => 0
  end.

(** Every name [keys()] lists in a group leads to a dataset. *)
Definition all_datasets (members : list (string * item)) : bool :=
  forallb (fun key => if lookup key members is Some (Dataset _ _) then true else false)
          (map fst members).

(** The group [name] is absent, or a group of datasets. *)
Definition flat_ok (name : string) (hf : file) : bool :=
  match lookup name hf with
  | None => true
  | Some (Group members) => all_datasets members
  | Some _ => false
  end.

(** The members of the first member of a group, when that is a group. *)
Definition first_group (members : list (string * item))
  : option (list (string * item)) :=
  match members with
  | (_, Group g) :: _ => Some g
  | _ => None
  end.

(** The trial the checker samples: the first trial of the first
    participant of [kin]. *)
Definition sampled_trial (hf : file) : option (list (string * item)) :=
  match lookup "kin" hf with
  | Some (Group participants) =>
      match first_group participants with
      | Some trials => first_group trials
      | None => None
      end
  | _ => None
  end.

(** [kin] is absent, or the sampled trial exists and is a group of
    datasets. *)
Definition kin_ok (hf : file) : bool :=
  match lookup "kin" hf with
  | None => true
  | Some _ =>
      match sampled_trial hf with
      | Some segments => all_datasets segments
      | None => false
      end
  end.

Section Verbose.
Context {array : Type}.
Variable np_array : item -> exn + array.

(** The group has a member [torso] that [np.array] accepts and of which
    the slice can be shown. *)
Definition torso_ok (render : array -> exn + string)
    (members : list (string * item)) : bool :=
  match lookup "torso" members with
  | Some it =>
      match np_array it with
      | inr a => if render a is inr _ then true else false
      | inl _ => false
      end
  | None => false
  end.

(** What [--verbose] needs beyond the plain run. *)
Definition sample_ok (frame0 first3 : array -> exn + string) (hf : file) : bool :=
  match lookup "kin" hf with
  | None => true
  | Some _ =>
      match sampled_trial hf with
      | Some segments => torso_ok frame0 segments
      | None => false
      end
  end
  && match lookup "scale" hf with
     | None => true
     | Some (Group members) => torso_ok first3 members
     | Some _ => false
     end.
End Verbose.

Section Accepted.
Context {array : Type}.
Variable np_array : item -> exn + array.
Variables frame0 first3 : array -> exn + string.

(** What the checker requires of a file it could open. *)
Definition accepted (is_verbose : bool) (hf : file) : bool :=
  kin_ok hf && flat_ok "com" hf && flat_ok "scale" hf
  && (if is_verbose then sample_ok np_array frame0 first3 hf else true).
End Accepted.

(** The lines printed before the file is opened. *)
Definition header (abspath size_gb_2f : string -> string) (path : string)
  : list string :=
  [rule; "BODY KINEMATICS HDF5 FILE INSPECTION"; rule;
   "File: " +:+ abspath path;
   "Size: " +:+ size_gb_2f path +:+ " GB";
   rule; ""].

(** The lines printed for a path that does not exist. *)
Definition not_found (path : string) : list string :=
  ["ERROR: File not found: " +:+ path;
   "";
   "Download the body kinematics data from:";
   "https://doi.org/10.5281/zenodo.4293999"].

(** The last lines of a run that found nothing wrong. *)
Definition verdict : list string :=
  [rule; "✓ File appears valid and properly formatted"; rule].

(** The line printed for a caught exception. *)
Definition error_line (e : exn) : string :=
  nl +:+ "❌ ERROR reading file: " +:+ exn_message e.

End Hdf5Table.

(** ** inspect_synthetic_data.py *)

Module InspectSyntheticData.
Import Py PyLib.

(** The command line: the positional argument, if given, and the two
    flags. *)
Record cmdline : Type := Cmdline {
  opt_pickle_file : option string;
  opt_verbose : bool;
  opt_check_nans : bool
}.

Record Namespace : Type := Args {
  pickle_file : string;
  verbose : bool;
  check_nans : bool
}.

(** [parser.parse_args()]: without the positional argument the process
    ends with status 2. *)
Definition parse_args (c : cmdline) : py Namespace :=
  match opt_pickle_file c with
  | Some f => ret {| pickle_file := f; verbose := opt_verbose c;
                     check_nans := opt_check_nans c |}
  | None => emit (ArgparseError ["pickle_file"]) ;; sys_exit 2
  end.

Definition rule : string := str_repeat "=" 70.
Definition dashes : string := str_repeat "-" 70.

(** [str(t.shape)] for a tensor. *)
Definition show_size (t : list nat) : string :=
  "torch.Size([" +:+ String.concat ", " (map show_nat t) +:+ "])".

(** Line 80. *)
Definition bins : list nat := [0; 60; 120; 180; 240; 300]%nat.

(** [np.histogram(values, bins=edges)[0]] on counts: a value falls into
    the bin [[lo, hi)] of two neighbouring edges, the last bin being
    closed on the right as well. *)
Fixpoint np_histogram (values edges : list nat) : list nat :=
  match edges with
  | lo :: ((hi :: rest) as upper) =>
      match rest with
      | [] => [length (List.filter (fun v => (lo <=? v) && (v <=? hi))%nat values)]
      | _ :: _ =>
          length (List.filter (fun v => (lo <=? v) && (v <? hi))%nat values)
            :: np_histogram values upper
      end
  | _ => []
  end.

(** [sum(1 for l in lengths if l > edge)] *)
Definition count_above (lengths : list nat) (edge : nat) : nat :=
  length (List.filter (fun l => (edge <? l)%nat) lengths).

(** [enumerate(l)] *)
Definition enumerate {A} (l : list A) : list (nat * A) :=
  combine (seq 0 (length l)) l.

Section Main.

(** The dataset is a list of tensors, of which the script reads the
    [shape], [element_size()] and the number of NaN entries
    [torch.isnan(seg).sum().item()]. *)
Context {tensor : Type}.
Variable shape : tensor -> list nat.
Variable element_size : tensor -> nat.
Variable nan_count : tensor -> nat.

(** [open(path, 'rb')] followed by [pickle.load]. *)
Variable pickle_load : string -> exn + list tensor.

(** [os.path.abspath] and the size of the file in MB, two decimals. *)
Variable os_path_abspath : string -> string.
Variable size_mb_2f : string -> string.

(** Floating-point renderings: [np.mean], [np.median] and [np.std] of
    the lengths, [100*a/b] with one and with three decimals for [b]
    other than 0, and a number of bytes in MB. *)
Variables mean_1f median_0f std_1f : list nat -> string.
Variable percent_1f : nat -> nat -> string.
Variable percent_3f : nat -> nat -> string.
Variable megabytes_2f : nat -> string.

(** Lines 95-96, [torch.cat] of the reshaped segments as an array, and
    the four statistics of the entries of one axis that are not NaN;
    [np.min] and [np.max] raise when there is none. *)
Context {coords : Type}.
Variable flatten : list tensor -> exn + coords.
Variables axis_min_8_1f axis_max_8_1f : coords -> nat -> exn + string.
Variables axis_mean_8_1f axis_std_8_1f : coords -> nat -> string.

(** Line 128, the rows of [t[0, :k, :]], and the three coordinates of a
    row in the format [8.2f]. *)
Context {row : Type}.
Variable first_frame_rows : tensor -> nat -> exn + list row.
Variable xyz_8_2f : row -> exn + string * string * string.

(** Lines 139-142: [seg.numpy()] with the number of its entries that
    are not NaN, and the text of their least and greatest. *)
Variable valid_values : tensor -> exn + nat.
Variable range_0f : tensor -> string.

(** [seg.numel()] *)
Definition numel (x : tensor) : nat := fold_right Nat.mul 1%nat (shape x).

(** Lines 70-77. *)
Definition length_statistics (lengths : list nat) : py unit :=
  print "📏 SEGMENT LENGTH STATISTICS:" ;;
  print dashes ;;
  lo ← py_min lengths;
  print ("  Minimum:           " +:+ show_nat lo +:+ " frames") ;;
  hi ← py_max lengths;
  print ("  Maximum:           " +:+ show_nat hi +:+ " frames") ;;
  print ("  Mean:              " +:+ mean_1f lengths +:+ " frames") ;;
  print ("  Median:            " +:+ median_0f lengths +:+ " frames") ;;
  print ("  Std deviation:     " +:+ std_1f lengths +:+ " frames") ;;
  print "".

(** Lines 80-88. *)
Definition length_distribution (data : list tensor) (lengths : list nat) : py unit :=
  let hist := np_histogram lengths bins in
  print "  Length distribution:" ;;
  for_each (seq 0 (length bins - 1)) (fun i =>
    lo ← list_index bins i;
    hi ← list_index bins (i + 1);
    h ← list_index hist i;
    print ("    " +:+ rjust (show_nat lo) 3 +:+ "-" +:+ rjust (show_nat hi) 3
             +:+ " frames: " +:+ rjust (show_nat h) 5 +:+ " segments ("
             +:+ percent_1f h (length data) +:+ "%)")) ;;
  longest ← py_max lengths;
  edge ← list_index bins (length bins - 1);
  when_ (edge <? longest)%nat
    (edge ← list_index bins (length bins - 1);
     let count := count_above lengths edge in
     print ("    >" +:+ rjust (show_nat edge) 3 +:+ " frames:       "
              +:+ rjust (show_nat count) 5 +:+ " segments ("
              +:+ percent_1f count (length data) +:+ "%)")) ;;
  print "".

(** Lines 91-106. *)
Definition coordinate_statistics (data : list tensor) : py unit :=
  print "🗺️  COORDINATE STATISTICS:" ;;
  print dashes ;;
  all_coords ← lift (flatten data);
  for_each (enumerate ["X"; "Y"; "Z"]) (fun an =>
    print ("  " +:+ an.2 +:+ "-axis (mm):") ;;
    lo ← lift (axis_min_8_1f all_coords an.1);
    print ("    Min:    " +:+ lo) ;;
    hi ← lift (axis_max_8_1f all_coords an.1);
    print ("    Max:    " +:+ hi) ;;
    print ("    Mean:   " +:+ axis_mean_8_1f all_coords an.1) ;;
    print ("    Std:    " +:+ axis_std_8_1f all_coords an.1)) ;;
  print "".

(** Lines 110-122.  The division of line 115 is evaluated before the
    line is printed. *)
Definition nan_analysis (data : list tensor) : py unit :=
  print "🔍 NaN ANALYSIS:" ;;
  print dashes ;;
  let total_values := list_sum (map numel data) in
  let total_nans := list_sum (map nan_count data) in
  print ("  Total values:      " +:+ show_thousands total_values) ;;
  when_ (total_values =? 0)%nat
    (raise (Exn (OtherException "ZeroDivisionError") "division by zero")) ;;
  print ("  NaN values:        " +:+ show_thousands total_nans +:+ " ("
           +:+ percent_3f total_nans total_values +:+ "%)") ;;
  (if (0 <? total_nans)%nat
   then print "  ⚠️  Warning: Data contains NaNs" ;;
        print "     This is unusual for synthetic data and may indicate an issue"
   else print "  ✓ No NaNs detected (expected for synthetic data)") ;;
  print "".

(** Lines 126-131. *)
Definition sample_data (data : list tensor) (num_markers : nat) : py unit :=
  print "🔬 SAMPLE DATA (First segment, first 3 markers, first frame):" ;;
  print dashes ;;
  first ← list_index data 0;
  sample ← lift (first_frame_rows first (Nat.min 3 num_markers));
  for_each (enumerate sample) (fun ic =>
    xyz ← lift (xyz_8_2f ic.2);
    print ("  Marker " +:+ show_nat ic.1 +:+ ": X=" +:+ xyz.1.1 +:+ ", Y=" +:+ xyz.1.2
             +:+ ", Z=" +:+ xyz.2 +:+ " mm")) ;;
  print "".

(** Lines 133-148. *)
Definition segment_information (data : list tensor) : py unit :=
  print "📈 DETAILED SEGMENT INFORMATION:" ;;
  print dashes ;;
  print (ljust "Segment" 10 +:+ " " +:+ ljust "Frames" 8 +:+ " " +:+ ljust "Shape" 20
           +:+ " " +:+ ljust "Data Range (mm)" 25) ;;
  print dashes ;;
  for_each (seq 0 (Nat.min 10 (length data))) (fun i =>
    seg ← list_index data i;
    valid ← lift (valid_values seg);
    let data_range := if (0 <? valid)%nat then range_0f seg else "N/A" in
    frames ← tuple_index (shape seg) 0;
    print (ljust (show_nat i) 10 +:+ " " +:+ ljust (show_nat frames) 8 +:+ " "
             +:+ ljust (show_size (shape seg)) 20 +:+ " " +:+ ljust data_range 25)) ;;
  when_ (10 <? length data)%nat
    (print ("... and " +:+ show_nat (length data - 10) +:+ " more segments")) ;;
  print "".

(** Lines 64-148: the body of [if len(data) > 0]. *)
Definition statistics (args : Namespace) (data : list tensor) : py unit :=
  first ← list_index data 0;
  num_markers ← tuple_index (shape first) 1;
  print ("Number of markers:   " +:+ show_nat num_markers) ;;
  print "" ;;
  lengths ← comprehension (fun seg => tuple_index (shape seg) 0) data;
  length_statistics lengths ;;
  length_distribution data lengths ;;
  coordinate_statistics data ;;
  when_ (check_nans args) (nan_analysis data) ;;
  when_ (verbose args) (sample_data data num_markers ;; segment_information data).

(** Lines 150-163. *)
Definition closing (args : Namespace) (data : list tensor) : py unit :=
  let bytes := list_sum (map (fun seg => element_size seg * numel seg)%nat data) in
  print "💾 MEMORY USAGE:" ;;
  print dashes ;;
  print ("  In-memory size:    " +:+ megabytes_2f bytes +:+ " MB") ;;
  print "" ;;
  print rule ;;
  print "✓ Data appears valid and ready for training" ;;
  print rule ;;
  print "" ;;
  print "Next steps:" ;;
  print "  1. Use this data to train the model with trainAlgorithm.py" ;;
  print ("  2. Specify datapath='" +:+ pickle_file args +:+ "' in training script").

(** Lines 49-163: the body of the [try]. *)
Definition report (args : Namespace) : py unit :=
  print "Loading data..." ;;
  data ← lift (pickle_load (pickle_file args));
  print "✓ Loaded successfully" ;;
  print "" ;;
  print "📊 DATASET STATISTICS:" ;;
  print dashes ;;
  print ("Number of segments:  " +:+ show_nat (length data)) ;;
  first ← list_index data 0;
  print "Data type:           <class 'torch.Tensor'>" ;;
  when_ (0 <? length data)%nat (statistics args data) ;;
  closing args data.

(** Lines 165-169. *)
Definition on_exception (e : exn) : py unit :=
  print (nl +:+ "❌ ERROR reading file: " +:+ exn_message e) ;;
  traceback_print_exc e ;;
  sys_exit 1.

(** Lines 23-169. *)
Definition main (c : cmdline) : py unit :=
  args ← parse_args c;
  found ← os_path_exists (pickle_file args);
  when_ (negb found)
    (print ("ERROR: File not found: " +:+ pickle_file args) ;;
     sys_exit 1) ;;
  print rule ;;
  print "SYNTHETIC TRAJECTORY DATA INSPECTION" ;;
  print rule ;;
  print ("File: " +:+ os_path_abspath (pickle_file args)) ;;
  print ("Size: " +:+ size_mb_2f (pickle_file args) +:+ " MB") ;;
  print rule ;;
  print "" ;;
  try_except (report args) on_exception.

End Main.

End InspectSyntheticData.

(** ** What the inspector requires, as functions of the dataset *)

Module InspectTable.
Import Py PyLib InspectSyntheticData.

Definition is_ok {A} (r : exn + A) : bool := if r is inr _ then true else false.

(** The line printed for a caught exception. *)
Definition error_line (e : exn) : string :=
  nl +:+ "❌ ERROR reading file: " +:+ exn_message e.

(** The exception of line 115 on a dataset without any value. *)
Definition zero_division : exn :=
  Exn (OtherException "ZeroDivisionError") "division by zero".

(** The lines printed before the file is loaded. *)
Definition header (abspath size_mb_2f : string -> string) (path : string)
  : list string :=
  [rule; "SYNTHETIC TRAJECTORY DATA INSPECTION"; rule;
   "File: " +:+ abspath path;
   "Size: " +:+ size_mb_2f path +:+ " MB";
   rule; ""].

(** The verdict line. *)
Definition verdict : string := "✓ Data appears valid and ready for training".

(** The rows of the length distribution. *)
Definition bin_row (percent_1f : nat -> nat -> string) (total lo hi h : nat) : string :=
  "    " +:+ rjust (show_nat lo) 3 +:+ "-" +:+ rjust (show_nat hi) 3
    +:+ " frames: " +:+ rjust (show_nat h) 5 +:+ " segments ("
    +:+ percent_1f h total +:+ "%)".

Fixpoint bin_rows (percent_1f : nat -> nat -> string) (total : nat)
    (edges hist : list nat) : list string :=
  match edges, hist with
  | lo :: ((hi :: _) as upper), h :: hs =>
      bin_row percent_1f total lo hi h :: bin_rows percent_1f total upper hs
  | _, _ => []
  end.

Definition overflow_row (percent_1f : nat -> nat -> string) (total count : nat)
  : string :=
  "    >" +:+ rjust (show_nat 300) 3 +:+ " frames:       "
    +:+ rjust (show_nat count) 5 +:+ " segments (" +:+ percent_1f count total +:+ "%)".

(** The two outcomes of the NaN analysis. *)
Definition nan_warning : string := "  ⚠️  Warning: Data contains NaNs".
Definition nan_clear : string := "  ✓ No NaNs detected (expected for synthetic data)".

Section Oracles.
Context {tensor : Type}.
Variable shape : tensor -> list nat.
Context {coords : Type}.
Variable flatten : list tensor -> exn + coords.
Variables axis_min_8_1f axis_max_8_1f : coords -> nat -> exn + string.
Context {row : Type}.
Variable first_frame_rows : tensor -> nat -> exn + list row.
Variable xyz_8_2f : row -> exn + string * string * string.
Variable valid_values : tensor -> exn + nat.

(** A first tensor with two dimensions at least, and a first dimension
    on every tensor. *)
Definition shapes_ok (data : list tensor) : bool :=
  match data with
  | first :: _ =>
      (2 <=? length (shape first))%nat
      && forallb (fun x => (1 <=? length (shape x))%nat) data
  | [] => false
  end.

(** The segments can be concatenated and each axis has a least and a
    greatest entry. *)
Definition coordinates_ok (data : list tensor) : bool :=
  match flatten data with
  | inr all_coords =>
      forallb (fun axis => is_ok (axis_min_8_1f all_coords axis)
                           && is_ok (axis_max_8_1f all_coords axis))
              [0; 1; 2]%nat
  | inl _ => false
  end.

(** The dataset holds at least one value. *)
Definition values_ok (data : list tensor) : bool :=
  negb (list_sum (map (numel shape) data) =? 0)%nat.

(** The first frame of the first segment can be sliced and its rows
    shown. *)
Definition sample_ok (data : list tensor) : bool :=
  match data with
  | first :: _ =>
      match nth_error (shape first) 1 with
      | Some num_markers =>
          match first_frame_rows first (Nat.min 3 num_markers) with
          | inr sample => forallb (fun coords => is_ok (xyz_8_2f coords)) sample
          | inl _ => false
          end
      | None => false
      end
  | [] => false
  end.

(** Each of the first ten segments converts to an array. *)
Definition segments_ok (data : list tensor) : bool :=
  forallb (fun seg => is_ok (valid_values seg)) (take 10 data).

(** What the inspector requires of a dataset beyond its shapes. *)
Definition readable (is_check_nans is_verbose : bool) (data : list tensor) : bool :=
  coordinates_ok data
  && (if is_check_nans then values_ok data else true)
  && (if is_verbose then sample_ok data && segments_ok data else true).

(** What the inspector requires of a dataset it could load. *)
Definition accepted (is_check_nans is_verbose : bool) (data : list tensor) : bool :=
  shapes_ok data && readable is_check_nans is_verbose data.
End Oracles.

End InspectTable.

(** ** Concrete files and datasets *)

Module ToolsDemo.
Import Py CheckHdf5Structure InspectSyntheticData.

(** A file laid out as the checker describes it, with one participant,
    one trial and the segment [torso]. *)
Definition hf_complete : file :=
  [("com", Group [("torso", Dataset [100; 3]%nat "float64")]);
   ("kin", Group [("S01", Group [("walk",
              Group [("torso", Dataset [4; 4; 300]%nat "float64")])])]);
   ("scale", Group [("torso", Dataset [100; 3]%nat "float64")])].

(** A file whose [kin] group has no participant, and a file that holds
    one dataset and none of the three groups. *)
(** A file nested five levels deep. *)
Definition hf_deep : file :=
  [("a", Group [("b", Group [("c", Group [("d",
      Group [("e", Dataset [1]%nat "int64")])])])])].

Definition hf_empty_kin : file := [("kin", Group [])].
Definition hf_other : file := [("notes", Dataset [3]%nat "int64")].

Definition key_error (key : string) : exn := Exn (OtherException "KeyError") key.
Definition bad_subscript (it : item) (key : string) : exn :=
  Exn (OtherException "TypeError") key.

(** An array reduced to the dataset it was read from; every slice shows
    as the same text. *)
Definition np_array (it : item) : exn + item := inr it.
Definition slice_text (a : item) : exn + string := inr "[[1. 0. 0. 0.]]".

Definition size_2f (path : string) : string := "0.01".

Definition cmd_hdf5 (is_verbose : bool) : CheckHdf5Structure.cmdline :=
  {| opt_hdf5_file := Some "../data/bodykinematics.hdf5";
     CheckHdf5Structure.opt_verbose := is_verbose |}.

(** The checker on the file [hf]. *)
Definition checker (hf : file) : CheckHdf5Structure.cmdline -> py unit :=
  CheckHdf5Structure.main (fun _ => inr hf) key_error bad_subscript np_array
    slice_text slice_text Demo.abspath size_2f.

(** The inspector on the dataset [data], with 4-byte entries, no NaN and
    every number shown as [0.0]. *)
Definition cmd_pickle (is_verbose is_check_nans : bool) : InspectSyntheticData.cmdline :=
  {| opt_pickle_file := Some "../data/simulatedTrajectories.pickle";
     InspectSyntheticData.opt_verbose := is_verbose;
     opt_check_nans := is_check_nans |}.

Definition inspector (data : list Demo.tensor) : InspectSyntheticData.cmdline -> py unit :=
  InspectSyntheticData.main Demo.shape (fun _ => 4%nat) (fun _ => 0%nat)
    (fun _ => inr data) Demo.abspath size_2f
    (fun _ => "0.0") (fun _ => "0") (fun _ => "0.0")
    (fun _ _ => "0.0") (fun _ _ => "0.000") (fun _ => "0.00")
    (fun d => inr d) (fun _ _ => inr "     0.0") (fun _ _ => inr "     0.0")
    (fun _ _ => "     0.0") (fun _ _ => "     0.0")
    (fun (_ : Demo.tensor) (k : nat) => inr (seq 0 k))
    (fun _ : nat => inr ("    0.00", "    0.00", "    0.00"))
    (fun t => inr (InspectSyntheticData.numel Demo.shape t))
    (fun _ => "0 to 0").

Definition two_segments : list Demo.tensor := [[240; 5; 3]; [60; 5; 3]]%nat.

End ToolsDemo.

(** ** test_attention_models.py *)

Module TestAttentionModels.
Import Py PyLib.

(** What the script reads and assigns outside itself: the two settings of
    the module [automarkerlabel], and the number of tensors drawn so far
    from the random generator of torch. *)
Record state : Type := State {
  model_type : string;
  nAttentionHeads : Z;
  drawn : nat
}.

(** A computation of the script: from a state to the events it performed,
    the state it leaves and either the reason it stopped or its value. *)
Definition test (A : Type) : Type := state -> list event * state * (stop + A).

Definition ret {A} (a : A) : test A := fun s => ([], s, inr a).

Definition bind {A B} (m : test A) (k : A -> test B) : test B :=
  fun s =>
    match m s with
    | (t1, s1, inl stop) => (t1, s1, inl stop)
    | (t1, s1, inr a) =>
        match k a s1 with
        | (t2, s2, r) => (t1 ++ t2, s2, r)
        end
    end.

#[global] Instance test_ret : MRet test := @ret.
#[global] Instance test_bind : MBind test := fun A B k m => bind m k.

Definition print (line : string) : test unit := fun s => ([Print line], s, inr tt).

Definition traceback_print_exc (e : exn) : test unit :=
  fun s => ([PrintExc e], s, inr tt).

Definition sys_exit {A} (code : Z) : test A := fun s => ([], s, inl (SystemExit code)).

Definition raise {A} (e : exn) : test A := fun s => ([], s, inl (Raised e)).

(** A library call that either raises or returns. *)
Definition lift {A} (r : exn + A) : test A :=
  match r with
  | inl e => raise e
  | inr a => ret a
  end.

(** Reading and assigning [automarkerlabel.model_type] and
    [automarkerlabel.nAttentionHeads]. *)
Definition get_model_type : test string := fun s => ([], s, inr (model_type s)).

Definition set_model_type (v : string) : test unit :=
  fun s => ([], {| model_type := v; nAttentionHeads := nAttentionHeads s;
                    drawn := drawn s |}, inr tt).

Definition get_nAttentionHeads : test Z := fun s => ([], s, inr (nAttentionHeads s)).

Definition set_nAttentionHeads (v : Z) : test unit :=
  fun s => ([], {| model_type := model_type s; nAttentionHeads := v;
                    drawn := drawn s |}, inr tt).

(** One more tensor is drawn: its number. *)
Definition draw : test nat :=
  fun s => ([], {| model_type := model_type s; nAttentionHeads := nAttentionHeads s;
                    drawn := S (drawn s) |}, inr (drawn s)).

(** [try: body / except Exception as e: handler e]. *)
Definition try_except {A} (body : test A) (handler : exn -> test A) : test A :=
  fun s =>
    match body s with
    | (t1, s1, inl (Raised e)) =>
        match handler e s1 with
        | (t2, s2, r) => (t1 ++ t2, s2, r)
        end
    | r => r
    end.

(** [try: ... except Exception as e: ... finally: final]: [final] runs
    however the rest ended, and what the rest returned or raised stands
    unless [final] itself stops. *)
Definition try_except_finally {A} (body : test A) (handler : exn -> test A)
    (final : test unit) : test A :=
  fun s =>
    match try_except body handler s with
    | (t1, s1, r1) =>
        match final s1 with
        | (t2, s2, inl stop) => (t1 ++ t2, s2, inl stop)
        | (t2, s2, inr _) => (t1 ++ t2, s2, r1)
        end
    end.

(** [if c: body] *)
Definition when_ (c : bool) (body : test unit) : test unit :=
  if c then body else ret tt.

(** [assert c, message] *)
Definition assert_ (c : bool) (message : string) : test unit :=
  if c then ret tt else raise (Exn (OtherException "AssertionError") message).

(** [for x in l: acc = body x acc], for a loop that rebinds or updates
    [acc]. *)
Fixpoint for_fold {A S} (l : list A) (acc : S) (body : A -> S -> test S) : test S :=
  match l with
  | [] => ret acc
  | x :: t => acc' ← body x acc; for_fold t acc' body
  end.

(** [for x in l: body x] *)
Fixpoint for_each {A} (l : list A) (body : A -> test unit) : test unit :=
  match l with
  | [] => ret tt
  | x :: t => body x ;; for_each t body
  end.

(** Observations on a finished run. *)
Definition events {A} (x : list event * state * (stop + A)) : list event := x.1.1.
Definition final {A} (x : list event * state * (stop + A)) : state := x.1.2.
Definition outcome {A} (x : list event * state * (stop + A)) : stop + A := x.2.
Definition status {A} (x : list event * state * (stop + A)) : Z := exit_status x.2.

(** [c.upper()] on one character: only ASCII small letters change. *)
Definition ascii_upper (c : ascii) : ascii :=
  let n := nat_of_ascii c in
  if (Nat.leb 97 n && Nat.leb n 122)%bool then ascii_of_nat (n - 32) else c.

(** [s.upper()] *)
Fixpoint str_upper (s : string) : string :=
  match s with
  | EmptyString => EmptyString
  | String c t => String (ascii_upper c) (str_upper t)
  end.

(** [str(t.shape)] for a tensor. *)
Definition show_size (t : list nat) : string :=
  "torch.Size([" +:+ String.concat ", " (map show_nat t) +:+ "])".

Definition rule : string := str_repeat "=" 60.

(** [enumerate(l)] *)
Definition enumerate {A} (l : list A) : list (nat * A) :=
  combine (seq 0 (length l)) l.

(** Lines 141 and 181-185. *)
Definition architectures : list string := ["lstm"; "transformer"; "hybrid"].
Definition configs : list (string * Z) := [("lstm", 8); ("transformer", 4); ("hybrid", 16)].

Section Script.

(** [automarkerlabel.Net(max_len, num_mks)] under the two settings, and
    the two parameter counts of a model.  The library reads the
    settings; only the script assigns them. *)
Context {model tensor : Type}.
Variable Net : string -> Z -> Z -> Z -> exn + model.
Variables total_params trainable_params : model -> nat.

(** [torch.randn(a, b, c, requires_grad=g)] for the draw of a given
    number, the assignment [x[i, length:, :] = 0], the call
    [model(x, seq_lengths)] in evaluation or in training mode, and
    [output.sum().backward()]. *)
Variable randn : nat -> bool -> Z -> Z -> Z -> exn + tensor.
Variable zero_from : tensor -> nat -> Z -> exn + tensor.
Variable forward : bool -> model -> tensor -> list Z -> exn + tensor.
Variable backward : tensor -> exn + unit.

(** [t.shape], [torch.isnan(t).any()] and [(t == 0).all()]. *)
Variable shape : tensor -> list nat.
Variable has_nan : tensor -> bool.
Variable all_zero : tensor -> bool.

(** [automarkerlabel.Net(max_len, num_mks)] *)
Definition new_model (max_len num_mks : Z) : test model :=
  fun s => ([], s,
            match Net (model_type s) (nAttentionHeads s) max_len num_mks with
            | inl e => inl (Raised e)
            | inr m => inr m
            end).

(** Lines 46-100: the body of the [try]. *)
Definition trial (name : string) (max_len num_mks batch_size : Z) : test bool :=
  print ("Creating " +:+ name +:+ " model...") ;;
  model ← new_model max_len num_mks;
  print "✓ Model created successfully" ;;
  print ("✓ Total parameters: " +:+ show_thousands (total_params model)) ;;
  print ("✓ Trainable parameters: " +:+ show_thousands (trainable_params model)) ;;
  let input_dim := (num_mks - 1) * 5 in
  let seq_lengths := [max_len; max_len - 20; max_len - 40; max_len - 60] in
  n ← draw;
  x ← lift (randn n false batch_size max_len input_dim);
  x ← for_fold (enumerate seq_lengths) x (fun il x =>
         if (il.2 <? max_len)%Z then lift (zero_from x il.1 il.2) else ret x);
  print ("✓ Created dummy input: shape " +:+ show_size (shape x)) ;;
  print "Running forward pass..." ;;
  output ← lift (forward false model x seq_lengths);
  print "✓ Forward pass successful" ;;
  print ("✓ Output shape: " +:+ show_size (shape output)) ;;
  print ("✓ Expected shape: (" +:+ show_Z batch_size +:+ ", " +:+ show_Z num_mks +:+ ")") ;;
  assert_ (bool_decide (map Z.of_nat (shape output) = [batch_size; num_mks]))
          ("Output shape mismatch: expected (" +:+ show_Z batch_size +:+ ", "
             +:+ show_Z num_mks +:+ "), got " +:+ show_size (shape output)) ;;
  assert_ (negb (has_nan output)) "Output contains NaN values" ;;
  assert_ (negb (all_zero output)) "Output is all zeros" ;;
  print "✓ Output validation passed" ;;
  print "Testing gradient computation..." ;;
  n ← draw;
  x_grad ← lift (randn n true batch_size max_len input_dim);
  output_grad ← lift (forward true model x_grad seq_lengths);
  lift (backward output_grad) ;;
  print "✓ Gradient computation successful" ;;
  print ("✓ " +:+ str_upper name +:+ " architecture test PASSED") ;;
  ret true.

(** Lines 102-107. *)
Definition trial_failed (name : string) (e : exn) : test bool :=
  print ("✗ " +:+ str_upper name +:+ " architecture test FAILED") ;;
  print ("✗ Error: " +:+ exn_message e) ;;
  traceback_print_exc e ;;
  ret false.

(** Lines 17-111. *)
Definition test_model_architecture (name : string) (max_len num_mks batch_size : Z)
  : test bool :=
  print (nl +:+ rule) ;;
  print ("Testing " +:+ str_upper name +:+ " architecture") ;;
  print rule ;;
  original_model_type ← get_model_type;
  set_model_type name ;;
  try_except_finally
    (trial name max_len num_mks batch_size)
    (trial_failed name)
    (set_model_type original_model_type).

(** [results[arch]] *)
Definition getitem (results : gmap string bool) (arch : string) : test bool :=
  match results !! arch with
  | Some b => ret b
  | None => raise (Exn (OtherException "KeyError") ("'" +:+ arch +:+ "'"))
  end.

(** [all(results.values())] *)
Definition all_values (results : gmap string bool) : bool :=
  bool_decide (map_Forall (fun _ b => b = true) results).

(** Lines 114-164. *)
Definition test_all_architectures : test bool :=
  print (nl +:+ rule) ;;
  print "ATTENTION MECHANISM INTEGRATION TEST SUITE" ;;
  print rule ;;
  print (nl +:+ "Testing all model architectures with attention mechanisms...") ;;
  let max_len := 120 in
  let num_mks := 10 in
  let batch_size := 4 in
  print (nl +:+ "Test parameters:") ;;
  print ("  - Max sequence length: " +:+ show_Z max_len) ;;
  print ("  - Number of markers: " +:+ show_Z num_mks) ;;
  print ("  - Batch size: " +:+ show_Z batch_size) ;;
  print ("  - Input features per timestep: " +:+ show_Z ((num_mks - 1) * 5)) ;;
  results ← for_fold architectures (∅ : gmap string bool) (fun arch results =>
              passed ← test_model_architecture arch max_len num_mks batch_size;
              ret (<[arch := passed]> results));
  print (nl +:+ rule) ;;
  print "TEST SUMMARY" ;;
  print rule ;;
  for_each architectures (fun arch =>
    passed ← getitem results arch;
    let status := if (passed : bool) then "PASSED ✓" else "FAILED ✗" in
    print (ljust (str_upper arch) 12 +:+ ": " +:+ status)) ;;
  let all_passed := all_values results in
  print rule ;;
  (if all_passed then print "ALL TESTS PASSED ✓✓✓" else print "SOME TESTS FAILED ✗✗✗") ;;
  print rule ;;
  ret all_passed.

(** Lines 176-199: the body of the [try]. *)
Definition switching : test bool :=
  original_model_type ← get_model_type;
  original_attention_heads ← get_nAttentionHeads;
  for_each configs (fun config =>
    set_model_type config.1 ;;
    set_nAttentionHeads config.2 ;;
    model ← new_model 120 10;
    print ("✓ Created " +:+ config.1 +:+ " model with " +:+ show_Z config.2
             +:+ " attention heads")) ;;
  set_model_type original_model_type ;;
  set_nAttentionHeads original_attention_heads ;;
  print "✓ Architecture switching test PASSED" ;;
  ret true.

(** Lines 167-203. *)
Definition test_architecture_compatibility : test bool :=
  print (nl +:+ rule) ;;
  print "Testing architecture switching compatibility" ;;
  print rule ;;
  try_except switching
    (fun e =>
       print ("✗ Architecture switching test FAILED: " +:+ exn_message e) ;;
       ret false).

(** Lines 206-219: the script. *)
Definition main : test unit :=
  all_passed ← test_all_architectures;
  compat_passed ← test_architecture_compatibility;
  if all_passed && compat_passed
  then print (nl +:+ "✓✓✓ All tests completed successfully! ✓✓✓" +:+ nl) ;;
       sys_exit 0
  else print (nl +:+ "✗✗✗ Some tests failed ✗✗✗" +:+ nl) ;;
       sys_exit 1.

End Script.

End TestAttentionModels.

(** ** What the test script decides, as functions of the library *)

Module TestsTable.
Import Py PyLib More TestAttentionModels.

(** The last line of an architecture test that passed, and the first line
    of the report of one that failed. *)
Definition passed_line (name : string) : string :=
  "✓ " +:+ str_upper name +:+ " architecture test PASSED".
Definition failed_line (name : string) : string :=
  "✗ " +:+ str_upper name +:+ " architecture test FAILED".

(** The two settings are the same in both states. *)
Definition same_settings (s s' : state) : Prop :=
  model_type s' = model_type s /\ nAttentionHeads s' = nAttentionHeads s.

(** A property of a trace and a value that still holds when more events
    come first. *)
Definition prefix_closed {A} (Q : list event -> A -> Prop) : Prop :=
  forall t1 t2 a, Q t2 a -> Q (t1 ++ t2) a.

(** A computation that keeps the two settings, prints no traceback and
    does not exit: it raises, or returns a value that, with the trace,
    satisfies [Q]. *)
Definition kept {A} (m : test A) (Q : list event -> A -> Prop) : Prop :=
  forall s, exists t s' r,
    m s = (t, s', r)
    /\ same_settings s s'
    /\ tracebacks t = []
    /\ ((exists e, r = inl (Raised e)) \/ (exists a, r = inr a /\ Q t a)).

Section Library.
Context {model : Type}.
Variable Net : string -> Z -> Z -> Z -> exn + model.

(** [Net(120, 10)] can be built under a configuration. *)
Definition constructs (config : string * Z) : bool :=
  if Net config.1 config.2 120 10 is inr _ then true else false.

(** The first configuration of the switching test under which the model
    cannot be built. *)
Definition first_failing : option (string * Z) :=
  List.find (fun config => negb (constructs config)) configs.
End Library.

(** A run that returned [True]. *)
Definition returned_true (x : list event * state * (stop + bool)) : bool :=
  if outcome x is inr true then true else false.

(** The last line of the script. *)
Definition closing_line (ok : bool) : string :=
  if ok then nl +:+ "✓✓✓ All tests completed successfully! ✓✓✓" +:+ nl
  else nl +:+ "✗✗✗ Some tests failed ✗✗✗" +:+ nl.

End TestsTable.

(** ** A concrete library for the test script *)

Module TestsDemo.
Import Py TestAttentionModels.

(** A model reduced to the name of its architecture and a tensor reduced
    to its shape.  The hybrid architecture cannot be built; the others
    give an output of shape [(4, 10)] without NaN. *)
Definition Net (name : string) (heads max_len num_mks : Z) : exn + string :=
  if String.eqb name "hybrid"
  then inl (Exn ValueError "Unknown model type: hybrid")
  else inr name.

Definition params (m : string) : nat := 1234%nat.

Definition randn (n : nat) (requires_grad : bool) (a b c : Z) : exn + list nat :=
  inr [Z.to_nat a; Z.to_nat b; Z.to_nat c].

Definition zero_from (x : list nat) (i : nat) (from : Z) : exn + list nat := inr x.

Definition forward (training : bool) (m : string) (x : list nat) (seq_lengths : list Z)
  : exn + list nat :=
  inr [4; 10]%nat.

Definition backward (output : list nat) : exn + unit := inr tt.

(** The settings the module ships with, before any draw. *)
Definition fresh : state := {| model_type := "lstm"; nAttentionHeads := 8; drawn := 0 |}.

Definition the_test : string -> Z -> Z -> Z -> test bool :=
  test_model_architecture Net params params randn zero_from forward backward
    (fun t => t) (fun _ => false) (fun _ => false).

Definition the_script : test unit :=
  main Net params params randn zero_from forward backward
    (fun t => t) (fun _ => false) (fun _ => false).

End TestsDemo.

(** * Properties *)

(** ** Stepping through the effects *)

Ltac py_unfold :=
  unfold mbind, Py.py_bind, Py.bind, mret, Py.py_ret, Py.ret, Py.when_,
    Py.os_path_exists, Py.print, Py.traceback_print_exc, Py.emit, Py.sys_exit,
    Py.raise, Py.os_makedirs, Py.call_core, Py.input.

Ltac py_run :=
  repeat (progress (py_unfold;
                    cbn -[GenerateSyntheticData.rule ConfigTemplate.rule
                          ConfigTemplate.dashes str_repeat show_nat show_Z
                          String.append Py.comprehension Py.tuple_index
                          ConfigTemplate.for_each nl])).

Section PyFacts.
Import Py.

Lemma tuple_index_eq {A} (l : list A) i w :
  tuple_index l i w =
    ([], w, match nth_error l i with
            | Some x => inr x
            | None => inl (Raised (Exn IndexError "tuple index out of range"))
            end).
Proof. unfold tuple_index. destruct (nth_error l i); reflexivity. Qed.

(** A comprehension whose body neither prints nor exits does neither, and
    yields one value per element. *)
Lemma comprehension_silent {A B} (f : A -> py B) (l : list A) :
  (forall x w, exists r, f x w = ([], w, r) /\ forall c, r <> inl (SystemExit c)) ->
  forall w, exists r, comprehension f l w = ([], w, r)
                      /\ (forall c, r <> inl (SystemExit c))
                      /\ (forall ys, r = inr ys -> length ys = length l).
Proof.
  intros Hf. induction l as [|x t IH]; intros w.
  - eexists. split; [reflexivity|]. split; [discriminate|].
    intros ys [= <-]. reflexivity.
  - cbn [comprehension]. unfold bind.
    destruct (Hf x w) as [r [-> Hr]].
    destruct r as [[c|e]|y].
    + exfalso. eapply Hr. reflexivity.
    + eexists. split; [reflexivity|]. split; discriminate.
    + destruct (IH w) as [r' [-> [Hr' Hlen]]].
      destruct r' as [[c|e]|ys].
      * exfalso. eapply Hr'. reflexivity.
      * eexists. split; [reflexivity|]. split; discriminate.
      * eexists. split; [reflexivity|]. split; [discriminate|].
        intros zs [= <-]. cbn. f_equal. apply Hlen. reflexivity.
Qed.

Lemma bind_inr {A B} (m : py A) (k : A -> py B) w t w' a :
  m w = (t, w', inr a) ->
  (m ≫= k) w = after t (k a w').
Proof.
  intros H. unfold mbind, py_bind, bind, after. rewrite H.
  destruct (k a w') as [[t2 w2] r]. reflexivity.
Qed.

Lemma after_triple {A} t t' w (r : stop + A) : after t (t', w, r) = (t ++ t', w, r).
Proof. reflexivity. Qed.

Lemma bind_inl {A B} (m : py A) (k : A -> py B) w t w' s :
  m w = (t, w', inl s) ->
  (m ≫= k) w = (t, w', inl s).
Proof.
  intros H. unfold mbind, py_bind, bind. rewrite H. reflexivity.
Qed.

Lemma core_calls_app t1 t2 : core_calls (t1 ++ t2) = core_calls t1 ++ core_calls t2.
Proof.
  induction t1 as [|e t1 IH]; [reflexivity|].
  destruct e; cbn; rewrite ?IH; reflexivity.
Qed.

Lemma printed_app t1 t2 : printed (t1 ++ t2) = printed t1 ++ printed t2.
Proof.
  induction t1 as [|e t1 IH]; [reflexivity|].
  destruct e; cbn; rewrite ?IH; reflexivity.
Qed.

Lemma prompts_app t1 t2 : prompts (t1 ++ t2) = prompts t1 ++ prompts t2.
Proof.
  induction t1 as [|e t1 IH]; [reflexivity|].
  destruct e; cbn; rewrite ?IH; reflexivity.
Qed.

Lemma prompts_prints ls : prompts (map Print ls) = [].
Proof. induction ls; [reflexivity|assumption]. Qed.

Lemma core_calls_prints ls : core_calls (map Print ls) = [].
Proof. induction ls; [reflexivity|assumption]. Qed.

Lemma printed_prints ls : printed (map Print ls) = ls.
Proof. induction ls as [|l ls IH]; [reflexivity|]. cbn. now rewrite IH. Qed.

End PyFacts.

Ltac trace_simpl :=
  rewrite ?after_triple;
  cbn [Py.events Py.outcome fst snd];
  repeat (progress (rewrite ?core_calls_app, ?prompts_app, ?printed_app,
                      ?core_calls_prints, ?prompts_prints, ?printed_prints;
                    cbn [Py.core_calls Py.prompts Py.printed app])).


Ltac find_in :=
  first [ assumption
        | left; reflexivity
        | right; find_in
        | apply in_or_app; right; find_in
        | apply in_or_app; left; find_in ].

(** ** generate_synthetic_data.py, stage by stage *)

Section WrapperFacts.
Import Py GenerateSyntheticData Obs.

Context {tensor : Type}.
Variable shape : tensor -> list nat.
Variable core : Aml.kwargs -> exn + list tensor.
Variables dirname abspath : string -> string.
Variables e1 e2 : string.

Lemma validated_true args w :
  validated args w = true <->
  fs_exists w (bodykin args) = true /\ fs_exists w (markerset args) = true
  /\ (1 <= num_participants args <= 100)%Z.
Proof using Type.
  unfold validated. rewrite !andb_true_iff, !Z.leb_le.
  split; [intros [[[? ?] ?] ?]|intros [? [? [? ?]]]]; repeat split; assumption.
Qed.

Lemma validated_false args w :
  validated args w = false <->
  fs_exists w (bodykin args) = false \/ fs_exists w (markerset args) = false
  \/ (num_participants args < 1)%Z \/ (100 < num_participants args)%Z.
Proof using Type.
  unfold validated. rewrite !andb_false_iff, !Z.leb_gt.
  split; [intros [[[?|?]|?]|?]|intros [?|[?|[?|?]]]]; auto.
Qed.

Lemma validate_inputs_eq args w :
  validate_inputs args w =
    if validated args w then ([], w, inr tt)
    else (map Print (rejection args w), w, inl (SystemExit 1)).
Proof.
  unfold validate_inputs, validated, rejection. py_run.
  destruct (fs_exists w (bodykin args)); py_run; [|reflexivity].
  destruct (fs_exists w (markerset args)); py_run; [|reflexivity].
  destruct (Z.ltb_spec (num_participants args) 1),
           (Z.ltb_spec 100 (num_participants args)),
           (Z.leb_spec 1 (num_participants args)),
           (Z.leb_spec (num_participants args) 100);
    try lia; py_run; reflexivity.
Qed.

Lemma create_output_dir_spec args w :
  exists t w', create_output_dir dirname args w = (t, w', inr tt)
               /\ core_calls t = [].
Proof.
  unfold create_output_dir. py_run.
  destruct (negb (String.eqb (dirname (output args)) "")
            && negb (fs_exists w (dirname (output args)))); py_run;
    do 2 eexists; split; reflexivity.
Qed.

Lemma display_configuration_spec args w :
  exists ls, display_configuration args w = (map Print ls, w, inr tt).
Proof.
  unfold display_configuration. py_run.
  eexists (_ :: _ :: _ :: _ :: _ :: _ :: _ :: _ :: _ :: _ :: _ :: [_]).
  reflexivity.
Qed.

(** The summary prints the segment count first; it only reaches its last
    line on a dataset with a first element, and otherwise raises. *)
Lemma summary_spec args data w :
  exists ls r, summary shape abspath e1 e2 args data w = (map Print ls, w, r)
    /\ match r with
       | inr _ => data <> [] /\ exists mk lo hi,
             ls = summary_head (length data) ++ summary_tail abspath e1 e2 args mk lo hi
       | inl (Raised e) =>
           (data = [] -> e = empty_index_error)
           /\ (ls = summary_head (length data)
               \/ exists mk, ls = summary_head (length data)
                                    ++ ["Markers per segment: " +:+ show_nat mk])
       | inl (SystemExit _) => False
       end.
Proof.
  unfold summary, summary_head, summary_tail.
  destruct data as [|d0 ds].
  - py_run. eexists (_ :: _ :: _ :: _ :: [_]), _. split; [reflexivity|].
    split; [reflexivity|]. left. reflexivity.
  - assert (Hlens : exists r,
               comprehension (fun x => tuple_index (shape x) 0) (d0 :: ds) w = ([], w, r)
               /\ (forall c, r <> inl (SystemExit c))
               /\ (forall ys, r = inr ys -> length ys = length (d0 :: ds))).
    { apply comprehension_silent. intros x w'. rewrite tuple_index_eq. eexists.
      split; [reflexivity|]. destruct (nth_error (shape x) 0); discriminate. }
    destruct Hlens as [r [Hc [Hr Hlen]]].
    py_run. rewrite tuple_index_eq.
    destruct (nth_error (shape d0) 1) as [mk|].
    2:{ py_run. eexists (_ :: _ :: _ :: _ :: [_]), _. split; [reflexivity|].
        split; [discriminate|]. left. reflexivity. }
    py_run. rewrite Hc.
    destruct r as [[c|e]|lens].
    + exfalso. eapply Hr. reflexivity.
    + py_run. eexists (_ :: _ :: _ :: _ :: _ :: [_]), _. split; [reflexivity|].
      split; [discriminate|]. right. eexists. reflexivity.
    + specialize (Hlen lens eq_refl). destruct lens as [|l0 lens]; [discriminate|].
      py_run. rewrite Hc. py_run.
      eexists (_ :: _ :: _ :: _ :: _ :: _ :: _ :: _ :: _ :: _ :: _ :: [_]), _.
      split; [reflexivity|].
      split; [discriminate|]. do 3 eexists. reflexivity.
Qed.

Lemma generation_raised args w e :
  core (core_kwargs args) = inl e ->
  generation shape core abspath e1 e2 args w =
    ([CallCore (core_kwargs args); Print (error_line e); PrintExc e], w,
     inl (SystemExit 1)).
Proof.
  intros H. unfold generation, try_except, on_exception, error_line. py_run.
  rewrite H. reflexivity.
Qed.

Lemma generation_returned args w data :
  core (core_kwargs args) = inr data ->
  exists ls r, summary shape abspath e1 e2 args data w = (map Print ls, w, r) /\
    generation shape core abspath e1 e2 args w =
      match r with
      | inl (Raised e) =>
          (CallCore (core_kwargs args) :: map Print ls
             ++ [Print (error_line e); PrintExc e], w, inl (SystemExit 1))
      | _ => (CallCore (core_kwargs args) :: map Print ls, w, r)
      end.
Proof.
  intros H. destruct (summary_spec args data w) as [ls [r [Hs Hr]]].
  exists ls, r. split; [exact Hs|].
  unfold generation, try_except, on_exception, error_line. py_run.
  rewrite H, Hs. destruct r as [[c|e]|[]]; [contradiction| |reflexivity].
  py_run. reflexivity.
Qed.

(** [run] stops at the failing check, or goes on to the [try] block. *)
Lemma run_rejected args w :
  validated args w = false ->
  run shape core dirname abspath e1 e2 args w
  = (map Print (rejection args w), w, inl (SystemExit 1)).
Proof.
  intros H. unfold run. py_unfold. rewrite validate_inputs_eq, H. reflexivity.
Qed.

Lemma generation_world args w : (generation shape core abspath e1 e2 args w).1.2 = w.
Proof.
  destruct (core (core_kwargs args)) as [e|data] eqn:Hc.
  - rewrite (generation_raised _ _ _ Hc). reflexivity.
  - destruct (generation_returned args w data Hc) as [ls' [r [_ ->]]].
    destruct r as [[c|e]|[]]; reflexivity.
Qed.

Lemma run_validated args w :
  validated args w = true ->
  exists pre w1 t r,
    generation shape core abspath e1 e2 args w1 = (t, w1, r)
    /\ run shape core dirname abspath e1 e2 args w = (pre ++ t, w1, r)
    /\ core_calls pre = [].
Proof.
  intros H. unfold run.
  erewrite bind_inr by (rewrite validate_inputs_eq, H; reflexivity).
  destruct (create_output_dir_spec args w) as [t1 [w1 [Hd Ht1]]].
  erewrite bind_inr by exact Hd.
  destruct (display_configuration_spec args w1) as [ls Hl].
  erewrite bind_inr by exact Hl.
  erewrite bind_inr by reflexivity.
      pose proof (generation_world args w1) as Hw.
  destruct (generation shape core abspath e1 e2 args w1) as [[t3 w3] r3] eqn:Hg. cbn in Hw. subst w3.
  exists (t1 ++ map Print ls ++ [Print "Starting generation..."]), w1, t3, r3.
  split; [exact Hg|]. split.
  - cbn. rewrite <- !app_assoc. reflexivity.
  - rewrite !core_calls_app, Ht1, core_calls_prints. reflexivity.
Qed.

(** All the ways [run] can go. *)
Lemma run_cases args w :
  let r := run shape core dirname abspath e1 e2 args w in
  let kw := core_kwargs args in
  (validated args w = false
   /\ r = (map Print (rejection args w), w, inl (SystemExit 1)))
  \/
  (validated args w = true /\
   exists pre w1, core_calls pre = [] /\
     match core kw with
     | inl e =>
         r = (pre ++ [CallCore kw; Print (error_line e); PrintExc e], w1,
              inl (SystemExit 1))
     | inr data =>
         (data <> [] /\ exists mk lo hi,
            r = (pre ++ CallCore kw
                     :: map Print (summary_head (length data)
                                     ++ summary_tail abspath e1 e2 args mk lo hi),
                 w1, inr tt))
         \/
         (exists e rest,
            (data = [] -> e = empty_index_error /\ rest = [])
            /\ r = (pre ++ CallCore kw
                        :: map Print (summary_head (length data) ++ rest)
                        ++ [Print (error_line e); PrintExc e],
                    w1, inl (SystemExit 1)))
     end).
Proof.
  cbn zeta. destruct (validated args w) eqn:Hv.
  2:{ left. split; [reflexivity|]. now apply run_rejected. }
  right. split; [reflexivity|].
  destruct (run_validated args w Hv) as [pre [w1 [t [r [Hg [Hrun Hpre]]]]]].
  exists pre, w1. split; [exact Hpre|]. rewrite Hrun.
  destruct (core (core_kwargs args)) as [e|data] eqn:Hc.
  - rewrite (generation_raised args w1 e Hc) in Hg.
    injection Hg as <- <-. reflexivity.
  - destruct (generation_returned args w1 data Hc) as [ls [r' [Hs Hg']]].
    rewrite Hg' in Hg.
    destruct (summary_spec args data w1) as [ls2 [r2 [Hs2 Hr2]]].
    rewrite Hs in Hs2. injection Hs2 as Hls <-.
    apply (f_equal printed) in Hls. rewrite !printed_prints in Hls. subst ls2.
    destruct r' as [[k|e]|[]]; [contradiction| |].
    + right. injection Hg as <- <-. destruct Hr2 as [Hempty Hls].
      destruct Hls as [->|[mk ->]].
      * exists e, []. rewrite app_nil_r. split; [auto|reflexivity].
      * exists e, ["Markers per segment: " +:+ show_nat mk].
        split; [|reflexivity].
        intros ->. discriminate.
    + left. injection Hg as <- <-. destruct Hr2 as [Hne [mk [lo [hi ->]]]].
      split; [exact Hne|]. exists mk, lo, hi. reflexivity.
Qed.

(** [parse_args] either yields the namespace, with the two defaults filled
    in, or ends the process with status 2. *)
Lemma parse_args_cases c w :
  (exists b m o r l f,
      opt_bodykin c = Some b /\ opt_markerset c = Some m /\ opt_output c = Some o
      /\ opt_align_right c = Some r /\ opt_align_left c = Some l /\ opt_fs c = Some f
      /\ parse_args c w
         = ([], w, inr {| bodykin := b; markerset := m; output := o;
                          align_right := r; align_left := l; fs := f;
                          num_participants := default 100%Z (opt_num_participants c);
                          max_len := default 240%Z (opt_max_len c) |}))
  \/ parse_args c w = ([ArgparseError (missing_required c)], w, inl (SystemExit 2)).
Proof.
  unfold parse_args.
  destruct (opt_bodykin c) as [b|]; [|right; reflexivity].
  destruct (opt_markerset c) as [m|]; [|right; reflexivity].
  destruct (opt_output c) as [o|]; [|right; reflexivity].
  destruct (opt_align_right c) as [r|]; [|right; reflexivity].
  destruct (opt_align_left c) as [l|]; [|right; reflexivity].
  destruct (opt_fs c) as [f|]; [|right; reflexivity].
  left. exists b, m, o, r, l, f. repeat split; reflexivity.
Qed.

Lemma main_parsed c args w :
  parse_args c w = ([], w, inr args) ->
  main shape core dirname abspath e1 e2 c w
  = run shape core dirname abspath e1 e2 args w.
Proof.
  intros H. unfold main. erewrite bind_inr by exact H.
  unfold after. cbn [app]. now destruct (run _ _ _ _ _ _ _ _) as [[t w'] r].
Qed.

Lemma main_unparsed c w :
  parse_args c w = ([ArgparseError (missing_required c)], w, inl (SystemExit 2)) ->
  main shape core dirname abspath e1 e2 c w
  = ([ArgparseError (missing_required c)], w, inl (SystemExit 2)).
Proof. intros H. unfold main. now erewrite bind_inl by exact H. Qed.

(** What [main] does with the core, by the outcome of the checks. *)
Lemma main_rejected c args w :
  parse_args c w = ([], w, inr args) -> validated args w = false ->
  main shape core dirname abspath e1 e2 c w
  = (map Print (rejection args w), w, inl (SystemExit 1)).
Proof.
  intros Hp Hv. rewrite (main_parsed c args w Hp). now apply run_rejected.
Qed.

Lemma main_validated_calls c args w :
  parse_args c w = ([], w, inr args) -> validated args w = true ->
  core_calls (events (main shape core dirname abspath e1 e2 c w)) = [core_kwargs args].
Proof.
  intros Hp Hv. rewrite (main_parsed c args w Hp).
  destruct (run_cases args w) as [[Hf _]|[_ [pre [w1 [Hpre Hr]]]]]; [congruence|].
  destruct (core (core_kwargs args)) as [e|data].
  - rewrite Hr. trace_simpl. now rewrite Hpre.
  - destruct Hr as [[_ [mk [lo [hi ->]]]]|[e [rest [_ ->]]]];
      trace_simpl; now rewrite Hpre.
Qed.

Lemma main_calls_inv c w kw :
  In kw (core_calls (events (main shape core dirname abspath e1 e2 c w))) ->
  exists args, parse_args c w = ([], w, inr args) /\ validated args w = true
               /\ kw = core_kwargs args.
Proof.
  intros Hin.
  destruct (parse_args_cases c w) as [[b [m [o [r [l [f [_ [_ [_ [_ [_ [_ Hp]]]]]]]]]]]]|Hp].
  - set (args := {| bodykin := b |}) in Hp.
    destruct (validated args w) eqn:Hv.
    + rewrite (main_validated_calls c args w Hp Hv) in Hin.
      destruct Hin as [<-|[]]. exists args. auto.
    + rewrite (main_rejected c args w Hp Hv) in Hin.
      cbn [events fst] in Hin. rewrite core_calls_prints in Hin. destruct Hin.
  - rewrite (main_unparsed c w Hp) in Hin. destruct Hin.
Qed.

End WrapperFacts.

Section WrapperCoreExt.
Import Py GenerateSyntheticData Obs.

Context {tensor : Type}.
Variable shape : tensor -> list nat.
Variables core1 core2 : Aml.kwargs -> exn + list tensor.
Variables dirname abspath : string -> string.
Variables e1 e2 : string.

(** [run] consults the core only at the keyword arguments it builds. *)
Lemma run_core_ext args w :
  core1 (core_kwargs args) = core2 (core_kwargs args) ->
  run shape core1 dirname abspath e1 e2 args w
  = run shape core2 dirname abspath e1 e2 args w.
Proof.
  intros H. unfold run, generation, try_except, call_core, mbind, py_bind, bind.
  rewrite H. reflexivity.
Qed.

End WrapperCoreExt.

(** ** config_template.py, stage by stage *)

Section TemplateFacts.
Import Py ConfigTemplate Obs.

Variable c : constants.
Context {tensor : Type}.
Variable shape : tensor -> list nat.
Variable core : Aml.kwargs -> exn + list tensor.
Variables dirname abspath : string -> string.
Variables e1 e2 : string.

Lemma validate_config_eq w :
  validate_config c dirname w
  = ([], w, inr (expected_errors c w, expected_warnings dirname c w)).
Proof.
  unfold validate_config, expected_errors, expected_warnings. py_run.
  destruct (fs_exists w (BODYKIN_PATH c)), (fs_exists w (MARKERSET_PATH c)),
    ((NUM_PARTICIPANTS c <? 1)%Z || (100 <? NUM_PARTICIPANTS c)%Z),
    ((SAMPLING_FREQUENCY c <? 50)%Z || (500 <? SAMPLING_FREQUENCY c)%Z),
    ((MAX_SEGMENT_LENGTH c <? 60)%Z || (500 <? MAX_SEGMENT_LENGTH c)%Z),
    (negb (String.eqb (dirname (OUTPUT_PATH c)) "")
     && negb (fs_exists w (dirname (OUTPUT_PATH c))));
    reflexivity.
Qed.

Lemma for_each_print (f : string -> string) ls w :
  for_each ls (fun x => print (f x)) w = (map Print (map f ls), w, inr tt).
Proof.
  induction ls as [|l ls IH]; [reflexivity|].
  cbn [for_each]. erewrite bind_inr by reflexivity. rewrite IH. reflexivity.
Qed.

Lemma display_configuration_spec_t w :
  exists ls, display_configuration c w = (map Print ls, w, inr tt).
Proof.
  unfold display_configuration. py_run.
  eexists (_ :: _ :: _ :: _ :: _ :: _ :: _ :: _ :: _ :: _ :: _ :: _ :: _ :: [_]).
  reflexivity.
Qed.

Lemma report_warnings_spec warnings w :
  exists ls, report_warnings warnings w = (map Print ls, w, inr tt).
Proof.
  unfold report_warnings. destruct warnings as [|x xs].
  - exists []. reflexivity.
  - cbn [truthy when_].
    erewrite bind_inr by reflexivity.
    erewrite bind_inr by apply for_each_print.
    eexists (_ :: map _ (x :: xs) ++ [_]). cbn. rewrite map_app. reflexivity.
Qed.

Lemma report_errors_spec errors w :
  match errors with
  | [] => report_errors errors w = ([], w, inr tt)
  | _ :: _ => exists ls, report_errors errors w = (map Print ls, w, inl (SystemExit 1))
  end.
Proof.
  unfold report_errors. destruct errors as [|x xs]; [reflexivity|].
  cbn [truthy when_].
  erewrite bind_inr by reflexivity.
  erewrite bind_inr by apply for_each_print.
  eexists (_ :: map _ (x :: xs) ++ [_; _]). cbn. rewrite map_app. reflexivity.
Qed.

Lemma confirm_eq w :
  confirm w =
    match stdin w with
    | [] => ([Input prompt], w, inl (Raised (Exn EOFError "EOF when reading a line")))
    | response :: rest =>
        let w' := {| fs_exists := fs_exists w; stdin := rest |} in
        if declined response
        then ([Input prompt; Print "Cancelled."], w', inl (SystemExit 0))
        else ([Input prompt], w', inr tt)
    end.
Proof.
  unfold confirm, prompt. py_run. destruct (stdin w) as [|r rest]; [reflexivity|].
  destruct (declined r); reflexivity.
Qed.

Lemma create_output_dir_spec_t w :
  exists t w', create_output_dir c dirname w = (t, w', inr tt) /\ core_calls t = []
               /\ prompts t = [].
Proof.
  unfold create_output_dir. py_run.
  destruct (negb (String.eqb (dirname (OUTPUT_PATH c)) "")
            && negb (fs_exists w (dirname (OUTPUT_PATH c)))); py_run;
    do 2 eexists; repeat split; reflexivity.
Qed.

Lemma summary_spec_t data w :
  exists ls r, summary c shape abspath e1 e2 data w = (map Print ls, w, r)
    /\ match r with
       | inr _ => data <> []
       | inl (Raised e) => True
       | inl (SystemExit _) => False
       end.
Proof.
  unfold summary. destruct data as [|d0 ds].
  - py_run. eexists (_ :: _ :: _ :: _ :: [_]), _. split; [reflexivity|]. exact I.
  - py_run. rewrite tuple_index_eq.
    destruct (nth_error (shape d0) 1) as [mk|]; py_run.
    + eexists (_ :: _ :: _ :: _ :: _ :: _ :: _ :: _ :: _ :: _ :: _ :: _ :: [_]), _.
      split; [reflexivity|]. discriminate.
    + eexists (_ :: _ :: _ :: _ :: [_]), _. split; [reflexivity|]. exact I.
Qed.

(** Past the confirmation: the output directory, the one call of the core
    and the summary. *)
Lemma generation_spec_t w :
  exists t w' r,
    (create_output_dir c dirname ;;
     data ← call_core core (core_kwargs c);
     summary c shape abspath e1 e2 data) w = (t, w', r)
    /\ core_calls t = [core_kwargs c] /\ prompts t = []
    /\ match core (core_kwargs c) with
       | inl e => r = inl (Raised e)
       | inr data => (r = inr tt /\ data <> []) \/ exists e, r = inl (Raised e)
       end.
Proof.
  destruct (create_output_dir_spec_t w) as [t1 [w1 [Hd [Ht1 Hp1]]]].
  erewrite bind_inr by exact Hd.
  destruct (core (core_kwargs c)) as [e|data] eqn:Hc.
  - erewrite bind_inl by (unfold call_core; rewrite Hc; reflexivity).
    do 3 eexists. split; [reflexivity|]. cbn.
    rewrite core_calls_app, prompts_app, Ht1, Hp1. auto.
  - erewrite bind_inr by (unfold call_core; rewrite Hc; reflexivity).
    destruct (summary_spec_t data w1) as [ls [r [Hs Hr]]]. rewrite Hs.
    do 3 eexists. split; [reflexivity|]. cbn.
    rewrite core_calls_app, prompts_app, Ht1, Hp1. cbn.
    rewrite core_calls_prints, prompts_prints.
    split; [reflexivity|]. split; [reflexivity|].
    destruct r as [[k|e]|[]]; [contradiction|right; eauto|left; auto].
Qed.

(** [main] ends at the error report, at the prompt, or runs the core once. *)
Lemma main_cases_t w :
  exists t w' r,
    main c shape core dirname abspath e1 e2 w = (t, w', r) /\
    match expected_errors c w with
    | _ :: _ => r = inl (SystemExit 1) /\ core_calls t = [] /\ prompts t = []
    | [] =>
        prompts t = [prompt] /\
        match stdin w with
        | [] => r = inl (Raised (Exn EOFError "EOF when reading a line"))
                /\ core_calls t = []
        | response :: _ =>
            if declined response
            then r = inl (SystemExit 0) /\ core_calls t = []
            else core_calls t = [core_kwargs c] /\
                 match core (core_kwargs c) with
                 | inl e => r = inl (Raised e)
                 | inr data => (r = inr tt /\ data <> []) \/ exists e, r = inl (Raised e)
                 end
        end
    end.
Proof.
  unfold main.
  destruct (display_configuration_spec_t w) as [ls0 Hl0].
  erewrite bind_inr by exact Hl0.
  do 2 erewrite bind_inr by reflexivity.
  erewrite bind_inr by apply validate_config_eq.
  destruct (report_warnings_spec (expected_warnings dirname c w) w) as [lw Hw].
  erewrite bind_inr by exact Hw.
  pose proof (report_errors_spec (expected_errors c w) w) as He.
  destruct (expected_errors c w) as [|x xs].
  2:{ destruct He as [le He]. erewrite bind_inl by exact He.
      do 3 eexists. split; [reflexivity|].
      trace_simpl. auto. }
  erewrite bind_inr by exact He.
  do 2 erewrite bind_inr by reflexivity.
  pose proof (confirm_eq w) as Hc.
  destruct (stdin w) as [|response rest].
  { erewrite bind_inl by exact Hc.
    do 3 eexists. split; [reflexivity|].
    trace_simpl. auto. }
  cbn zeta in Hc. destruct (declined response).
  { erewrite bind_inl by exact Hc.
    do 3 eexists. split; [reflexivity|].
    trace_simpl. auto. }
  erewrite bind_inr by exact Hc.
  do 5 erewrite bind_inr by reflexivity.
  destruct (generation_spec_t {| fs_exists := fs_exists w; stdin := rest |})
    as [t [w' [r [Hg [Hcalls [Hpr Hr]]]]]].
  rewrite Hg.
  do 3 eexists. split; [reflexivity|].
  trace_simpl. rewrite Hcalls, Hpr. auto.
Qed.

Lemma expected_errors_nonempty w :
  expected_errors c w <> [] <->
  fs_exists w (BODYKIN_PATH c) = false
  \/ fs_exists w (MARKERSET_PATH c) = false
  \/ (NUM_PARTICIPANTS c < 1)%Z
  \/ (100 < NUM_PARTICIPANTS c)%Z.
Proof using Type.
  unfold expected_errors. split.
  - intros Hne.
    destruct (fs_exists w (BODYKIN_PATH c)); [|auto].
    destruct (fs_exists w (MARKERSET_PATH c)); [|auto].
    destruct (Z.ltb_spec (NUM_PARTICIPANTS c) 1) as [Hlo|Hlo]; [auto|].
    destruct (Z.ltb_spec 100 (NUM_PARTICIPANTS c)) as [Hhi|Hhi]; [auto|].
    cbn in Hne. congruence.
  - intros [Hb|[Hm|[Hn|Hn]]].
    + rewrite Hb. discriminate.
    + rewrite Hm. destruct (fs_exists w (BODYKIN_PATH c)); discriminate.
    + destruct (Z.ltb_spec (NUM_PARTICIPANTS c) 1) as [Hlo|Hlo]; [|lia].
      destruct (fs_exists w (BODYKIN_PATH c)), (fs_exists w (MARKERSET_PATH c));
        discriminate.
    + destruct (Z.ltb_spec 100 (NUM_PARTICIPANTS c)) as [Hhi|Hhi]; [|lia].
      rewrite orb_true_r.
      destruct (fs_exists w (BODYKIN_PATH c)), (fs_exists w (MARKERSET_PATH c));
        discriminate.
Qed.

Lemma frequency_warning_in w :
  (SAMPLING_FREQUENCY c < 50)%Z \/ (500 < SAMPLING_FREQUENCY c)%Z ->
  In (frequency_warning c) (expected_warnings dirname c w).
Proof using Type.
  intros H. unfold expected_warnings, frequency_warning.
  destruct (Z.ltb_spec (SAMPLING_FREQUENCY c) 50),
           (Z.ltb_spec 500 (SAMPLING_FREQUENCY c)); try lia; left; reflexivity.
Qed.

Lemma length_warning_in w :
  (MAX_SEGMENT_LENGTH c < 60)%Z \/ (500 < MAX_SEGMENT_LENGTH c)%Z ->
  In (length_warning c) (expected_warnings dirname c w).
Proof using Type.
  intros H. unfold expected_warnings, length_warning.
  apply in_or_app. right. apply in_or_app. left.
  destruct (Z.ltb_spec (MAX_SEGMENT_LENGTH c) 60),
           (Z.ltb_spec 500 (MAX_SEGMENT_LENGTH c)); try lia; left; reflexivity.
Qed.

(** No entry of [errors] is one of the two warnings: they differ in their
    first character. *)
Lemma warning_not_error w msg :
  msg = frequency_warning c \/ msg = length_warning c ->
  ~ In msg (expected_errors c w).
Proof using Type.
  intros Hmsg Hin. unfold expected_errors in Hin.
  assert (Hu : exists rest, msg = String "U" rest).
  { destruct Hmsg as [->| ->]; eexists; reflexivity. }
  destruct Hu as [rest ->].
  repeat (apply in_app_or in Hin; destruct Hin as [Hin|Hin]);
    repeat match type of Hin with
           | In _ (if ?b then _ else _) => destruct b
           end;
    cbn in Hin; repeat (destruct Hin as [Hin|Hin]); try discriminate; try contradiction.
Qed.

End TemplateFacts.

(** ** The Segmenter's partition *)

Section ChunkFacts.
Import Pipeline PipelineObs.
Local Open Scope nat_scope.

Context {A : Type}.
Implicit Types (l : list A) (M : nat).

Lemma ceil_div_zero M : 0 < M -> ceil_div 0 M = 0.
Proof. intros H. unfold ceil_div. apply Nat.div_small. lia. Qed.

Lemma ceil_div_small L M : 0 < L -> L <= M -> ceil_div L M = 1.
Proof.
  intros H1 H2. unfold ceil_div.
  symmetry. apply (Nat.div_unique _ _ 1 (L - 1)); lia.
Qed.

Lemma ceil_div_step L M : 0 < M -> M < L -> ceil_div L M = S (ceil_div (L - M) M).
Proof.
  intros H1 H2. unfold ceil_div.
  replace (L + M - 1) with ((L - M + M - 1) + 1 * M) by lia.
  rewrite Nat.div_add by lia. lia.
Qed.

Lemma chunks_upto_nil fuel M : chunks_upto fuel M (@nil A) = [].
Proof. destruct fuel; reflexivity. Qed.

(** Fuel beyond the length of the sequence changes nothing. *)
Lemma chunks_upto_fuel fuel fuel' M l :
  0 < M -> length l <= fuel -> length l <= fuel' ->
  chunks_upto fuel M l = chunks_upto fuel' M l.
Proof.
  intros HM. revert fuel' l.
  induction fuel as [|fuel IH]; intros fuel' l Hl Hl'.
  - destruct l; [|cbn in Hl; lia]. now rewrite !chunks_upto_nil.
  - destruct l as [|x t]; [now rewrite !chunks_upto_nil|].
    destruct fuel' as [|fuel']; [cbn in Hl'; lia|].
    cbn [chunks_upto]. f_equal.
    apply IH; rewrite length_drop; cbn [length] in *; lia.
Qed.

Lemma chunks_upto_enough fuel M l :
  0 < M -> length l <= fuel -> chunks_upto fuel M l = chunks M l.
Proof.
  intros HM Hl. unfold chunks. apply chunks_upto_fuel; [exact HM|exact Hl|lia].
Qed.

Lemma chunks_unfold M l :
  0 < M -> l <> [] -> chunks M l = take M l :: chunks M (drop M l).
Proof.
  intros HM Hl. destruct l as [|x t]; [congruence|].
  unfold chunks at 1. cbn [length chunks_upto]. f_equal.
  apply chunks_upto_enough; [exact HM|].
  rewrite length_drop. cbn [length]. lia.
Qed.

(** Induction on a sequence by cutting its first [M] elements off. *)
Lemma chunk_ind M (HM : 0 < M) (P : list A -> Prop) :
  P [] ->
  (forall l, l <> [] -> P (drop M l) -> P l) ->
  forall l, P l.
Proof.
  intros Hnil Hstep l.
  remember (length l) as n eqn:Hn. revert l Hn.
  induction n as [n IH] using lt_wf_ind. intros l Hn.
  destruct l as [|x t]; [exact Hnil|].
  apply Hstep; [discriminate|].
  apply (IH (length (drop M (x :: t)))); [|reflexivity].
  rewrite length_drop. subst n. cbn [length]. lia.
Qed.

Lemma concat_chunks M l : 0 < M -> concat (chunks M l) = l.
Proof.
  intros HM. induction l as [|l Hl IH] using (chunk_ind M HM); [reflexivity|].
  rewrite chunks_unfold by assumption. cbn [concat]. rewrite IH.
  apply take_drop.
Qed.

Lemma length_chunks M l : 0 < M -> length (chunks M l) = ceil_div (length l) M.
Proof.
  intros HM. induction l as [|l Hl IH] using (chunk_ind M HM).
  - rewrite ceil_div_zero by exact HM. reflexivity.
  - rewrite chunks_unfold by assumption. cbn [length]. rewrite IH, length_drop.
    assert (0 < length l) by (destruct l; [congruence|cbn; lia]).
    destruct (Nat.le_gt_cases (length l) M) as [Hle|Hgt].
    + replace (length l - M) with 0 by lia.
      rewrite ceil_div_zero, ceil_div_small by lia. reflexivity.
    + rewrite (ceil_div_step (length l) M) by lia. reflexivity.
Qed.

(** The [i]-th chunk is the slice of [M] frames that starts at [i * M]. *)
Lemma chunks_lookup M l i :
  0 < M ->
  chunks M l !! i = if i * M <? length l then Some (take M (drop (i * M) l)) else None.
Proof.
  intros HM. revert i.
  induction l as [|l Hl IH] using (chunk_ind M HM); intros i.
  - cbn. destruct (i * M <? 0) eqn:E; [apply Nat.ltb_lt in E; lia|].
    apply lookup_nil.
  - rewrite chunks_unfold by assumption.
    assert (0 < length l) by (destruct l; [congruence|cbn; lia]).
    destruct i as [|i].
    + cbn [lookup list_lookup Nat.mul].
      destruct (Nat.ltb_spec 0 (length l)); [|lia]. reflexivity.
    + change ((take M l :: chunks M (drop M l)) !! S i)
        with (chunks M (drop M l) !! i).
      rewrite IH, length_drop, drop_drop.
      replace (M + i * M) with (S i * M) by lia.
      destruct (Nat.ltb_spec (i * M) (length l - M)),
               (Nat.ltb_spec (S i * M) (length l)); try lia; reflexivity.
Qed.

Lemma chunks_lookup_Some M l i c :
  0 < M -> chunks M l !! i = Some c ->
  i * M < length l /\ c = take M (drop (i * M) l).
Proof.
  intros HM. rewrite chunks_lookup by exact HM.
  destruct (Nat.ltb_spec (i * M) (length l)); [|discriminate].
  intros [= <-]. auto.
Qed.

(** Every chunk but the last holds exactly [M] frames; the last one holds
    the remainder, between 1 and [M] frames. *)
Lemma chunks_sizes M l i c :
  0 < M -> chunks M l !! i = Some c ->
  0 < length c <= M
  /\ i * M + length c <= length l
  /\ (S i < length (chunks M l) -> length c = M)
  /\ (S i = length (chunks M l) -> i * M + length c = length l).
Proof.
  intros HM Hc.
  destruct (chunks_lookup_Some M l i c HM Hc) as [Hi ->].
  rewrite length_take, length_drop.
  repeat split; try lia.
  - intros Hlt.
    destruct (chunks M l !! S i) as [c'|] eqn:Hn.
    + apply chunks_lookup_Some in Hn; [|exact HM]. lia.
    + apply lookup_ge_None in Hn. lia.
  - intros Heq.
    assert (Hn : chunks M l !! S i = None) by (apply lookup_ge_None; lia).
    rewrite chunks_lookup in Hn by exact HM.
    destruct (Nat.ltb_spec (S i * M) (length l)); [discriminate|]. lia.
Qed.

Lemma chunks_single M l : 0 < M -> 0 < length l <= M -> chunks M l = [l].
Proof.
  intros HM [H1 H2].
  rewrite chunks_unfold; [|exact HM|destruct l; [cbn in H1; lia|discriminate]].
  rewrite take_ge, drop_ge by lia. reflexivity.
Qed.

(** What a chunk holds comes from the sequence that was cut. *)
Lemma chunks_upto_In fuel M l c x :
  In c (chunks_upto fuel M l) -> In x c -> In x l.
Proof.
  revert l. induction fuel as [|fuel IH]; intros l Hc Hx; [destruct Hc|].
  destruct l as [|y t]; [destruct Hc|].
  cbn [chunks_upto] in Hc. destruct Hc as [<-|Hc].
  - apply list_elem_of_In. eapply subseteq_take. apply list_elem_of_In. exact Hx.
  - apply list_elem_of_In. eapply subseteq_drop. apply list_elem_of_In.
    eapply IH; eassumption.
Qed.

End ChunkFacts.

(** ** The Segmenter: what is emitted and what is dropped *)

Section SegmenterFacts.
Import Pipeline PipelineObs.
Local Open Scope nat_scope.

Context {R : Type}.
Implicit Types (traj : GlobalMarkerTrajectory R) (cs : list (TrajectorySegment R)).

Lemma drop_trailing_nan_cons (c : TrajectorySegment R) rest :
  drop_trailing_nan (c :: rest) =
    match drop_trailing_nan rest with
    | [] => if all_nan c then [] else [c]
    | kept => c :: kept
    end.
Proof. reflexivity. Qed.

Lemma drop_trailing_nan_app cs :
  exists d, cs = drop_trailing_nan cs ++ d /\ forallb all_nan d = true.
Proof.
  induction cs as [|c rest IH]; [exists []; auto|].
  cbn [drop_trailing_nan]. destruct IH as [d [Hd Hn]].
  destruct (drop_trailing_nan rest) as [|k ks] eqn:E.
  - cbn [app] in Hd. subst d. destruct (all_nan c) eqn:Ec.
    + exists (c :: rest). split; [reflexivity|]. cbn [forallb]. now rewrite Ec, Hn.
    + exists rest. auto.
  - exists d. split; [|exact Hn]. rewrite Hd at 1. reflexivity.
Qed.

Lemma drop_trailing_nan_last cs c :
  last (drop_trailing_nan cs) = Some c -> all_nan c = false.
Proof.
  induction cs as [|x rest IH]; [discriminate|].
  cbn [drop_trailing_nan]. destruct (drop_trailing_nan rest) as [|k ks] eqn:E.
  - destruct (all_nan x) eqn:Ex; [discriminate|]. now intros [= <-].
  - intros H. apply IH. exact H.
Qed.

Lemma drop_trailing_nan_id cs c :
  last cs = Some c -> all_nan c = false -> drop_trailing_nan cs = cs.
Proof.
  induction cs as [|x rest IH]; [discriminate|].
  intros Hl Hc. destruct rest as [|y r].
  - injection Hl as ->. cbn. now rewrite Hc.
  - rewrite drop_trailing_nan_cons, IH; [reflexivity|exact Hl|exact Hc].
Qed.

Lemma drop_trailing_nan_In cs c : In c (drop_trailing_nan cs) -> In c cs.
Proof.
  destruct (drop_trailing_nan_app cs) as [d [Hd _]].
  intros H. rewrite Hd. apply in_or_app. now left.
Qed.

(** The partition is what [split] emits followed by what it drops. *)
Lemma split_dropped traj M :
  chunks M traj = split traj M ++ dropped traj M
  /\ forallb all_nan (dropped traj M) = true.
Proof.
  unfold dropped, split.
  destruct (drop_trailing_nan_app (chunks M traj)) as [d [Hd Hn]].
  assert (Hdrop : drop (length (drop_trailing_nan (chunks M traj))) (chunks M traj) = d).
  { rewrite Hd at 2. apply drop_app_length. }
  rewrite Hdrop. auto.
Qed.

Lemma covered_snoc M cs c :
  covered M (cs ++ [c]) = covered M cs ++ seq (length cs * M) (length c).
Proof.
  unfold covered, frame_ranges. rewrite imap_app, map_app, concat_app.
  f_equal. cbn. unfold frames_of, frame_range. cbn [fst snd].
  rewrite app_nil_r. f_equal; lia.
Qed.

Lemma covered_full M cs :
  Forall (fun c => length c = M) cs -> covered M cs = seq 0 (length cs * M).
Proof.
  induction cs as [|c cs IH] using rev_ind; intros H; [reflexivity|].
  apply Forall_app in H. destruct H as [Hcs Hc].
  apply Forall_inv in Hc.
  rewrite covered_snoc, IH, Hc by exact Hcs.
  rewrite length_app. cbn [length].
  replace ((length cs + 1) * M) with (length cs * M + M) by lia.
  symmetry. apply seq_app.
Qed.

Lemma length_concat_full M cs :
  Forall (fun c => length c = M) cs -> length (concat cs) = length cs * M.
Proof.
  induction 1 as [|c cs Hc _ IH]; [reflexivity|].
  cbn [concat length]. rewrite length_app, IH, Hc. lia.
Qed.

(** Chunks taken from the front of a partition cover the frames from 0
    on, one range after the other without gap or overlap. *)
Lemma covered_prefix M traj cs d :
  0 < M -> chunks M traj = cs ++ d ->
  covered M cs = seq 0 (length (concat cs)).
Proof.
  intros HM Hcs.
  destruct cs as [|c0 cs0] using rev_ind; [reflexivity|]. clear IHcs0.
  assert (Hfull : Forall (fun c => length c = M) cs0).
  { apply Forall_lookup. intros i x Hi.
    assert (Hlt : i < length cs0) by (eapply lookup_lt_Some; exact Hi).
    assert (Hp : chunks M traj !! i = Some x).
    { rewrite Hcs, <- app_assoc. rewrite lookup_app_l by exact Hlt. exact Hi. }
    apply (chunks_sizes M traj i x HM Hp).
    rewrite Hcs, !length_app. cbn [length]. lia. }
  rewrite covered_snoc, (covered_full M cs0 Hfull).
  rewrite concat_app, length_app, (length_concat_full M cs0 Hfull).
  cbn [concat length]. rewrite app_nil_r.
  symmetry. apply seq_app.
Qed.

Lemma split_single traj M :
  0 < M -> 0 < length traj <= M -> all_nan traj = false -> split traj M = [traj].
Proof.
  intros HM HL Hn. unfold split. rewrite chunks_single by assumption.
  cbn. now rewrite Hn.
Qed.

Lemma split_two traj M :
  0 < M -> M < length traj <= 2 * M -> all_nan (drop M traj) = false ->
  split traj M = [take M traj; drop M traj].
Proof.
  intros HM HL Hn. unfold split.
  rewrite chunks_unfold; [|exact HM|destruct traj; [cbn in HL; lia|discriminate]].
  rewrite (chunks_single M (drop M traj)) by (rewrite ?length_drop; lia).
  apply (drop_trailing_nan_id _ (drop M traj)); [reflexivity|exact Hn].
Qed.

End SegmenterFacts.

(** ** The pipeline: where a NaN can come from, and what the output depends on *)

Section PipelineFacts.
Import Py Pipeline PipelineObs.
Local Open Scope nat_scope.

Variable R : Type.
Variables radd rsub rmul : R -> R -> R.
Variable orthonormal : mat3 R -> bool.
Variable basis_of : vec3 R -> vec3 R -> mat3 R.
Variable origin_of : vec3 R -> vec3 R -> vec3 R.

Local Abbreviation FK := (ForwardKinematics R radd rmul orthonormal).
Local Abbreviation align := (apply_alignment R radd rsub rmul).
Local Abbreviation process := (process_trial R radd rsub rmul orthonormal basis_of origin_of).
Local Abbreviation trial_run := (run_trial R radd rsub rmul orthonormal basis_of origin_of).
Local Abbreviation participant_run :=
  (run_participant R radd rsub rmul orthonormal basis_of origin_of).
Local Abbreviation gen := (Pipeline.generate R radd rsub rmul orthonormal basis_of origin_of).

Implicit Types (traj : GlobalMarkerTrajectory R) (trial : TrialKinematics R)
  (catalog : list (MarkerDefinition R)) (rd : KinematicsReader R).

Lemma traverse_inr {A B} (f : A -> result B) l ys :
  traverse f l = inr ys -> forall y, In y ys -> exists x, In x l /\ f x = inr y.
Proof.
  revert ys. induction l as [|x t IH]; intros ys H y Hy.
  - injection H as <-. destruct Hy.
  - cbn [traverse] in H. destruct (f x) as [e|y0] eqn:Hx; [discriminate|].
    destruct (traverse f t) as [e|ys0]; [discriminate|].
    injection H as <-. destruct Hy as [<-|Hy].
    + exists x. split; [now left|exact Hx].
    + destruct (IH ys0 eq_refl y Hy) as [x' [Hin Hf]].
      exists x'. split; [now right|exact Hf].
Qed.

Lemma host_motion_inr trial m h :
  host_motion R orthonormal trial m = inr h ->
  segments trial !! hostSegment m = Some h.2.
Proof.
  unfold host_motion, or_fail. cbn.
  destruct (segments trial !! hostSegment m) as [sm|]; [|discriminate].
  cbn. destruct (rotations_valid R orthonormal sm); [|discriminate].
  now intros [= <-].
Qed.

Lemma trial_complete_lookup trial nm sm f :
  trial_complete trial = true ->
  segments trial !! nm = Some sm -> f < frameCount trial ->
  frame_present sm f = true.
Proof.
  unfold trial_complete. intros Hc Hs Hf.
  rewrite forallb_forall in Hc.
  assert (Hin : In (nm, sm) (map_to_list (segments trial))).
  { apply list_elem_of_In, elem_of_map_to_list. exact Hs. }
  specialize (Hc _ Hin). cbn [snd] in Hc.
  rewrite forallb_forall in Hc. apply Hc, in_seq. lia.
Qed.

Lemma marker_position_present sm m f :
  frame_present sm f = true ->
  is_nan (marker_position R radd rmul sm m f) = false.
Proof.
  unfold frame_present, marker_position.
  destruct (rotation sm !! f) as [[Rf|]|]; try discriminate.
  destruct (translation sm !! f) as [[tf|]|]; try discriminate.
  reflexivity.
Qed.

Lemma nan_free_forall traj :
  nan_free traj = true <->
  forall fr, In fr traj -> forall p, In p fr -> is_nan p = false.
Proof.
  unfold nan_free. rewrite forallb_forall. split.
  - intros H fr Hfr p Hp. specialize (H fr Hfr). rewrite forallb_forall in H.
    apply negb_true_iff, H, Hp.
  - intros H fr Hfr. apply forallb_forall. intros p Hp.
    apply negb_true_iff. eapply H; eassumption.
Qed.

(** Forward kinematics yields a NaN only for a frame the source marks
    invalid or missing. *)
Lemma FK_nan_free catalog trial traj :
  trial_complete trial = true -> FK catalog trial = inr traj -> nan_free traj = true.
Proof.
  intros Hc. unfold ForwardKinematics. cbn.
  destruct (traverse (host_motion R orthonormal trial) catalog) as [e|hosts] eqn:Ht;
    [discriminate|].
  cbn. intros [= <-]. apply nan_free_forall. intros fr Hfr p Hp.
  apply in_map_iff in Hfr. destruct Hfr as [f [<- Hf]].
  apply in_map_iff in Hp. destruct Hp as [h [<- Hh]].
  destruct (traverse_inr _ _ _ Ht h Hh) as [m [_ Hm]].
  apply marker_position_present.
  eapply trial_complete_lookup; [exact Hc|eapply host_motion_inr; exact Hm|].
  apply in_seq in Hf. lia.
Qed.

(** Alignment keeps a NaN a NaN and a number a number. *)
Lemma align_nan_free traj a : nan_free traj = true -> nan_free (align traj a) = true.
Proof.
  rewrite !nan_free_forall. intros H fr Hfr p Hp.
  unfold apply_alignment in Hfr.
  apply in_map_iff in Hfr. destruct Hfr as [fr0 [<- Hfr0]].
  apply in_map_iff in Hp. destruct Hp as [p0 [<- Hp0]].
  specialize (H fr0 Hfr0 p0 Hp0). destruct p0; [reflexivity|discriminate].
Qed.

Lemma split_nan_free traj M s :
  nan_free traj = true -> In s (split traj M) -> nan_free s = true.
Proof.
  rewrite !nan_free_forall. intros H Hs fr Hfr p Hp.
  apply drop_trailing_nan_In in Hs.
  eapply H; [|exact Hp].
  eapply chunks_upto_In; eassumption.
Qed.

Lemma process_nan_free catalog ir il M trial segs s :
  trial_complete trial = true ->
  process catalog ir il M trial = inr segs -> In s segs -> nan_free s = true.
Proof.
  intros Hc. unfold process_trial. cbn.
  destruct (FK catalog trial) as [e|traj] eqn:Hfk; [discriminate|]. cbn.
  destruct (estimate R basis_of origin_of traj ir il) as [e|a]; [discriminate|]. cbn.
  intros [= <-] Hs.
  eapply split_nan_free; [|exact Hs].
  apply align_nan_free. eapply FK_nan_free; eassumption.
Qed.

(** A segment of the output comes from one trial of one selected
    participant. *)
Lemma trial_run_In rd catalog ir il M p t s :
  In s (trial_run rd catalog ir il M p t).2 ->
  exists trial segs, readTrial rd p t = Some trial
                     /\ process catalog ir il M trial = inr segs /\ In s segs.
Proof.
  unfold run_trial, or_fail. cbn.
  destruct (readTrial rd p t) as [trial|]; [|intros []]. cbn.
  destruct (process catalog ir il M trial) as [e|segs] eqn:Hp; [intros []|].
  cbn. intros Hs. exists trial, segs. auto.
Qed.

Lemma participant_run_In rd catalog ir il M p s :
  In s (participant_run rd catalog ir il M p).2 ->
  exists ts t, listTrials rd p = Some ts /\ In t ts
               /\ In s (trial_run rd catalog ir il M p t).2.
Proof.
  unfold run_participant. destruct (listTrials rd p) as [ts|]; [|intros []].
  cbn [snd]. intros Hs. apply in_concat in Hs. destruct Hs as [segs [Hsegs Hs]].
  apply in_map_iff in Hsegs. destruct Hsegs as [r [<- Hr]].
  apply in_map_iff in Hr. destruct Hr as [t [<- Ht]].
  exists ts, t. auto.
Qed.

(** A run that returns a dataset loaded the catalog, found both alignment
    markers and was not asked for more participants than there are. *)
Lemma generate_inr load open_archive config log data :
  gen load open_archive config = (log, inr data) ->
  exists catalog ir il,
    load (Aml.markersetpath config) = Some catalog
    /\ let rd := open_archive (Aml.bodykinpath config) in
       let rs := map (participant_run rd catalog ir il (Z.to_nat (Aml.max_len config)))
                     (take (Z.to_nat (Aml.num_participants config)) (listParticipants rd)) in
       data = concat (map snd rs) /\ log = concat (map fst rs) /\ data <> [].
Proof.
  unfold Pipeline.generate.
  destruct (load (Aml.markersetpath config)) as [catalog|]; [|discriminate].
  destruct (Z.of_nat _ <? _)%Z; [discriminate|].
  destruct (marker_index (Aml.alignMkR config) catalog) as [ir|]; [|discriminate].
  destruct (marker_index (Aml.alignMkL config) catalog) as [il|]; [|discriminate].
  destruct (concat (map snd _)) as [|d ds] eqn:Hd; [discriminate|].
  intros [= <- <-]. exists catalog, ir, il. split; [reflexivity|].
  cbn zeta. rewrite Hd. auto.
Qed.

(** Asking for more participants than the archive lists fails before any
    trial is read. *)
Lemma generate_too_many load open_archive config :
  (Z.of_nat (length (listParticipants (open_archive (Aml.bodykinpath config))))
   < Aml.num_participants config)%Z ->
  exists msg, gen load open_archive config = ([], inl (Exn ConfigError msg)).
Proof.
  intros H. unfold Pipeline.generate.
  destruct (load (Aml.markersetpath config)) as [catalog|]; [|eexists; reflexivity].
  apply Z.ltb_lt in H. rewrite H. eexists; reflexivity.
Qed.

(** The run reads the archive only through the selected participants. *)
Lemma participant_run_ext rd1 rd2 catalog ir il M p :
  listTrials rd1 p = listTrials rd2 p ->
  (forall t, readTrial rd1 p t = readTrial rd2 p t) ->
  participant_run rd1 catalog ir il M p = participant_run rd2 catalog ir il M p.
Proof.
  intros Hl Hr. unfold run_participant. rewrite <- Hl.
  destruct (listTrials rd1 p) as [ts|]; [|reflexivity].
  assert (Hm : map (trial_run rd1 catalog ir il M p) ts
               = map (trial_run rd2 catalog ir il M p) ts).
  { apply map_ext. intros t. unfold run_trial. rewrite Hr. reflexivity. }
  rewrite Hm. reflexivity.
Qed.

Lemma generate_ext load1 load2 open1 open2 config :
  load1 (Aml.markersetpath config) = load2 (Aml.markersetpath config) ->
  same_selection (open1 (Aml.bodykinpath config)) (open2 (Aml.bodykinpath config))
                 (Z.to_nat (Aml.num_participants config)) ->
  gen load1 open1 config = gen load2 open2 config.
Proof.
  intros Hload [Hps Hsel]. unfold Pipeline.generate.
  rewrite <- Hload, <- Hps.
  destruct (load1 (Aml.markersetpath config)) as [catalog|]; [|reflexivity].
  destruct (Z.of_nat _ <? _)%Z; [reflexivity|].
  destruct (marker_index (Aml.alignMkR config) catalog) as [ir|]; [|reflexivity].
  destruct (marker_index (Aml.alignMkL config) catalog) as [il|]; [|reflexivity].
  set (n := Z.to_nat (Aml.num_participants config)) in *.
  set (M := Z.to_nat (Aml.max_len config)).
  assert (Hm : map (participant_run (open1 (Aml.bodykinpath config)) catalog ir il M)
                   (take n (listParticipants (open1 (Aml.bodykinpath config))))
               = map (participant_run (open2 (Aml.bodykinpath config)) catalog ir il M)
                     (take n (listParticipants (open1 (Aml.bodykinpath config))))).
  { apply map_ext_in. intros p Hp. destruct (Hsel p Hp) as [Hl Hr].
    apply participant_run_ext; assumption. }
  rewrite Hm. reflexivity.
Qed.

End PipelineFacts.

(** * The claims *)

(** ** About the two scripts *)

Section ScriptClaims.
Import Py Obs.

Context {tensor : Type}.
Variable shape : tensor -> list nat.
Variable core : Aml.kwargs -> exn + list tensor.
Variables dirname abspath : string -> string.
Variables e1 e2 : string.

Local Abbreviation wrapper := (GenerateSyntheticData.main shape core dirname abspath e1 e2).
Local Abbreviation template c :=
  (ConfigTemplate.main c shape core dirname abspath e1 e2).

(** C5.  Whenever the wrapper's [main] reaches the call of the core, both
    input paths exist and [num_participants] lies in 1..100; a run that
    violates one of these ends with status 1 without calling the core; so
    a core that guards the range 1..100 itself never takes that branch
    when called from the wrapper. *)
Theorem C5_core_reached_only_after_validation
    (c : GenerateSyntheticData.cmdline) (w : world) :
  (forall kw, In kw (core_calls (events (wrapper c w))) ->
      fs_exists w (Aml.bodykinpath kw) = true
      /\ fs_exists w (Aml.markersetpath kw) = true
      /\ (1 <= Aml.num_participants kw <= 100)%Z)
  /\ (forall args,
        GenerateSyntheticData.parse_args c w = ([], w, inr args) ->
        fs_exists w (GenerateSyntheticData.bodykin args) = false
        \/ fs_exists w (GenerateSyntheticData.markerset args) = false
        \/ (GenerateSyntheticData.num_participants args < 1)%Z
        \/ (100 < GenerateSyntheticData.num_participants args)%Z ->
        status (wrapper c w) = 1%Z /\ core_calls (events (wrapper c w)) = [])
  /\ GenerateSyntheticData.main shape (range_checked core) dirname abspath e1 e2 c w
     = wrapper c w.
Proof.
  split; [|split].
  - intros kw Hin.
    destruct (main_calls_inv shape core dirname abspath e1 e2 c w kw Hin)
      as [args [_ [Hv ->]]].
    exact (proj1 (validated_true args w) Hv).
  - intros args Hp Hbad. apply (proj2 (validated_false args w)) in Hbad.
    rewrite (main_rejected shape core dirname abspath e1 e2 c args w Hp Hbad).
    split; [reflexivity|]. cbn [events fst]. apply core_calls_prints.
  - destruct (parse_args_cases c w)
      as [[b [m [o [r [l [f [_ [_ [_ [_ [_ [_ Hp]]]]]]]]]]]]|Hp].
    + rewrite !(main_parsed _ _ _ _ _ _ c _ w Hp).
      match type of Hp with _ = (_, _, inr ?a) => set (args := a) in * end.
      destruct (validated args w) eqn:Hv.
      * apply run_core_ext. unfold range_checked.
        destruct (proj1 (validated_true args w) Hv) as [_ [_ [H1 H2]]].
        change (Aml.num_participants (GenerateSyntheticData.core_kwargs args))
          with (GenerateSyntheticData.num_participants args).
        destruct (Z.ltb_spec (GenerateSyntheticData.num_participants args) 1); [lia|].
        destruct (Z.ltb_spec 100 (GenerateSyntheticData.num_participants args)); [lia|].
        reflexivity.
      * rewrite !run_rejected by exact Hv. reflexivity.
    + rewrite !main_unparsed by exact Hp. reflexivity.
Qed.



(** C8.  When the core returns an empty sequence without raising, the
    wrapper prints the banner and a count of 0, then [data[0]] raises
    IndexError, the handler prints the error and the traceback, and the
    status is 1; a run that ends with status 0 had a dataset with a first
    segment and printed the summary to its last line. *)
Theorem C8_empty_dataset_is_not_reported_as_success
    (c : GenerateSyntheticData.cmdline) (w : world)
    (args : GenerateSyntheticData.Namespace) :
  GenerateSyntheticData.parse_args c w = ([], w, inr args) ->
  validated args w = true ->
  core (GenerateSyntheticData.core_kwargs args) = inr [] ->
  status (wrapper c w) = 1%Z
  /\ (exists pre,
        core_calls pre = []
        /\ events (wrapper c w)
           = pre ++ CallCore (GenerateSyntheticData.core_kwargs args)
                 :: map Print (summary_head 0)
                 ++ [Print (error_line empty_index_error); PrintExc empty_index_error])
  /\ (forall c' w',
        status (wrapper c' w') = 0%Z ->
        exists args' d ds,
          GenerateSyntheticData.parse_args c' w' = ([], w', inr args')
          /\ core (GenerateSyntheticData.core_kwargs args') = inr (d :: ds)
          /\ In next_step (printed (events (wrapper c' w')))).
Proof.
  intros Hp Hv Hc. split; [|split].
  - rewrite (main_parsed shape core dirname abspath e1 e2 c args w Hp).
    destruct (run_cases shape core dirname abspath e1 e2 args w)
      as [[Hf _]|[_ [pre [w1 [Hpre Hr]]]]]; [congruence|].
    rewrite Hc in Hr.
    destruct Hr as [[Hne _]|[e [rest [_ ->]]]]; [congruence|reflexivity].
  - rewrite (main_parsed shape core dirname abspath e1 e2 c args w Hp).
    destruct (run_cases shape core dirname abspath e1 e2 args w)
      as [[Hf _]|[_ [pre [w1 [Hpre Hr]]]]]; [congruence|].
    rewrite Hc in Hr.
    destruct Hr as [[Hne _]|[e [rest [He ->]]]]; [congruence|].
    destruct (He eq_refl) as [-> ->].
    exists pre. split; [exact Hpre|]. cbn [events fst length].
    rewrite app_nil_r. reflexivity.
  - intros c' w' Hs.
    destruct (parse_args_cases c' w')
      as [[b [m [o [r [l [f [_ [_ [_ [_ [_ [_ Hp']]]]]]]]]]]]|Hp'].
    2:{ rewrite (main_unparsed shape core dirname abspath e1 e2 c' w' Hp') in Hs.
        discriminate. }
    match type of Hp' with _ = (_, _, inr ?a) => set (args' := a) in * end.
    rewrite (main_parsed shape core dirname abspath e1 e2 c' args' w' Hp') in *.
    destruct (run_cases shape core dirname abspath e1 e2 args' w')
      as [[_ Hr]|[_ [pre [w1 [Hpre Hr]]]]].
    { rewrite Hr in Hs. discriminate. }
    destruct (core (GenerateSyntheticData.core_kwargs args')) as [e|data] eqn:Hc'.
    { rewrite Hr in Hs. discriminate. }
    destruct Hr as [[Hne [mk [lo [hi Hr]]]]|[e [rest [_ Hr]]]].
    2:{ rewrite Hr in Hs. discriminate. }
    destruct data as [|d ds]; [congruence|].
    exists args', d, ds. split; [exact Hp'|]. split; [exact Hc'|].
    rewrite Hr. trace_simpl. unfold summary_tail, next_step. find_in.
Qed.

(** C9.  With the required options given and neither [--num-participants]
    nor [--max-len], the wrapper calls the core with [num_participants =
    100] and [max_len = 240]; whichever of the two is left out takes its
    default in any call; and 100 and 240 are also the template's
    NUM_PARTICIPANTS and MAX_SEGMENT_LENGTH. *)
Theorem C9_defaults_reach_the_core
    (c : GenerateSyntheticData.cmdline) (w : world)
    (b m o r l : string) (f : Z) :
  GenerateSyntheticData.opt_bodykin c = Some b ->
  GenerateSyntheticData.opt_markerset c = Some m ->
  GenerateSyntheticData.opt_output c = Some o ->
  GenerateSyntheticData.opt_align_right c = Some r ->
  GenerateSyntheticData.opt_align_left c = Some l ->
  GenerateSyntheticData.opt_fs c = Some f ->
  fs_exists w b = true -> fs_exists w m = true ->
  (GenerateSyntheticData.opt_num_participants c = None ->
   GenerateSyntheticData.opt_max_len c = None ->
   core_calls (events (wrapper c w))
   = [ {| Aml.bodykinpath := b; Aml.markersetpath := m; Aml.outputfile := o;
          Aml.alignMkR := r; Aml.alignMkL := l; Aml.fs := f;
          Aml.num_participants := 100; Aml.max_len := 240 |} ])
  /\ (forall kw, In kw (core_calls (events (wrapper c w))) ->
        (GenerateSyntheticData.opt_num_participants c = None ->
         Aml.num_participants kw = 100%Z)
        /\ (GenerateSyntheticData.opt_max_len c = None -> Aml.max_len kw = 240%Z))
  /\ ConfigTemplate.NUM_PARTICIPANTS ConfigTemplate.template = 100%Z
  /\ ConfigTemplate.MAX_SEGMENT_LENGTH ConfigTemplate.template = 240%Z.
Proof.
  intros Hb Hm Ho Hr Hl Hf Eb Em.
  destruct (parse_args_cases c w)
    as [[b' [m' [o' [r' [l' [f' [Hb' [Hm' [Ho' [Hr' [Hl' [Hf' Hp]]]]]]]]]]]]|Hp].
  2:{ exfalso. unfold GenerateSyntheticData.parse_args in Hp.
      rewrite Hb, Hm, Ho, Hr, Hl, Hf in Hp. discriminate. }
  assert (b' = b) by congruence. assert (m' = m) by congruence.
  assert (o' = o) by congruence. assert (r' = r) by congruence.
  assert (l' = l) by congruence. assert (f' = f) by congruence. subst.
  split; [|split; [|split; reflexivity]].
  - intros Hn Hk. rewrite Hn, Hk in Hp. cbn [default] in Hp.
    rewrite (main_validated_calls shape core dirname abspath e1 e2 c _ w Hp);
      [reflexivity|].
    apply validated_true. cbn. repeat split; [exact Eb|exact Em|lia|lia].
  - intros kw Hin.
    destruct (main_calls_inv shape core dirname abspath e1 e2 c w kw Hin)
      as [args [Hp2 [_ ->]]].
    rewrite Hp in Hp2. injection Hp2 as <-. cbn.
    split; intros ->; reflexivity.
Qed.


End ScriptClaims.

(** ** About the Segmenter *)

Section SegmenterClaims.
Import Pipeline PipelineObs.
Local Open Scope nat_scope.

Context {R : Type}.


End SegmenterClaims.



(** ** About the pipeline as a whole *)

Section PipelineClaims.
Import Py Pipeline PipelineObs Obs.

Variable R : Type.
Variables radd rsub rmul : R -> R -> R.
Variable orthonormal : mat3 R -> bool.
Variable basis_of : vec3 R -> vec3 R -> mat3 R.
Variable origin_of : vec3 R -> vec3 R -> vec3 R.

Local Abbreviation gen :=
  (Pipeline.generate R radd rsub rmul orthonormal basis_of origin_of).




End PipelineClaims.

(** ** The claims on concrete runs *)

Section Witnesses.
Import Py Pipeline PipelineObs Obs Demo.





(** [--num-participants 0] with both files present: status 1, no call. *)
Lemma C5_core_reached_only_after_validation_witness :
  status (GenerateSyntheticData.main shape core_two dirname abspath seconds minutes
            (cmd_with 0) world_ready) = 1%Z
  /\ core_calls (events (GenerateSyntheticData.main shape core_two dirname abspath
                           seconds minutes (cmd_with 0) world_ready)) = [].
Proof.
  apply (proj1 (proj2 (C5_core_reached_only_after_validation shape core_two dirname
                         abspath seconds minutes (cmd_with 0) world_ready))
           (args_with 0)); [reflexivity|].
  right. right. left. reflexivity.
Defined.



(** A core that returns the empty list: status 1. *)
Lemma C8_empty_dataset_is_not_reported_as_success_witness :
  status (GenerateSyntheticData.main shape core_none dirname abspath seconds minutes
            (cmd_with 10) world_ready) = 1%Z.
Proof.
  apply (C8_empty_dataset_is_not_reported_as_success shape core_none dirname abspath
           seconds minutes (cmd_with 10) world_ready (args_with 10)); reflexivity.
Defined.

(** The command line without the two optional arguments. *)
Lemma C9_defaults_reach_the_core_witness :
  core_calls (events (GenerateSyntheticData.main shape core_two dirname abspath
                        seconds minutes cmd_defaults world_ready))
  = [ {| Aml.bodykinpath := "../data/bodykinematics.hdf5";
         Aml.markersetpath := "../data/MarkerSet.xml";
         Aml.outputfile := "../data/simulatedTrajectories.pickle";
         Aml.alignMkR := "RAC"; Aml.alignMkL := "LAC"; Aml.fs := 240;
         Aml.num_participants := 100; Aml.max_len := 240 |} ].
Proof.
  apply (C9_defaults_reach_the_core shape core_two dirname abspath seconds minutes
           cmd_defaults world_ready); reflexivity.
Defined.



End Witnesses.

(** * Further properties of the scripts *)

(** ** generate_synthetic_data.py: the summary and the output directory *)

(** Nested [after] around a finished run, flattened to one list. *)
Ltac trace_norm :=
  rewrite ?after_triple;
  repeat first [rewrite <- app_assoc | progress cbn [app fst snd]].

Ltac py_go :=
  repeat (progress (py_unfold;
                    cbn -[GenerateSyntheticData.rule ConfigTemplate.rule
                          ConfigTemplate.dashes str_repeat show_nat show_Z
                          String.append Py.comprehension Py.tuple_index
                          ConfigTemplate.for_each nl nth_error More.first_dims
                          fold_left length])).

Section MinMaxFacts.
Local Open Scope nat_scope.

Lemma forall2_in_l {A B} (P : A -> B -> Prop) xs ys x :
  Forall2 P xs ys -> In x xs -> exists y, In y ys /\ P x y.
Proof.
  induction 1 as [|a b xs ys Hab _ IH]; intros Hin; [destruct Hin|].
  destruct Hin as [<-|Hin].
  - exists b. split; [now left|exact Hab].
  - destruct (IH Hin) as [y [Hy Hxy]]. exists y. split; [now right|exact Hxy].
Qed.

Lemma forall2_in_r {A B} (P : A -> B -> Prop) xs ys y :
  Forall2 P xs ys -> In y ys -> exists x, In x xs /\ P x y.
Proof.
  induction 1 as [|a b xs ys Hab _ IH]; intros Hin; [destruct Hin|].
  destruct Hin as [<-|Hin].
  - exists a. split; [now left|exact Hab].
  - destruct (IH Hin) as [x [Hx Hxy]]. exists x. split; [now right|exact Hxy].
Qed.

Lemma nth_error_Some_1 {A} (l : list A) x : nth_error l 1 = Some x -> 2 <= length l.
Proof. destruct l as [|a [|b t]]; cbn; try discriminate. lia. Qed.

Lemma fold_min_le ls l : fold_left Nat.min ls l <= l.
Proof.
  revert l. induction ls as [|x ls IH]; intros l; [reflexivity|].
  cbn [fold_left]. etransitivity; [apply IH|]. apply Nat.le_min_l.
Qed.

Lemma fold_min_lower ls l x : In x (l :: ls) -> fold_left Nat.min ls l <= x.
Proof.
  revert l. induction ls as [|y ls IH]; intros l Hin.
  - destruct Hin as [<-|[]]. reflexivity.
  - cbn [fold_left]. destruct Hin as [<-|[<-|Hin]].
    + etransitivity; [apply fold_min_le|]. apply Nat.le_min_l.
    + etransitivity; [apply fold_min_le|]. apply Nat.le_min_r.
    + apply IH. now right.
Qed.

Lemma fold_min_In ls l : In (fold_left Nat.min ls l) (l :: ls).
Proof.
  revert l. induction ls as [|y ls IH]; intros l; [now left|].
  cbn [fold_left]. destruct (IH (Nat.min l y)) as [H|H].
  - rewrite <- H. destruct (Nat.min_dec l y) as [E|E]; rewrite E; [now left|right; now left].
  - right. now right.
Qed.

Lemma fold_max_ge ls l : l <= fold_left Nat.max ls l.
Proof.
  revert l. induction ls as [|x ls IH]; intros l; [reflexivity|].
  cbn [fold_left]. etransitivity; [|apply IH]. apply Nat.le_max_l.
Qed.

Lemma fold_max_upper ls l x : In x (l :: ls) -> x <= fold_left Nat.max ls l.
Proof.
  revert l. induction ls as [|y ls IH]; intros l Hin.
  - destruct Hin as [<-|[]]. reflexivity.
  - cbn [fold_left]. destruct Hin as [<-|[<-|Hin]].
    + etransitivity; [|apply fold_max_ge]. apply Nat.le_max_l.
    + etransitivity; [|apply fold_max_ge]. apply Nat.le_max_r.
    + apply IH. now right.
Qed.

Lemma fold_max_In ls l : In (fold_left Nat.max ls l) (l :: ls).
Proof.
  revert l. induction ls as [|y ls IH]; intros l; [now left|].
  cbn [fold_left]. destruct (IH (Nat.max l y)) as [H|H].
  - rewrite <- H. destruct (Nat.max_dec l y) as [E|E]; rewrite E; [now left|right; now left].
  - right. now right.
Qed.

End MinMaxFacts.

Section WrapperMore.
Import Py GenerateSyntheticData Obs More SummaryTable.

Context {tensor : Type}.
Variable shape : tensor -> list nat.
Variable core : Aml.kwargs -> exn + list tensor.
Variables dirname abspath : string -> string.
Variables e1 e2 : string.

Lemma made_dirs_app t1 t2 : made_dirs (t1 ++ t2) = made_dirs t1 ++ made_dirs t2.
Proof using Type.
  induction t1 as [|e t1 IH]; [reflexivity|].
  destruct e; cbn; rewrite ?IH; reflexivity.
Qed.

Lemma made_dirs_prints ls : made_dirs (map Print ls) = [].
Proof using Type. induction ls; [reflexivity|assumption]. Qed.

Lemma tracebacks_app t1 t2 : tracebacks (t1 ++ t2) = tracebacks t1 ++ tracebacks t2.
Proof using Type.
  induction t1 as [|e t1 IH]; [reflexivity|].
  destruct e; cbn; rewrite ?IH; reflexivity.
Qed.

Lemma tracebacks_prints ls : tracebacks (map Print ls) = [].
Proof using Type. induction ls; [reflexivity|assumption]. Qed.

(** The comprehension over the first dimensions, evaluated. *)
Lemma comprehension_first_dims data w :
  comprehension (fun x => tuple_index (shape x) 0) data w
  = ([], w, match first_dims shape data with
            | Some ns => inr ns
            | None => inl (Raised tuple_index_error)
            end).
Proof using Type.
  induction data as [|x t IH]; [reflexivity|].
  cbn [comprehension first_dims]. unfold bind.
  rewrite tuple_index_eq. destruct (nth_error (shape x) 0) as [n|]; [|reflexivity].
  rewrite IH. destruct (first_dims shape t); reflexivity.
Qed.

Lemma first_dims_length data ns :
  first_dims shape data = Some ns -> length ns = length data.
Proof using Type.
  revert ns. induction data as [|x t IH]; intros ns H.
  - injection H as <-. reflexivity.
  - cbn [first_dims] in H. destruct (nth_error (shape x) 0); [|discriminate].
    destruct (first_dims shape t) as [ms|]; [|discriminate].
    injection H as <-. cbn. f_equal. now apply IH.
Qed.

(** The summary, evaluated. *)
Lemma summary_eq args data w :
  summary shape abspath e1 e2 args data w
  = (map Print (summary_outcome shape abspath e1 e2 args data).1, w,
     match (summary_outcome shape abspath e1 e2 args data).2 with
     | Some e => inl (Raised e)
     | None => inr tt
     end).
Proof using Type.
  unfold summary, summary_outcome, summary_head, summary_tail.
  destruct data as [|d0 ds]; [py_run; reflexivity|].
  change (list_index (d0 :: ds) 0) with (@ret tensor d0).
  py_go. rewrite tuple_index_eq.
  destruct (nth_error (shape d0) 1) as [mk|]; [|py_go; reflexivity].
  py_go.
  rewrite (comprehension_first_dims (d0 :: ds) w).
  destruct (first_dims shape (d0 :: ds)) as [[|l ls]|] eqn:Hf.
  - apply first_dims_length in Hf. discriminate.
  - py_go. rewrite (comprehension_first_dims (d0 :: ds) w), Hf. py_go. reflexivity.
  - py_go. reflexivity.
Qed.

Lemma display_configuration_eq args w :
  display_configuration args w = (map Print (WrapperTable.display_lines args), w, inr tt).
Proof using Type. reflexivity. Qed.

Lemma create_output_dir_eq args w :
  create_output_dir dirname args w =
    let d := dirname (output args) in
    if WrapperTable.must_create w d
    then ([Makedirs d; Print ("Created output directory: " +:+ d)], with_dir w d, inr tt)
    else ([], w, inr tt).
Proof using Type.
  unfold create_output_dir, WrapperTable.must_create. py_run.
  destruct (negb (String.eqb (dirname (output args)) "")
            && negb (fs_exists w (dirname (output args)))); reflexivity.
Qed.

(** The [try] block, evaluated. *)
Lemma generation_eq args w :
  generation shape core abspath e1 e2 args w =
    match core (core_kwargs args) with
    | inl e =>
        ([CallCore (core_kwargs args); Print (error_line e); PrintExc e], w,
         inl (SystemExit 1))
    | inr data =>
        match (summary_outcome shape abspath e1 e2 args data).2 with
        | Some e =>
            (CallCore (core_kwargs args)
               :: map Print (summary_outcome shape abspath e1 e2 args data).1
               ++ [Print (error_line e); PrintExc e], w, inl (SystemExit 1))
        | None =>
            (CallCore (core_kwargs args)
               :: map Print (summary_outcome shape abspath e1 e2 args data).1, w, inr tt)
        end
    end.
Proof using Type.
  unfold generation, try_except, call_core, mbind, py_bind, bind.
  destruct (core (core_kwargs args)) as [e|data].
  - unfold on_exception, error_line. py_run. reflexivity.
  - rewrite summary_eq.
    destruct ((summary_outcome shape abspath e1 e2 args data).2) as [e|].
    + unfold on_exception, error_line. py_run. reflexivity.
    + reflexivity.
Qed.

(** A validated run, evaluated: the directory, the configuration block and
    the [try] block, in this order. *)
Lemma run_validated_eq args w :
  validated args w = true ->
  run shape core dirname abspath e1 e2 args w =
    let d := dirname (output args) in
    let w1 := if WrapperTable.must_create w d then with_dir w d else w in
    after ((if WrapperTable.must_create w d
            then [Makedirs d; Print ("Created output directory: " +:+ d)]
            else [])
             ++ map Print (WrapperTable.display_lines args)
             ++ [Print "Starting generation..."])
          (generation shape core abspath e1 e2 args w1).
Proof using Type.
  intros Hv. unfold run.
  erewrite bind_inr by (rewrite validate_inputs_eq, Hv; reflexivity).
  pose proof (create_output_dir_eq args w) as Hd. cbn zeta in Hd. cbn zeta.
  destruct (WrapperTable.must_create w (dirname (output args)));
    erewrite bind_inr by exact Hd;
    erewrite bind_inr by apply display_configuration_eq;
    erewrite bind_inr by reflexivity;
    unfold after; cbn [app fst snd]; rewrite <- ?app_assoc; reflexivity.
Qed.

Lemma first_dims_Some data ns :
  first_dims shape data = Some ns ->
  Forall2 (fun x n => nth_error (shape x) 0 = Some n) data ns.
Proof using Type.
  revert ns. induction data as [|x t IH]; intros ns H.
  - injection H as <-. constructor.
  - cbn [first_dims] in H. destruct (nth_error (shape x) 0) as [n|] eqn:Hn; [|discriminate].
    destruct (first_dims shape t) as [ms|]; [|discriminate].
    injection H as <-. constructor; [exact Hn|]. now apply IH.
Qed.

Lemma first_dims_None data :
  first_dims shape data = None <-> Exists (fun x => shape x = []) data.
Proof using Type.
  induction data as [|x t IH]; cbn [first_dims].
  - split; [discriminate|]. intros H. inversion H.
  - destruct (shape x) as [|n s] eqn:Hs; cbn [nth_error].
    + split; [|reflexivity]. intros _. now left.
    + destruct (first_dims shape t) as [ms|].
      * split; [discriminate|]. intros H. inversion H as [? ? H0|? ? H0]; subst.
        -- congruence.
        -- apply IH in H0. discriminate.
      * split; [|reflexivity]. intros _. right. now apply IH.
Qed.

(** The summary reaches its last line exactly on a well-shaped dataset. *)
Lemma summary_outcome_None args data :
  (summary_outcome shape abspath e1 e2 args data).2 = None
  <-> WrapperTable.well_shaped shape data.
Proof using Type.
  unfold summary_outcome, WrapperTable.well_shaped.
  destruct data as [|d0 ds].
  { cbn. split; [discriminate|]. intros [[d [ds [H _]]] _]. discriminate. }
  destruct (nth_error (shape d0) 1) as [mk|] eqn:Hmk.
  - assert (H2 : (2 <= length (shape d0))%nat).
    { apply nth_error_Some_1 in Hmk. exact Hmk. }
    destruct (first_dims shape (d0 :: ds)) as [[|l ls]|] eqn:Hf.
    + apply first_dims_length in Hf. discriminate.
    + cbn [snd]. split; [intros _|reflexivity]. split; [eauto|].
      apply first_dims_Some in Hf.
      clear -Hf. induction Hf as [|x n t ns Hx _ IH]; constructor; [|exact IH].
      destruct (shape x); [discriminate|cbn; lia].
    + cbn [snd]. split; [discriminate|]. intros [_ Hall].
      apply first_dims_None in Hf. exfalso.
      apply Exists_exists in Hf. destruct Hf as [x [Hin Hx]].
      rewrite Forall_forall in Hall. specialize (Hall x Hin).
      rewrite Hx in Hall. cbn in Hall. lia.
  - cbn [snd]. split; [discriminate|]. intros [[d [ds' [[= <- <-] H2]]] _].
    exfalso. apply nth_error_None in Hmk. lia.
Qed.

End WrapperMore.

(** ** config_template.py: past the prompt *)

Section TemplateMore.
Import Py ConfigTemplate Obs More TemplateTable.

Variable c : constants.
Context {tensor : Type}.
Variable shape : tensor -> list nat.
Variable core : Aml.kwargs -> exn + list tensor.
Variables dirname abspath : string -> string.
Variables e1 e2 : string.

Lemma summary_eq_t data w :
  summary c shape abspath e1 e2 data w
  = (map Print (summary_outcome_t c shape abspath e1 e2 data).1, w,
     match (summary_outcome_t c shape abspath e1 e2 data).2 with
     | Some e => inl (Raised e)
     | None => inr tt
     end).
Proof using Type.
  unfold summary, summary_outcome_t, summary_head_t.
  destruct data as [|d0 ds]; [py_run; reflexivity|].
  change (list_index (d0 :: ds) 0) with (@ret tensor d0).
  py_go. rewrite tuple_index_eq.
  destruct (nth_error (shape d0) 1) as [mk|]; py_go; reflexivity.
Qed.

Lemma create_output_dir_eq_t w :
  create_output_dir c dirname w =
    let d := dirname (OUTPUT_PATH c) in
    if WrapperTable.must_create w d
    then ([Makedirs d; Print ("Created directory: " +:+ d)], with_dir w d, inr tt)
    else ([], w, inr tt).
Proof using Type.
  unfold create_output_dir, WrapperTable.must_create. py_run.
  destruct (negb (String.eqb (dirname (OUTPUT_PATH c)) "")
            && negb (fs_exists w (dirname (OUTPUT_PATH c)))); reflexivity.
Qed.

(** Lines 163-199, evaluated: the directory, the call and the summary. *)
Lemma generation_eq_t w :
  (create_output_dir c dirname ;;
   data ← call_core core (core_kwargs c);
   summary c shape abspath e1 e2 data) w =
    let d := dirname (OUTPUT_PATH c) in
    let w1 := if WrapperTable.must_create w d then with_dir w d else w in
    let made := if WrapperTable.must_create w d
                then [Makedirs d; Print ("Created directory: " +:+ d)] else [] in
    match core (core_kwargs c) with
    | inl e => (made ++ [CallCore (core_kwargs c)], w1, inl (Raised e))
    | inr data =>
        (made ++ CallCore (core_kwargs c)
              :: map Print (summary_outcome_t c shape abspath e1 e2 data).1,
         w1,
         match (summary_outcome_t c shape abspath e1 e2 data).2 with
         | Some e => inl (Raised e)
         | None => inr tt
         end)
    end.
Proof using Type.
  pose proof (create_output_dir_eq_t w) as Hd. cbn zeta in Hd. cbn zeta.
  destruct (WrapperTable.must_create w (dirname (OUTPUT_PATH c)));
    erewrite bind_inr by exact Hd;
    (destruct (core (core_kwargs c)) as [e|data] eqn:Hc;
     [ erewrite bind_inl by (unfold call_core; rewrite Hc; reflexivity); reflexivity
     | erewrite bind_inr by (unfold call_core; rewrite Hc; reflexivity);
       rewrite summary_eq_t; reflexivity ]).
Qed.

(** Up to the prompt nothing is created and the core is not called. *)
Lemma main_confirmed_t w response rest :
  expected_errors c w = [] ->
  stdin w = response :: rest ->
  declined response = false ->
  exists pre,
    core_calls pre = [] /\ made_dirs pre = [] /\ prompts pre = [prompt]
    /\ tracebacks pre = []
    /\ main c shape core dirname abspath e1 e2 w =
       after pre
         ((create_output_dir c dirname ;;
           data ← call_core core (core_kwargs c);
           summary c shape abspath e1 e2 data)
            {| fs_exists := fs_exists w; stdin := rest |}).
Proof using Type.
  intros He Hs Hdec. unfold main.
  destruct (display_configuration_spec_t c w) as [ls0 Hl0].
  erewrite bind_inr by exact Hl0.
  do 2 erewrite bind_inr by reflexivity.
  erewrite bind_inr by apply validate_config_eq.
  destruct (report_warnings_spec (expected_warnings dirname c w) w) as [lw Hw].
  erewrite bind_inr by exact Hw.
  pose proof (report_errors_spec (expected_errors c w) w) as Her.
  rewrite He in *.
  erewrite bind_inr by exact Her.
  do 2 erewrite bind_inr by reflexivity.
  pose proof (confirm_eq w) as Hc. rewrite Hs in Hc. cbn zeta in Hc.
  rewrite Hdec in Hc.
  erewrite bind_inr by exact Hc.
  do 5 erewrite bind_inr by reflexivity.
  set (x := (create_output_dir c dirname ;; _) _). clearbody x.
  exists (map Print ls0 ++ [Print "VALIDATION:"; Print dashes] ++ map Print lw
            ++ [Print "✓ Configuration valid"; Print ""; Input prompt;
                Print ""; Print rule; Print "STARTING GENERATION"; Print rule; Print ""]).
  split; [|split; [|split; [|split]]].
  - rewrite !core_calls_app, !core_calls_prints. reflexivity.
  - rewrite !made_dirs_app, !made_dirs_prints. reflexivity.
  - rewrite !prompts_app, !prompts_prints. reflexivity.
  - rewrite !tracebacks_app, !tracebacks_prints. reflexivity.
  - destruct x as [[t w'] r]. rewrite !after_triple.
    repeat first [rewrite <- app_assoc | progress cbn [app]]. reflexivity.
Qed.

(** At the prompt: a declined or missing answer ends the run there. *)
Lemma main_unconfirmed_t w :
  expected_errors c w = [] ->
  exists pre,
    core_calls pre = [] /\ made_dirs pre = [] /\ tracebacks pre = []
    /\ main c shape core dirname abspath e1 e2 w =
       match stdin w with
       | [] => (pre ++ [Input prompt], w, inl (Raised eof_error))
       | response :: rest =>
           if declined response
           then (pre ++ [Input prompt; Print "Cancelled."],
                 {| fs_exists := fs_exists w; stdin := rest |}, inl (SystemExit 0))
           else main c shape core dirname abspath e1 e2 w
       end.
Proof using Type.
  intros He.
  destruct (display_configuration_spec_t c w) as [ls0 Hl0].
  destruct (report_warnings_spec (expected_warnings dirname c w) w) as [lw Hw].
  exists (map Print ls0 ++ [Print "VALIDATION:"; Print dashes] ++ map Print lw
            ++ [Print "✓ Configuration valid"; Print ""]).
  split; [rewrite !core_calls_app, !core_calls_prints; reflexivity|].
  split; [rewrite !made_dirs_app, !made_dirs_prints; reflexivity|].
  split; [rewrite !tracebacks_app, !tracebacks_prints; reflexivity|].
  destruct (stdin w) as [|response rest] eqn:Hs.
  - unfold main.
    erewrite bind_inr by exact Hl0.
    do 2 erewrite bind_inr by reflexivity.
    erewrite bind_inr by apply validate_config_eq.
    cbv beta iota.
    erewrite bind_inr by exact Hw.
    pose proof (report_errors_spec (expected_errors c w) w) as Her.
    rewrite He in *.
    erewrite bind_inr by exact Her.
    do 2 erewrite bind_inr by reflexivity.
    pose proof (confirm_eq w) as Hc. rewrite Hs in Hc.
    erewrite bind_inl by exact Hc.
    unfold eof_error. trace_norm. reflexivity.
  - destruct (declined response) eqn:Hdec; [|reflexivity].
    unfold main.
    erewrite bind_inr by exact Hl0.
    do 2 erewrite bind_inr by reflexivity.
    erewrite bind_inr by apply validate_config_eq.
    cbv beta iota.
    erewrite bind_inr by exact Hw.
    pose proof (report_errors_spec (expected_errors c w) w) as Her.
    rewrite He in *.
    erewrite bind_inr by exact Her.
    do 2 erewrite bind_inr by reflexivity.
    pose proof (confirm_eq w) as Hc. rewrite Hs in Hc. cbn zeta in Hc.
    rewrite Hdec in Hc.
    erewrite bind_inl by exact Hc.
    trace_norm. reflexivity.
Qed.

(** With errors the run ends at the report: only lines are printed. *)
Lemma main_errors_t w :
  expected_errors c w <> [] ->
  exists ls, main c shape core dirname abspath e1 e2 w
             = (map Print ls, w, inl (SystemExit 1)).
Proof using Type.
  intros Hne. unfold main.
  destruct (display_configuration_spec_t c w) as [ls0 Hl0].
  erewrite bind_inr by exact Hl0.
  do 2 erewrite bind_inr by reflexivity.
  erewrite bind_inr by apply validate_config_eq.
  cbv beta iota.
  destruct (report_warnings_spec (expected_warnings dirname c w) w) as [lw Hw].
  erewrite bind_inr by exact Hw.
  pose proof (report_errors_spec (expected_errors c w) w) as Her.
  destruct (expected_errors c w) as [|x xs]; [congruence|].
  destruct Her as [le Her].
  erewrite bind_inl by exact Her.
  exists (ls0 ++ ["VALIDATION:"; dashes] ++ lw ++ le).
  rewrite !map_app. cbn [map]. trace_norm. reflexivity.
Qed.

Lemma ascii_lower_y a : ascii_lower a = "y"%char -> a = "y"%char \/ a = "Y"%char.
Proof using Type.
  destruct a as [[] [] [] [] [] [] [] []]; vm_compute; intros H;
    first [discriminate H | now left | now right].
Qed.

Lemma ascii_lower_e a : ascii_lower a = "e"%char -> a = "e"%char \/ a = "E"%char.
Proof using Type.
  destruct a as [[] [] [] [] [] [] [] []]; vm_compute; intros H;
    first [discriminate H | now left | now right].
Qed.

Lemma ascii_lower_s a : ascii_lower a = "s"%char -> a = "s"%char \/ a = "S"%char.
Proof using Type.
  destruct a as [[] [] [] [] [] [] [] []]; vm_compute; intros H;
    first [discriminate H | now left | now right].
Qed.

End TemplateMore.

(** * check_hdf5_structure.py *)

(** ** Computations that only print *)

Section YieldsFacts.
Import Py PyLib CheckHdf5Structure Hdf5Table.

Lemma yields_ret {A} (a : A) : yields (ret a) [] (inr a).
Proof. intros w. reflexivity. Qed.

Lemma yields_mret {A} (a : A) : yields (mret a) [] (inr a).
Proof. intros w. reflexivity. Qed.

Lemma yields_print s : yields (print s) [s] (inr tt).
Proof. intros w. reflexivity. Qed.

Lemma yields_raise {A} e : yields (@raise A e) [] (inl (Raised e)).
Proof. intros w. reflexivity. Qed.

Lemma yields_bind_inr {A B} (m : py A) (k : A -> py B) l1 a l2 r :
  yields m l1 (inr a) -> yields (k a) l2 r -> yields (m ≫= k) (l1 ++ l2) r.
Proof.
  intros Hm Hk w. unfold mbind, py_bind, bind. rewrite Hm, Hk, map_app. reflexivity.
Qed.

Lemma yields_bind_inl {A B} (m : py A) (k : A -> py B) l1 s :
  yields m l1 (inl s) -> yields (m ≫= k) l1 (inl s).
Proof. intros Hm w. unfold mbind, py_bind, bind. rewrite Hm. reflexivity. Qed.

Lemma yields_lift_inr {A} (x : exn + A) a : x = inr a -> yields (lift x) [] (inr a).
Proof. intros -> w. reflexivity. Qed.

Lemma yields_lift_inl {A} (x : exn + A) e :
  x = inl e -> yields (lift x) [] (inl (Raised e)).
Proof. intros -> w. reflexivity. Qed.

Lemma yields_when_false body : yields (when_ false body) [] (inr tt).
Proof. intros w. reflexivity. Qed.

Lemma yields_for_each_print {A} (f : A -> string) l :
  yields (for_each l (fun x => print (f x))) (map f l) (inr tt).
Proof.
  induction l as [|x l IH]; [apply yields_ret|].
  cbn [for_each map]. apply (yields_bind_inr _ _ [f x] tt); [apply yields_print|exact IH].
Qed.

Lemma yields_eq {A} (m : py A) ls ls' r : yields m ls r -> ls = ls' -> yields m ls' r.
Proof. now intros H <-. Qed.

Lemma list_index_found {A} (l : list A) i x :
  nth_error l i = Some x -> yields (list_index l i) [] (inr x).
Proof. intros H w. unfold list_index. rewrite H. reflexivity. Qed.

Lemma list_index_missing {A} (l : list A) i :
  nth_error l i = None ->
  yields (list_index l i) [] (inl (Raised Obs.empty_index_error)).
Proof. intros H w. unfold list_index. rewrite H. reflexivity. Qed.

Lemma tuple_index_found {A} (l : list A) i x :
  nth_error l i = Some x -> yields (tuple_index l i) [] (inr x).
Proof. intros H w. unfold tuple_index. rewrite H. reflexivity. Qed.

Lemma tuple_index_missing {A} (l : list A) i :
  nth_error l i = None ->
  yields (tuple_index l i) [] (inl (Raised More.tuple_index_error)).
Proof. intros H w. unfold tuple_index. rewrite H. reflexivity. Qed.

Lemma py_min_yields l ls : yields (py_min (l :: ls)) [] (inr (fold_left Nat.min ls l)).
Proof. intros w. reflexivity. Qed.

Lemma py_max_yields l ls : yields (py_max (l :: ls)) [] (inr (fold_left Nat.max ls l)).
Proof. intros w. reflexivity. Qed.

End YieldsFacts.

(** Runs a printing computation whose steps are known. *)
Ltac yields_atom :=
  first [ apply yields_ret | apply yields_mret | apply yields_print | apply yields_raise
        | apply yields_when_false | apply yields_for_each_print
        | eassumption
        | apply yields_lift_inr; eassumption
        | apply yields_lift_inl; eassumption ].

Ltac yields_with simp atom :=
  cbv beta zeta; simp;
  lazymatch goal with
  | |- PyLib.yields (_ ≫= _) _ _ =>
      first [ eapply yields_bind_inr; [solve [yields_with simp atom]|yields_with simp atom]
            | eapply yields_bind_inl; solve [yields_with simp atom]
            | idtac ]
  | |- PyLib.yields (Py.when_ true ?b) _ _ => unfold Py.when_; yields_with simp atom
  | |- _ => first [ yields_atom | atom | idtac ]
  end.

Ltac yields_go := yields_with idtac fail.

(** ** The recursive listing *)

Section ListingFacts.
Import Py PyLib CheckHdf5Structure Hdf5Table.
Local Open Scope nat_scope.

Lemma item_ind' (P : item -> Prop) :
  (forall members, Forall (fun m => P m.2) members -> P (Group members)) ->
  (forall shape dtype, P (Dataset shape dtype)) ->
  P Datatype ->
  forall it, P it.
Proof.
  intros Hg Hd Ht. fix IH 1. intros [members|shape dtype|].
  - apply Hg. induction members as [|[k i] rest IHrest]; constructor;
      [apply IH|exact IHrest].
  - apply Hd.
  - exact Ht.
Qed.

Lemma height_group members :
  height (Group members) = S (list_max (map (fun m => height m.2) members)).
Proof.
  cbn [height]. f_equal.
  induction members as [|m rest IH]; [reflexivity|].
  simpl. now rewrite IH.
Qed.

Lemma entries_group members :
  entries (Group members) = S (list_sum (map (fun m => entries m.2) members)).
Proof.
  cbn [entries]. f_equal.
  induction members as [|m rest IH]; [reflexivity|].
  simpl. now rewrite IH.
Qed.

Lemma list_sum_zero {A} (l : list A) : list_sum (map (fun _ => 0) l) = 0.
Proof. induction l; [reflexivity|exact IHl]. Qed.

Lemma list_sum_le {A} (f g : A -> nat) l :
  Forall (fun x => f x <= g x) l -> list_sum (map f l) <= list_sum (map g l).
Proof. induction 1; simpl; lia. Qed.

Lemma list_sum_eq {A} (f g : A -> nat) l :
  Forall (fun x => f x = g x) l -> list_sum (map f l) = list_sum (map g l).
Proof. induction 1; simpl; lia. Qed.

Lemma list_sum_lt {A} (f g : A -> nat) l :
  Forall (fun x => f x <= g x) l -> Exists (fun x => f x < g x) l ->
  list_sum (map f l) < list_sum (map g l).
Proof.
  induction 1 as [|x l Hx Hl IH]; intros Hex; [inversion Hex|].
  pose proof (list_sum_le f g l Hl) as Hle. simpl.
  inversion Hex as [? ? Hlt|? ? Hin]; subst; [lia|].
  specialize (IH Hin). lia.
Qed.

Lemma list_max_witness l n : n < list_max l -> exists h, In h l /\ n < h.
Proof.
  induction l as [|a l IH]; simpl; [lia|]. intros Hlt.
  destruct (Nat.max_spec a (list_max l)) as [[_ E]|[_ E]]; rewrite E in Hlt.
  - destruct (IH Hlt) as [h [Hin Hh]]. exists h. auto.
  - exists a. auto.
Qed.

Lemma entries_upto_le it : forall n, entries_upto n it <= entries it.
Proof.
  induction it as [members IH|shape dtype|] using item_ind'; intros [|n];
    cbn [entries_upto]; try (cbn [entries]; lia).
  rewrite entries_group. apply le_n_S, list_sum_le.
  eapply Forall_impl; [exact IH|]. intros m Hm. apply Hm.
Qed.

Lemma entries_upto_height it : forall n, height it <= n -> entries_upto n it = entries it.
Proof.
  induction it as [members IH|shape dtype|] using item_ind'; intros [|n] Hn;
    cbn [entries_upto]; try reflexivity; try (cbn [height] in Hn; lia).
  rewrite height_group in Hn. rewrite entries_group. f_equal.
  apply list_sum_eq. apply List.Forall_forall. intros m Hm.
  rewrite List.Forall_forall in IH. apply (IH m Hm).
  assert (height m.2 <= list_max (map (fun m => height m.2) members)).
  { pose proof (proj1 (list_max_le (map (fun m => height m.2) members) _) (le_n _)) as Hall.
    rewrite List.Forall_forall in Hall. apply Hall, in_map_iff. eauto. }
  lia.
Qed.

Lemma entries_upto_lt it : forall n, n < height it -> entries_upto n it < entries it.
Proof.
  induction it as [members IH|shape dtype|] using item_ind'; intros [|n] Hn;
    cbn [entries_upto]; try (cbn [entries height] in *; lia).
  rewrite height_group in Hn. rewrite entries_group. apply -> Nat.succ_lt_mono.
  apply list_sum_lt.
    + apply List.Forall_forall. intros m _. apply entries_upto_le.
    + assert (Hlt : n < list_max (map (fun m => height m.2) members)) by lia.
      destruct (list_max_witness _ _ Hlt) as [h [Hin Hh]].
      apply List.in_map_iff in Hin. destruct Hin as [m [<- Hm]].
      apply List.Exists_exists. exists m. split; [exact Hm|].
      rewrite List.Forall_forall in IH. apply (IH m Hm). exact Hh.
Qed.

Lemma members_loop_eq indent members :
  (fix members_loop (l : list (string * item)) : py unit :=
     match l with
     | [] => ret tt
     | (k, i) :: rest => print_member indent k i ;; members_loop rest
     end) members
  = print_group_structure members indent.
Proof.
  unfold print_group_structure.
  induction members as [|[k i] rest IH]; [reflexivity|].
  cbn [for_each fst snd]. rewrite IH. reflexivity.
Qed.

Lemma loop_yields (body : string * item -> py unit) (size : string * item -> nat) l :
  Forall (fun m => exists ls, yields (body m) ls (inr tt) /\ length ls = size m) l ->
  exists ls, yields (for_each l body) ls (inr tt)
             /\ length ls = list_sum (map size l).
Proof.
  induction 1 as [|m l [l1 [H1 E1]] _ [l2 [H2 E2]]].
  - exists []. split; [apply yields_ret|reflexivity].
  - exists (l1 ++ l2). split.
    + cbn [for_each]. eapply yields_bind_inr; [exact H1|exact H2].
    + rewrite length_app. simpl. lia.
Qed.

Lemma print_member_yields it :
  forall indent key,
    exists ls, yields (print_member indent key it) ls (inr tt)
               /\ length ls = entries_upto (S (3 - indent)) it.
Proof.
  induction it as [members IH|shape dtype|] using item_ind'; intros indent key.
  - cbn [print_member]. rewrite members_loop_eq. unfold print_group_structure.
    destruct (Nat.ltb_spec indent 3) as [Hlt|Hge].
    + destruct (loop_yields (fun m => print_member (indent + 1) m.1 m.2)
                  (fun m => entries_upto (3 - indent) m.2) members) as [ls [Hy El]].
      { eapply Forall_impl; [exact IH|]. intros m Hm.
        destruct (Hm (indent + 1) m.1) as [ls [Hy El]].
        exists ls. split; [exact Hy|].
        rewrite El. f_equal. lia. }
      eexists. split.
      * eapply yields_bind_inr; [apply yields_print|exact Hy].
      * cbn [app length entries_upto]. now rewrite El.
    + eexists. split.
      * eapply yields_bind_inr; [apply yields_print|apply yields_when_false].
      * replace (3 - indent) with 0 by lia.
        cbn [entries_upto]. rewrite list_sum_zero. reflexivity.
  - cbn [print_member]. eexists. split; [apply yields_print|reflexivity].
  - cbn [print_member]. exists []. split; [apply yields_ret|reflexivity].
Qed.

(** The listing: one line for each group and dataset down to the level
    the recursion reaches. *)
Lemma print_group_structure_yields group indent :
  exists ls, yields (print_group_structure group indent) ls (inr tt)
             /\ length ls
                = list_sum (map (fun m => entries_upto (S (3 - indent)) m.2) group).
Proof.
  unfold print_group_structure. apply loop_yields.
  apply List.Forall_forall. intros m _. apply print_member_yields.
Qed.

End ListingFacts.

(** ** The run of the checker *)

Section SettlesFacts.
Import Py PyLib CheckHdf5Structure Hdf5Table.

Lemma settles_yields {A} (m : py A) ls a (P : A -> Prop) :
  yields m ls (inr a) -> P a -> settles m true P.
Proof. intros H HP. exists ls, a. auto. Qed.

Lemma settles_raises {A} (m : py A) ls e (P : A -> Prop) :
  yields m ls (inl (Raised e)) -> settles m false P.
Proof. intros H. exists ls, e. exact H. Qed.

Lemma settles_bind {A B} (m : py A) (k : A -> py B) b1 b2 P Q :
  settles m b1 P -> (forall a, P a -> settles (k a) b2 Q) ->
  settles (m ≫= k) (b1 && b2) Q.
Proof.
  destruct b1; cbn [andb].
  - intros [l1 [a [Hm HP]]] Hk. specialize (Hk a HP).
    destruct b2.
    + destruct Hk as [l2 [b [Hk HQ]]]. exists (l1 ++ l2), b.
      split; [eapply yields_bind_inr; eassumption|exact HQ].
    + destruct Hk as [l2 [e Hk]]. exists (l1 ++ l2), e.
      eapply yields_bind_inr; eassumption.
  - intros [l1 [e Hm]] _. exists l1, e. apply yields_bind_inl. exact Hm.
Qed.

Lemma settles_after {A B} (m : py A) (k : A -> py B) l a b Q :
  yields m l (inr a) -> settles (k a) b Q -> settles (m ≫= k) b Q.
Proof.
  intros Hm Hk.
  apply (settles_bind m k true b (fun x => x = a) Q); [now exists l, a|].
  now intros ? ->.
Qed.

Lemma settles_then {A B} (m : py A) (k : A -> py B) b P Q :
  settles m b P -> (forall a, P a -> settles (k a) true Q) -> settles (m ≫= k) b Q.
Proof.
  intros Hm Hk. rewrite <- (andb_true_r b). eapply settles_bind; eassumption.
Qed.

Lemma settles_weaken {A} (m : py A) b (P Q : A -> Prop) :
  settles m b P -> (forall a, P a -> Q a) -> settles m b Q.
Proof.
  destruct b; [|auto]. intros [ls [a [H HP]]] HPQ. exists ls, a. auto.
Qed.

Lemma settles_when c body b (P : unit -> Prop) :
  (c = true -> settles body b P) ->
  settles (when_ c body) (if c then b else true) (fun _ => True).
Proof.
  destruct c; cbn [when_].
  - intros H. eapply settles_weaken; [apply H; reflexivity|auto].
  - intros _. exists [], tt. split; [apply yields_ret|exact I].
Qed.

Lemma for_each_settles {A} (body : A -> py unit) (ok : A -> bool) l :
  (forall x, In x l -> settles (body x) (ok x) (fun _ => True)) ->
  settles (for_each l body) (forallb ok l) (fun _ => True).
Proof.
  induction l as [|x l IH]; intros H.
  - exists [], tt. split; [apply yields_ret|exact I].
  - cbn [for_each forallb]. eapply settles_bind.
    + apply H. now left.
    + intros _ _. apply IH. intros y Hy. apply H. now right.
Qed.

Lemma settles_eq {A} (m : py A) b b' P : settles m b P -> b = b' -> settles m b' P.
Proof. now intros H <-. Qed.

End SettlesFacts.

Lemma lookup_head k it rest :
  CheckHdf5Structure.lookup k ((k, it) :: rest) = Some it.
Proof. cbn [CheckHdf5Structure.lookup]. now rewrite String.eqb_refl. Qed.

Ltac checker_simpl :=
  repeat (progress (cbn [CheckHdf5Structure.descend CheckHdf5Structure.subscript
                         CheckHdf5Structure.keys CheckHdf5Structure.shape_of
                         nth_error map fst snd];
                    unfold CheckHdf5Structure.getitem, Py.list_index;
                    rewrite ?lookup_head;
                    repeat match goal with
                           | H : CheckHdf5Structure.lookup _ _ = _ |- _ =>
                               progress rewrite H
                           end)).

Ltac checker_go := yields_with checker_simpl fail.

Ltac settles_go :=
  repeat (eapply settles_after; [solve [checker_go]|cbv beta]).

Section CheckerFacts.
Import Py PyLib CheckHdf5Structure Hdf5Table.
Local Open Scope nat_scope.

Variable h5py_File : string -> exn + file.
Variable key_error : string -> exn.
Variable bad_subscript : item -> string -> exn.
Context {array : Type}.
Variable np_array : item -> exn + array.
Variable frame0 : array -> exn + string.
Variable first3 : array -> exn + string.
Variable abspath : string -> string.
Variable size_gb_2f : string -> string.

(** The loop over the segments of a group: it runs to its end exactly
    when every name leads to a dataset. *)
Lemma segment_loop_settles (fetch : string -> py item)
    (line : string -> list nat -> string) members :
  (forall seg,
      match lookup seg members with
      | Some it => yields (fetch seg) [] (inr it)
      | None => exists e, yields (fetch seg) [] (inl (Raised e))
      end) ->
  forall names,
    settles (for_each names (fun seg =>
               data ← fetch seg;
               shape ← shape_of data;
               print (line seg shape)))
            (forallb (fun key =>
                        if lookup key members is Some (Dataset _ _) then true else false)
                     names)
            (fun _ => True).
Proof.
  intros Hfetch names. induction names as [|seg names IH].
  - exists [], tt. split; [apply yields_ret|exact I].
  - cbn [for_each forallb]. apply settles_bind with (P := fun _ => True); [|auto].
    specialize (Hfetch seg).
    destruct (lookup seg members) as [[ms|shape dtype|]|].
    + eapply settles_raises. eapply yields_bind_inr; [exact Hfetch|].
      apply yields_bind_inl. apply yields_raise.
    + eapply settles_yields; [|exact I].
      eapply yields_bind_inr; [exact Hfetch|].
      eapply yields_bind_inr; [apply yields_ret|apply yields_print].
    + eapply settles_raises. eapply yields_bind_inr; [exact Hfetch|].
      apply yields_bind_inl. apply yields_raise.
    + destruct Hfetch as [e He]. eapply settles_raises.
      apply yields_bind_inl. exact He.
Qed.

(** Lines 72-95. *)
Lemma kinematics_settles hf kin :
  lookup "kin" hf = Some kin ->
  settles (kinematics key_error bad_subscript hf) (kin_ok hf)
    (fun v => exists sid ps trial ts segs,
         kin = Group ((sid, Group ((trial, Group segs) :: ts)) :: ps)
         /\ v = (sid :: map fst ps, trial :: map fst ts)).
Proof.
  intros Hk. unfold kin_ok, sampled_trial. rewrite Hk.
  unfold kinematics.
  destruct kin as [[|[sid [[|[trial [segs| |]] ts]| |]] ps]| |]; cbn [first_group].
  all: try (eapply settles_raises; solve [checker_go]).
  settles_go.
  eapply settles_then.
  - apply (segment_loop_settles
             (fun seg => descend key_error bad_subscript (Group hf)
                           ["kin"; sid; trial; seg])
             (fun seg shape => "      • " +:+ ljust seg 15 +:+ " - shape: "
                                 +:+ show_tuple shape) segs).
    intros seg. destruct (lookup seg segs) as [it|] eqn:Hseg.
    + eapply yields_eq; [checker_go|reflexivity].
    + eexists. eapply yields_eq; [checker_go|reflexivity].
  - intros _ _. eapply settles_yields; [checker_go|].
    exists sid, ps, trial, ts, segs. split; reflexivity.
Qed.

(** Lines 99-106 and 110-117. *)
Lemma per_segment_settles title name hf :
  contains hf name = true ->
  settles (per_segment key_error bad_subscript title name hf) (flat_ok name hf)
          (fun _ => True).
Proof.
  unfold contains, flat_ok, per_segment.
  destruct (lookup name hf) as [g|] eqn:Hg; [intros _|discriminate].
  destruct g as [members| |].
  2,3: eapply settles_raises; solve [checker_go].
  settles_go.
  eapply settles_then.
  - apply (segment_loop_settles
             (fun seg => descend key_error bad_subscript (Group hf) [name; seg])
             (fun seg shape => "  • " +:+ ljust seg 15 +:+ " - shape: "
                                 +:+ show_tuple shape +:+ " (participants × 3)")
             members).
    intros seg. destruct (lookup seg members) as [it|] eqn:Hseg.
    + eapply yields_eq; [checker_go|reflexivity].
    + eexists. eapply yields_eq; [checker_go|reflexivity].
  - intros _ _. eapply settles_yields; [checker_go|exact I].
Qed.

(** Lines 121-133, for the [sids] and [trials] that lines 74 and 81 left. *)
Lemma sample_data_settles hf sample :
  match lookup "kin" hf with
  | None => sample = None
  | Some kin =>
      exists sid ps trial ts segs,
        kin = Group ((sid, Group ((trial, Group segs) :: ts)) :: ps)
        /\ sample = Some (sid :: map fst ps, trial :: map fst ts)
  end ->
  settles (sample_data key_error bad_subscript np_array frame0 first3 hf sample)
          (sample_ok np_array frame0 first3 hf) (fun _ => True).
Proof.
  intros Hsample. unfold sample_ok, sampled_trial, sample_data.
  assert (Hscale :
    forall b, b = true ->
    settles (when_ (contains hf "scale")
               (torso ← descend key_error bad_subscript (Group hf) ["scale"; "torso"];
                sample_scale ← lift (np_array torso);
                print "Sample scale factors (torso, first 3 participants):" ;;
                text ← lift (first3 sample_scale);
                print text ;;
                print ""))
            (b && match lookup "scale" hf with
                  | None => true
                  | Some (Group members) => torso_ok np_array first3 members
                  | Some _ => false
                  end)
            (fun _ => True)).
  { intros b ->. cbn [andb]. unfold contains, torso_ok.
    destruct (lookup "scale" hf) as [[members| |]|] eqn:Hs; cbn [when_].
    - destruct (lookup "torso" members) as [it|] eqn:Ht;
        [|eapply settles_raises; solve [checker_go]].
      destruct (np_array it) as [e|a] eqn:Ha;
        [eapply settles_raises; solve [checker_go]|].
      destruct (first3 a) as [e|text] eqn:Hf;
        [eapply settles_raises; solve [checker_go]|].
      eapply settles_yields; [checker_go|exact I].
    - eapply settles_raises; solve [checker_go].
    - eapply settles_raises; solve [checker_go].
    - eapply settles_yields; [apply yields_ret|exact I]. }
  destruct (lookup "kin" hf) as [kin|] eqn:Hk.
  - destruct Hsample as [sid [ps [trial [ts [segs [-> ->]]]]]].
    cbn [first_group]. unfold torso_ok at 1.
    destruct (lookup "torso" segs) as [it|] eqn:Ht;
      [|eapply settles_raises; solve [checker_go]].
    destruct (np_array it) as [e|a] eqn:Ha;
      [eapply settles_raises; solve [checker_go]|].
    destruct (frame0 a) as [e|text] eqn:Hf;
      [eapply settles_raises; solve [checker_go]|].
    settles_go. apply (Hscale true). reflexivity.
  - subst sample. settles_go. apply (Hscale true). reflexivity.
Qed.

Lemma flat_ok_absent name hf : contains hf name = false -> flat_ok name hf = true.
Proof.
  unfold contains, flat_ok. destruct (lookup name hf); [discriminate|reflexivity].
Qed.

Lemma full_structure_yields hf :
  exists ls, yields (full_structure hf) ls (inr tt).
Proof.
  destruct (print_group_structure_yields hf 0) as [ls [Hy _]].
  eexists. unfold full_structure. yields_go.
Qed.

(** Lines 62-140. *)
Lemma with_file_settles args hf :
  h5py_File (hdf5_file args) = inr hf ->
  settles (with_file h5py_File key_error bad_subscript np_array frame0 first3 args)
          (accepted np_array frame0 first3 (verbose args) hf) (fun _ => True).
Proof.
  intros Hopen. unfold with_file, accepted.
  settles_go. rewrite <- !andb_assoc.
  eapply settles_bind
    with (P := fun sample =>
                 match lookup "kin" hf with
                 | None => sample = None
                 | Some kin =>
                     exists sid ps trial ts segs,
                       kin = Group ((sid, Group ((trial, Group segs) :: ts)) :: ps)
                       /\ sample = Some (sid :: map fst ps, trial :: map fst ts)
                 end).
  { unfold contains, kin_ok at 1.
    destruct (lookup "kin" hf) as [kin|] eqn:Hk.
    - pose proof (kinematics_settles hf kin Hk) as Hkin.
      unfold kin_ok in Hkin. rewrite Hk in Hkin.
      eapply settles_then; [exact Hkin|].
      intros v Hv. eapply settles_yields; [apply yields_ret|].
      destruct Hv as [sid [ps [trial [ts [segs [-> ->]]]]]]. eauto 10.
    - eapply settles_yields; [apply yields_ret|reflexivity]. }
  intros sample Hsample.
  eapply settles_bind with (P := fun _ => True).
  { destruct (contains hf "com") eqn:Hc.
    - apply per_segment_settles. exact Hc.
    - rewrite flat_ok_absent by exact Hc.
      eapply settles_yields; [apply yields_when_false|exact I]. }
  intros _ _.
  eapply settles_bind with (P := fun _ => True).
  { destruct (contains hf "scale") eqn:Hc.
    - apply per_segment_settles. exact Hc.
    - rewrite flat_ok_absent by exact Hc.
      eapply settles_yields; [apply yields_when_false|exact I]. }
  intros _ _.
  destruct (verbose args).
  - eapply settles_then; [apply sample_data_settles; exact Hsample|].
    intros _ _. destruct (full_structure_yields hf) as [ls Hls].
    eapply settles_yields; [exact Hls|exact I].
  - eapply settles_yields; [|exact I]. yields_go.
Qed.

(** Lines 62-144: what the body of the [try] does with a file that opens,
    and with one that does not. *)
Lemma inspect_accepted args hf :
  h5py_File (hdf5_file args) = inr hf ->
  accepted np_array frame0 first3 (verbose args) hf = true ->
  exists ls,
    yields (inspect h5py_File key_error bad_subscript np_array frame0 first3 args)
           (ls ++ verdict) (inr tt).
Proof.
  intros Hopen Hok. pose proof (with_file_settles args hf Hopen) as H.
  rewrite Hok in H. destruct H as [ls [[] [H _]]].
  exists ls. unfold inspect, verdict. eapply yields_eq; [yields_go|reflexivity].
Qed.

Lemma inspect_refused args hf :
  h5py_File (hdf5_file args) = inr hf ->
  accepted np_array frame0 first3 (verbose args) hf = false ->
  exists ls e,
    yields (inspect h5py_File key_error bad_subscript np_array frame0 first3 args)
           ls (inl (Raised e)).
Proof.
  intros Hopen Hok. pose proof (with_file_settles args hf Hopen) as H.
  rewrite Hok in H. destruct H as [ls [e H]].
  exists ls, e. unfold inspect. yields_go.
Qed.

Lemma inspect_unreadable args e :
  h5py_File (hdf5_file args) = inl e ->
  yields (inspect h5py_File key_error bad_subscript np_array frame0 first3 args)
         [] (inl (Raised e)).
Proof.
  intros Hopen. unfold inspect, with_file.
  eapply yields_eq; [yields_go|reflexivity].
Qed.

Lemma try_except_raised {A} (body : py A) handler ls e w :
  yields body ls (inl (Raised e)) ->
  try_except body handler w = after (map Print ls) (handler e w).
Proof.
  intros H. unfold try_except, after. rewrite H.
  destruct (handler e w) as [[t w'] r]. reflexivity.
Qed.

Lemma try_except_returned {A} (body : py A) handler ls a w :
  yields body ls (inr a) ->
  try_except body handler w = (map Print ls, w, inr a).
Proof. intros H. unfold try_except. rewrite H. reflexivity. Qed.

Local Abbreviation checker :=
  (main h5py_File key_error bad_subscript np_array frame0 first3 abspath size_gb_2f).

(** A run that found the file, by what the body of the [try] does. *)
Lemma main_found c w path ls r :
  opt_hdf5_file c = Some path ->
  fs_exists w path = true ->
  yields (inspect h5py_File key_error bad_subscript np_array frame0 first3
            {| hdf5_file := path; verbose := opt_verbose c |}) ls r ->
  checker c w
  = match r with
    | inl (Raised e) =>
        (map Print (header abspath size_gb_2f path ++ ls ++ [error_line e])
           ++ [PrintExc e], w, inl (SystemExit 1))
    | _ => (map Print (header abspath size_gb_2f path ++ ls), w, r)
    end.
Proof.
  intros Hc Hex Hy. unfold main, parse_args. rewrite Hc.
  erewrite bind_inr by reflexivity. cbn [hdf5_file].
  erewrite bind_inr by reflexivity.
  rewrite Hex. cbn [negb when_].
  do 8 erewrite bind_inr by reflexivity.
  destruct r as [[code|e]|[]].
  - unfold try_except. rewrite Hy. rewrite !after_triple. cbn [app].
    rewrite !map_app. reflexivity.
  - erewrite try_except_raised by exact Hy.
    unfold on_exception. do 2 erewrite bind_inr by reflexivity.
    unfold sys_exit. rewrite !after_triple. cbn [app]. rewrite !map_app.
    cbn [map]. rewrite <- !app_assoc. reflexivity.
  - erewrite try_except_returned by exact Hy.
    rewrite !after_triple. cbn [app]. rewrite !map_app. reflexivity.
Qed.

Lemma main_not_found c w path :
  opt_hdf5_file c = Some path ->
  fs_exists w path = false ->
  checker c w = (map Print (not_found path), w, inl (SystemExit 1)).
Proof.
  intros Hc Hex. unfold main, parse_args. rewrite Hc.
  erewrite bind_inr by reflexivity. cbn [hdf5_file].
  erewrite bind_inr by reflexivity.
  rewrite Hex. reflexivity.
Qed.

(** Every run of the checker, by how far it gets. *)
Lemma main_cases c w :
  match opt_hdf5_file c with
  | None => checker c w = ([ArgparseError ["hdf5_file"]], w, inl (SystemExit 2))
  | Some path =>
      if fs_exists w path then
        match h5py_File path with
        | inl e =>
            checker c w
            = (map Print (header abspath size_gb_2f path ++ [error_line e])
                 ++ [PrintExc e], w, inl (SystemExit 1))
        | inr hf =>
            if accepted np_array frame0 first3 (opt_verbose c) hf then
              exists ls,
                checker c w
                = (map Print (header abspath size_gb_2f path ++ ls ++ verdict),
                   w, inr tt)
            else
              exists ls e,
                checker c w
                = (map Print (header abspath size_gb_2f path ++ ls ++ [error_line e])
                     ++ [PrintExc e], w, inl (SystemExit 1))
        end
      else checker c w = (map Print (not_found path), w, inl (SystemExit 1))
  end.
Proof.
  destruct (opt_hdf5_file c) as [path|] eqn:Hc.
  2:{ unfold main, parse_args. rewrite Hc. reflexivity. }
  destruct (fs_exists w path) eqn:Hex; [|now apply main_not_found].
  set (args := {| hdf5_file := path; verbose := opt_verbose c |}).
  destruct (h5py_File path) as [e|hf] eqn:Hopen.
  - rewrite (main_found c w path [] (inl (Raised e)) Hc Hex).
    + reflexivity.
    + apply inspect_unreadable. exact Hopen.
  - destruct (accepted np_array frame0 first3 (opt_verbose c) hf) eqn:Hok.
    + destruct (inspect_accepted args hf Hopen Hok) as [ls Hls].
      exists ls. now rewrite (main_found c w path _ _ Hc Hex Hls).
    + destruct (inspect_refused args hf Hopen Hok) as [ls [e Hls]].
      exists ls, e. now rewrite (main_found c w path _ _ Hc Hex Hls).
Qed.

(** The first lines of the [with] block. *)
Lemma with_file_kin args hf ls r :
  h5py_File (hdf5_file args) = inr hf ->
  contains hf "kin" = true ->
  yields (kinematics key_error bad_subscript hf) ls (inl (Raised r)) ->
  exists pre,
    yields (inspect h5py_File key_error bad_subscript np_array frame0 first3 args)
           (pre ++ ls) (inl (Raised r)).
Proof.
  intros Hopen Hkin Hy. unfold inspect, with_file.
  eexists. eapply yields_eq.
  - yields_with ltac:(rewrite ?Hkin) fail.
  - rewrite !app_assoc. reflexivity.
Qed.

(** A [kin] group without participants, or whose first participant has no
    trial: line 80 or line 88 raises. *)
Lemma kinematics_empty hf :
  lookup "kin" hf = Some (Group [])
  \/ (exists sid ps, lookup "kin" hf = Some (Group ((sid, Group []) :: ps))) ->
  exists ls, yields (kinematics key_error bad_subscript hf) (ls ++ [""])
               (inl (Raised Obs.empty_index_error)).
Proof.
  intros [Hk|[sid [ps Hk]]]; unfold kinematics.
  - eexists. eapply yields_eq; [checker_go|].
    cbn [app length]. instantiate (1 := [_; _; _; _]). reflexivity.
  - eexists. eapply yields_eq; [checker_go|].
    cbn [app length]. instantiate (1 := [_; _; _; _; _; _; _; _]). reflexivity.
Qed.

End CheckerFacts.

(** * inspect_synthetic_data.py *)

(** ** The length distribution *)

Section HistogramFacts.
Import Py PyLib InspectSyntheticData InspectTable.
Local Open Scope nat_scope.

Lemma filter_cons_length {A} (p : A -> bool) a l :
  length (List.filter p (a :: l)) = (if p a then 1 else 0) + length (List.filter p l).
Proof. simpl. destruct (p a); reflexivity. Qed.

(** A length falls into exactly one of the five bins and the overflow. *)
Lemma one_bin a :
  (if (0 <=? a) && (a <? 60) then 1 else 0)
  + ((if (60 <=? a) && (a <? 120) then 1 else 0)
     + ((if (120 <=? a) && (a <? 180) then 1 else 0)
        + ((if (180 <=? a) && (a <? 240) then 1 else 0)
           + ((if (240 <=? a) && (a <=? 300) then 1 else 0) + 0))))
  + (if 300 <? a then 1 else 0) = 1.
Proof.
  destruct (Nat.ltb_spec a 60), (Nat.leb_spec 60 a); try lia;
  destruct (Nat.ltb_spec a 120), (Nat.leb_spec 120 a); try lia;
  destruct (Nat.ltb_spec a 180), (Nat.leb_spec 180 a); try lia;
  destruct (Nat.ltb_spec a 240), (Nat.leb_spec 240 a); try lia;
  destruct (Nat.leb_spec a 300), (Nat.ltb_spec 300 a); try lia;
  destruct (Nat.leb_spec 0 a); simpl; lia.
Qed.

Lemma histogram_total lengths :
  list_sum (np_histogram lengths bins) + count_above lengths 300 = length lengths.
Proof.
  unfold count_above. cbn [np_histogram bins].
  induction lengths as [|a l IH]; [reflexivity|].
  rewrite !filter_cons_length. cbn [list_sum fold_right length] in *.
  pose proof (one_bin a). lia.
Qed.

Lemma filter_nonempty {A} (p : A -> bool) l :
  0 < length (List.filter p l) <-> exists x, In x l /\ p x = true.
Proof.
  split.
  - destruct (List.filter p l) as [|x f] eqn:E; [simpl; lia|]. intros _.
    assert (Hin : In x (List.filter p l)) by (rewrite E; now left).
    apply List.filter_In in Hin. now exists x.
  - intros [x Hx]. apply List.filter_In in Hx.
    destruct (List.filter p l); [destruct Hx|simpl; lia].
Qed.

(** The test of line 85 and the count of line 86 agree. *)
Lemma longest_above l ls edge :
  (edge <? fold_left Nat.max ls l) = (0 <? count_above (l :: ls) edge).
Proof.
  unfold count_above.
  destruct (Nat.ltb_spec edge (fold_left Nat.max ls l)) as [H|H];
    destruct (Nat.ltb_spec 0 (length (List.filter (fun x => edge <? x) (l :: ls)))) as [H'|H'];
    try reflexivity; exfalso.
  - assert (Hex : exists x, In x (l :: ls) /\ (edge <? x) = true).
    { exists (fold_left Nat.max ls l). split; [apply fold_max_In|].
      now apply Nat.ltb_lt. }
    apply (filter_nonempty (fun x => edge <? x)) in Hex. lia.
  - apply (filter_nonempty (fun x => edge <? x)) in H'. destruct H' as [x [Hin Hx]].
    apply Nat.ltb_lt in Hx. pose proof (fold_max_upper ls l x Hin). lia.
Qed.

End HistogramFacts.

(** ** The blocks of the report *)

Ltac inspect_simpl :=
  cbn [InspectSyntheticData.bins length Nat.sub Nat.add seq PyLib.for_each
       InspectSyntheticData.enumerate combine fst snd].

Ltac inspect_atom :=
  first [ apply py_min_yields | apply py_max_yields
        | eapply list_index_found; first [eassumption|reflexivity]
        | eapply tuple_index_found; first [eassumption|reflexivity]
        | eapply list_index_missing; first [eassumption|reflexivity]
        | eapply tuple_index_missing; first [eassumption|reflexivity] ].

Ltac inspect_go := yields_with inspect_simpl inspect_atom.

Ltac inspect_settles :=
  repeat (eapply settles_after; [solve [inspect_go]|cbv beta]).

Section InspectFacts.
Import Py PyLib InspectSyntheticData InspectTable More.
Local Open Scope nat_scope.

Context {tensor : Type}.
Variable shape : tensor -> list nat.
Variable element_size : tensor -> nat.
Variable nan_count : tensor -> nat.
Variable pickle_load : string -> exn + list tensor.
Variable abspath : string -> string.
Variable size_mb_2f : string -> string.
Variables mean_1f median_0f std_1f : list nat -> string.
Variable percent_1f : nat -> nat -> string.
Variable percent_3f : nat -> nat -> string.
Variable megabytes_2f : nat -> string.
Context {coords : Type}.
Variable flatten : list tensor -> exn + coords.
Variables axis_min_8_1f axis_max_8_1f : coords -> nat -> exn + string.
Variables axis_mean_8_1f axis_std_8_1f : coords -> nat -> string.
Context {row : Type}.
Variable first_frame_rows : tensor -> nat -> exn + list row.
Variable xyz_8_2f : row -> exn + string * string * string.
Variable valid_values : tensor -> exn + nat.
Variable range_0f : tensor -> string.

Lemma comprehension_yields data :
  yields (comprehension (fun seg => tuple_index (shape seg) 0) data) []
         match first_dims shape data with
         | Some ns => inr ns
         | None => inl (Raised tuple_index_error)
         end.
Proof. intros w. apply comprehension_first_dims. Qed.

(** Lines 70-77. *)
Lemma length_statistics_yields l ls :
  exists lines,
    yields (length_statistics mean_1f median_0f std_1f (l :: ls)) lines (inr tt).
Proof. eexists. unfold length_statistics. inspect_go. Qed.

(** Lines 80-88, line by line. *)
Lemma length_distribution_yields (data : list tensor) l ls :
  yields (length_distribution percent_1f data (l :: ls))
         (["  Length distribution:"]
            ++ bin_rows percent_1f (length data) bins (np_histogram (l :: ls) bins)
            ++ (if 0 <? count_above (l :: ls) 300
                then [overflow_row percent_1f (length data) (count_above (l :: ls) 300)]
                else [])
            ++ [""])
         (inr tt).
Proof.
  unfold length_distribution. cbn zeta.
  destruct (0 <? count_above (l :: ls) 300) eqn:Hover.
  - eapply yields_eq; [inspect_go; rewrite longest_above, Hover; inspect_go|].
    reflexivity.
  - eapply yields_eq; [inspect_go; rewrite longest_above, Hover; inspect_go|].
    reflexivity.
Qed.

(** Lines 91-106. *)
Lemma coordinate_statistics_settles data :
  settles (coordinate_statistics flatten axis_min_8_1f axis_max_8_1f
             axis_mean_8_1f axis_std_8_1f data)
          (coordinates_ok flatten axis_min_8_1f axis_max_8_1f data) (fun _ => True).
Proof.
  unfold coordinate_statistics, coordinates_ok.
  destruct (flatten data) as [e|cs] eqn:Hflat.
  { eapply settles_raises. inspect_go. }
  inspect_settles.
  eapply settles_then; [|intros _ _; eapply settles_yields; [inspect_go|exact I]].
  eapply settles_eq.
  - apply (for_each_settles _
             (fun an : nat * string =>
                is_ok (axis_min_8_1f cs an.1) && is_ok (axis_max_8_1f cs an.1))).
    intros an _. inspect_settles.
    destruct (axis_min_8_1f cs an.1) as [e|lo] eqn:Hlo; cbn [is_ok andb].
    { eapply settles_raises. inspect_go. }
    inspect_settles.
    destruct (axis_max_8_1f cs an.1) as [e|hi] eqn:Hhi; cbn [is_ok].
    { eapply settles_raises. inspect_go. }
    eapply settles_yields; [inspect_go|exact I].
  - reflexivity.
Qed.

(** Lines 110-122. *)
Lemma nan_analysis_empty data :
  list_sum (map (numel shape) data) = 0 ->
  yields (nan_analysis shape nan_count percent_3f data)
         ["🔍 NaN ANALYSIS:"; dashes; "  Total values:      " +:+ show_thousands 0]
         (inl (Raised zero_division)).
Proof.
  intros H0. unfold nan_analysis. cbn zeta. rewrite H0.
  eapply yields_eq; [inspect_go|reflexivity].
Qed.

Lemma nan_analysis_yields data :
  list_sum (map (numel shape) data) <> 0 ->
  yields (nan_analysis shape nan_count percent_3f data)
         (["🔍 NaN ANALYSIS:"; dashes;
           "  Total values:      " +:+ show_thousands (list_sum (map (numel shape) data));
           "  NaN values:        " +:+ show_thousands (list_sum (map nan_count data))
             +:+ " (" +:+ percent_3f (list_sum (map nan_count data))
                                       (list_sum (map (numel shape) data)) +:+ "%)"]
            ++ (if 0 <? list_sum (map nan_count data)
                then [nan_warning;
                      "     This is unusual for synthetic data and may indicate an issue"]
                else [nan_clear])
            ++ [""])
         (inr tt).
Proof.
  intros H0. unfold nan_analysis. cbn zeta.
  apply Nat.eqb_neq in H0. rewrite H0.
  destruct (0 <? list_sum (map nan_count data));
    (eapply yields_eq; [inspect_go|reflexivity]).
Qed.

Lemma nan_analysis_settles data :
  settles (nan_analysis shape nan_count percent_3f data) (values_ok shape data)
          (fun _ => True).
Proof.
  unfold values_ok.
  destruct (Nat.eqb_spec (list_sum (map (numel shape) data)) 0) as [H0|H0]; cbn [negb].
  - eapply settles_raises. apply nan_analysis_empty. exact H0.
  - eapply settles_yields; [apply nan_analysis_yields; exact H0|exact I].
Qed.

Lemma forallb_combine {A B} (f : B -> bool) (l1 : list A) (l2 : list B) :
  length l1 = length l2 ->
  forallb (fun ab : A * B => f ab.2) (combine l1 l2) = forallb f l2.
Proof.
  revert l1. induction l2 as [|b l2 IH]; intros [|a l1] Hlen;
    try reflexivity; try discriminate.
  cbn [combine forallb snd]. rewrite IH; [reflexivity|]. now injection Hlen.
Qed.

(** Lines 126-131. *)
Lemma frame_sample_settles first rest num_markers :
  nth_error (shape first) 1 = Some num_markers ->
  settles (sample_data first_frame_rows xyz_8_2f (first :: rest) num_markers)
          (sample_ok shape first_frame_rows xyz_8_2f (first :: rest)) (fun _ => True).
Proof.
  intros Hmk. unfold sample_data, sample_ok. rewrite Hmk.
  destruct (first_frame_rows first (Nat.min 3 num_markers)) as [e|sample] eqn:Hrows.
  { eapply settles_raises. inspect_go. }
  inspect_settles.
  eapply settles_then; [|intros _ _; eapply settles_yields; [inspect_go|exact I]].
  eapply settles_eq.
  - apply (for_each_settles _ (fun ic : nat * row => is_ok (xyz_8_2f ic.2))).
    intros ic _. destruct (xyz_8_2f ic.2) as [e|xyz] eqn:Hxyz; cbn [is_ok].
    + eapply settles_raises. inspect_go.
    + eapply settles_yields; [inspect_go|exact I].
  - unfold enumerate.
    apply (forallb_combine (fun coords => is_ok (xyz_8_2f coords))).
    apply length_seq.
Qed.

Lemma forallb_seq_take {A} (f : A -> bool) data :
  forall k pre,
    forallb (fun i => if nth_error (pre ++ data) i is Some x then f x else false)
            (seq (length pre) (Nat.min k (length data)))
    = forallb f (take k data).
Proof.
  induction data as [|x data IH]; intros [|k] pre; try reflexivity.
  cbn [length Nat.min seq forallb take].
  rewrite nth_error_app2, Nat.sub_diag by lia. cbn [nth_error]. f_equal.
  specialize (IH k (pre ++ [x])).
  rewrite <- app_assoc, length_app in IH. cbn [app length] in IH.
  rewrite Nat.add_1_r in IH. exact IH.
Qed.

(** Lines 133-148. *)
Lemma segment_information_settles data :
  Forall (fun x => 1 <= length (shape x)) data ->
  settles (segment_information shape valid_values range_0f data)
          (segments_ok valid_values data) (fun _ => True).
Proof.
  intros Hshapes. unfold segment_information, segments_ok.
  inspect_settles.
  eapply settles_then.
  2:{ intros _ _.
      destruct (10 <? length data); (eapply settles_yields; [inspect_go|exact I]). }
  eapply settles_eq.
  - apply (for_each_settles _
             (fun i => if nth_error data i is Some seg
                       then is_ok (valid_values seg) else false)).
    intros i Hi. apply in_seq in Hi.
    destruct (nth_error data i) as [seg|] eqn:Hseg.
    2:{ apply nth_error_None in Hseg. lia. }
    assert (Hin : In seg data) by (eapply nth_error_In; exact Hseg).
    rewrite List.Forall_forall in Hshapes. specialize (Hshapes seg Hin).
    destruct (nth_error (shape seg) 0) as [frames|] eqn:Hfr.
    2:{ apply nth_error_None in Hfr. lia. }
    destruct (valid_values seg) as [e|valid] eqn:Hvalid; cbn [is_ok].
    + eapply settles_raises. inspect_go.
    + eapply settles_yields; [inspect_go|exact I].
  - apply (forallb_seq_take (fun seg => is_ok (valid_values seg)) data 10 []).
Qed.

Lemma first_dims_forallb data :
  (if first_dims shape data is Some _ then true else false)
  = forallb (fun x => 1 <=? length (shape x)) data.
Proof.
  induction data as [|x data IH]; [reflexivity|].
  cbn [first_dims forallb]. rewrite <- IH.
  destruct (shape x) as [|n sh]; [reflexivity|]. cbn [nth_error length Nat.leb].
  destruct (first_dims shape data); reflexivity.
Qed.

Lemma shapes_ok_eq first rest :
  shapes_ok shape (first :: rest)
  = (if nth_error (shape first) 1 is Some _ then true else false)
    && (if first_dims shape (first :: rest) is Some _ then true else false).
Proof.
  unfold shapes_ok. rewrite first_dims_forallb. f_equal.
  destruct (shape first) as [|a [|b sh]]; reflexivity.
Qed.

Lemma shapes_ok_spec data :
  shapes_ok shape data = true <-> WrapperTable.well_shaped shape data.
Proof.
  unfold shapes_ok, WrapperTable.well_shaped. destruct data as [|first rest].
  - split; [discriminate|]. intros [[d [ds [H _]]] _]. discriminate.
  - rewrite andb_true_iff, Nat.leb_le, forallb_forall, List.Forall_forall. split.
    + intros [H2 Hall]. split; [now exists first, rest|].
      intros x Hx. apply Nat.leb_le. now apply Hall.
    + intros [[d [ds [[= <- <-] H2]]] Hall]. split; [exact H2|].
      intros x Hx. apply Nat.leb_le. now apply Hall.
Qed.

(** Lines 64-148. *)
Lemma statistics_settles args first rest :
  settles (statistics shape nan_count mean_1f median_0f std_1f percent_1f percent_3f
             flatten axis_min_8_1f axis_max_8_1f axis_mean_8_1f axis_std_8_1f
             first_frame_rows xyz_8_2f valid_values range_0f args (first :: rest))
          (accepted shape flatten axis_min_8_1f axis_max_8_1f first_frame_rows xyz_8_2f
             valid_values (check_nans args) (verbose args) (first :: rest))
          (fun _ => True).
Proof.
  unfold accepted. rewrite shapes_ok_eq. unfold statistics.
  pose proof (comprehension_yields (first :: rest)) as Hcomp.
  destruct (nth_error (shape first) 1) as [mk|] eqn:Hmk; cbn [andb].
  2:{ eapply settles_raises. inspect_go. }
  destruct (first_dims shape (first :: rest)) as [lens|] eqn:Hlens; cbn [andb].
  2:{ eapply settles_raises. inspect_go. }
  assert (Hall : Forall (fun x => 1 <= length (shape x)) (first :: rest)).
  { apply List.Forall_forall. intros x Hx.
    pose proof (first_dims_forallb (first :: rest)) as Hb. rewrite Hlens in Hb.
    symmetry in Hb. rewrite forallb_forall in Hb. apply Nat.leb_le. now apply Hb. }
  destruct lens as [|l ls].
  { apply first_dims_length in Hlens. discriminate Hlens. }
  destruct (length_statistics_yields l ls) as [l1 Hl1].
  pose proof (length_distribution_yields (first :: rest) l ls) as Hl2.
  inspect_settles.
  unfold readable. rewrite <- andb_assoc.
  eapply settles_bind; [apply coordinate_statistics_settles|]. intros _ _.
  eapply settles_bind.
  { apply (settles_when (check_nans args) _ (values_ok shape (first :: rest))
             (fun _ => True)).
    intros _. apply nan_analysis_settles. }
  intros _ _.
  eapply settles_eq.
  - apply (settles_when (verbose args) _
             (sample_ok shape first_frame_rows xyz_8_2f (first :: rest)
              && segments_ok valid_values (first :: rest)) (fun _ => True)).
    intros _. eapply settles_bind.
    + apply frame_sample_settles. exact Hmk.
    + intros _ _. apply segment_information_settles. exact Hall.
  - reflexivity.
Qed.

(** Lines 49-163: what the body of the [try] does with a dataset that
    loads. *)
Lemma report_settles args data :
  pickle_load (pickle_file args) = inr data ->
  settles (report shape element_size nan_count pickle_load mean_1f median_0f std_1f
             percent_1f percent_3f megabytes_2f flatten axis_min_8_1f axis_max_8_1f
             axis_mean_8_1f axis_std_8_1f first_frame_rows xyz_8_2f valid_values
             range_0f args)
          (accepted shape flatten axis_min_8_1f axis_max_8_1f first_frame_rows xyz_8_2f
             valid_values (check_nans args) (verbose args) data)
          (fun _ => True).
Proof.
  intros Hload. unfold report.
  destruct data as [|first rest].
  { eapply settles_raises. inspect_go. }
  inspect_settles. cbn [length Nat.ltb Nat.leb when_].
  eapply settles_then; [apply statistics_settles|].
  intros _ _. eapply settles_yields; [|exact I]. unfold closing. inspect_go.
Qed.

End InspectFacts.

Section InspectMainFacts.
Import Py PyLib InspectSyntheticData InspectTable More.
Local Open Scope nat_scope.

Context {tensor : Type}.
Variable shape : tensor -> list nat.
Variable element_size : tensor -> nat.
Variable nan_count : tensor -> nat.
Variable pickle_load : string -> exn + list tensor.
Variable abspath : string -> string.
Variable size_mb_2f : string -> string.
Variables mean_1f median_0f std_1f : list nat -> string.
Variable percent_1f : nat -> nat -> string.
Variable percent_3f : nat -> nat -> string.
Variable megabytes_2f : nat -> string.
Context {coords : Type}.
Variable flatten : list tensor -> exn + coords.
Variables axis_min_8_1f axis_max_8_1f : coords -> nat -> exn + string.
Variables axis_mean_8_1f axis_std_8_1f : coords -> nat -> string.
Context {row : Type}.
Variable first_frame_rows : tensor -> nat -> exn + list row.
Variable xyz_8_2f : row -> exn + string * string * string.
Variable valid_values : tensor -> exn + nat.
Variable range_0f : tensor -> string.

Local Abbreviation inspector :=
  (main shape element_size nan_count pickle_load abspath size_mb_2f mean_1f median_0f
     std_1f percent_1f percent_3f megabytes_2f flatten axis_min_8_1f axis_max_8_1f
     axis_mean_8_1f axis_std_8_1f first_frame_rows xyz_8_2f valid_values range_0f).

Local Abbreviation body :=
  (report shape element_size nan_count pickle_load mean_1f median_0f std_1f
     percent_1f percent_3f megabytes_2f flatten axis_min_8_1f axis_max_8_1f
     axis_mean_8_1f axis_std_8_1f first_frame_rows xyz_8_2f valid_values range_0f).

(** A run that found the file, by what the body of the [try] does. *)
Lemma inspector_found c w path ls r :
  opt_pickle_file c = Some path ->
  fs_exists w path = true ->
  yields (body {| pickle_file := path; verbose := opt_verbose c;
                  check_nans := opt_check_nans c |}) ls r ->
  inspector c w
  = match r with
    | inl (Raised e) =>
        (map Print (header abspath size_mb_2f path ++ ls ++ [error_line e])
           ++ [PrintExc e], w, inl (SystemExit 1))
    | _ => (map Print (header abspath size_mb_2f path ++ ls), w, r)
    end.
Proof.
  intros Hc Hex Hy. unfold main, parse_args. rewrite Hc.
  erewrite bind_inr by reflexivity. cbn [pickle_file].
  erewrite bind_inr by reflexivity.
  rewrite Hex. cbn [negb when_].
  do 8 erewrite bind_inr by reflexivity.
  destruct r as [[code|e]|[]].
  - unfold try_except. rewrite Hy. rewrite !after_triple. cbn [app].
    rewrite !map_app. reflexivity.
  - erewrite try_except_raised by exact Hy.
    unfold on_exception. do 2 erewrite bind_inr by reflexivity.
    unfold sys_exit. rewrite !after_triple. cbn [app]. rewrite !map_app.
    cbn [map]. rewrite <- !app_assoc. reflexivity.
  - erewrite try_except_returned by exact Hy.
    rewrite !after_triple. cbn [app]. rewrite !map_app. reflexivity.
Qed.

Lemma inspector_not_found c w path :
  opt_pickle_file c = Some path ->
  fs_exists w path = false ->
  inspector c w = ([Print ("ERROR: File not found: " +:+ path)], w, inl (SystemExit 1)).
Proof.
  intros Hc Hex. unfold main, parse_args. rewrite Hc.
  erewrite bind_inr by reflexivity. cbn [pickle_file].
  erewrite bind_inr by reflexivity.
  rewrite Hex. reflexivity.
Qed.

Lemma report_unreadable args e :
  pickle_load (pickle_file args) = inl e ->
  yields (body args) ["Loading data..."] (inl (Raised e)).
Proof.
  intros Hload. unfold report. eapply yields_eq; [inspect_go|reflexivity].
Qed.

Lemma report_empty args :
  pickle_load (pickle_file args) = inr [] ->
  yields (body args)
         ["Loading data..."; "✓ Loaded successfully"; ""; "📊 DATASET STATISTICS:";
          dashes; "Number of segments:  " +:+ show_nat 0]
         (inl (Raised Obs.empty_index_error)).
Proof.
  intros Hload. unfold report. eapply yields_eq; [inspect_go|reflexivity].
Qed.

(** Every run of the inspector, by how far it gets. *)
Lemma inspector_cases c w :
  match opt_pickle_file c with
  | None => inspector c w = ([ArgparseError ["pickle_file"]], w, inl (SystemExit 2))
  | Some path =>
      if fs_exists w path then
        match pickle_load path with
        | inl e =>
            inspector c w
            = (map Print (header abspath size_mb_2f path
                            ++ ["Loading data..."] ++ [error_line e])
                 ++ [PrintExc e], w, inl (SystemExit 1))
        | inr data =>
            if accepted shape flatten axis_min_8_1f axis_max_8_1f first_frame_rows
                 xyz_8_2f valid_values (opt_check_nans c) (opt_verbose c) data
            then
              exists ls,
                inspector c w = (map Print (header abspath size_mb_2f path ++ ls), w, inr tt)
            else
              exists ls e,
                inspector c w
                = (map Print (header abspath size_mb_2f path ++ ls ++ [error_line e])
                     ++ [PrintExc e], w, inl (SystemExit 1))
        end
      else inspector c w
           = ([Print ("ERROR: File not found: " +:+ path)], w, inl (SystemExit 1))
  end.
Proof.
  destruct (opt_pickle_file c) as [path|] eqn:Hc.
  2:{ unfold main, parse_args. rewrite Hc. reflexivity. }
  destruct (fs_exists w path) eqn:Hex; [|now apply inspector_not_found].
  set (args := {| pickle_file := path; verbose := opt_verbose c;
                  check_nans := opt_check_nans c |}).
  destruct (pickle_load path) as [e|data] eqn:Hload.
  - rewrite (inspector_found c w path _ (inl (Raised e)) Hc Hex
               (report_unreadable args e Hload)).
    reflexivity.
  - pose proof (report_settles shape element_size nan_count pickle_load mean_1f
                  median_0f std_1f percent_1f percent_3f megabytes_2f flatten
                  axis_min_8_1f axis_max_8_1f axis_mean_8_1f axis_std_8_1f
                  first_frame_rows xyz_8_2f valid_values range_0f args data Hload) as H.
    cbn [check_nans verbose args] in H.
    destruct (accepted shape flatten axis_min_8_1f axis_max_8_1f first_frame_rows
                xyz_8_2f valid_values (opt_check_nans c) (opt_verbose c) data).
    + destruct H as [ls [[] [Hls _]]]. exists ls.
      now rewrite (inspector_found c w path _ _ Hc Hex Hls).
    + destruct H as [ls [e Hls]]. exists ls, e.
      now rewrite (inspector_found c w path _ _ Hc Hex Hls).
Qed.

End InspectMainFacts.

(** * test_attention_models.py *)

(** ** Steps that keep the settings *)

Section KeptFacts.
Import Py PyLib More TestAttentionModels TestsTable.

Lemma same_settings_refl s : same_settings s s.
Proof. split; reflexivity. Qed.

Lemma same_settings_trans s1 s2 s3 :
  same_settings s1 s2 -> same_settings s2 s3 -> same_settings s1 s3.
Proof. intros [H1 H2] [H3 H4]. split; congruence. Qed.

Lemma test_bind_inr {A B} (m : test A) (k : A -> test B) s t s' a :
  m s = (t, s', inr a) ->
  (m ≫= k) s = (t ++ (k a s').1.1, (k a s').1.2, (k a s').2).
Proof.
  intros H. unfold mbind, test_bind, bind. rewrite H.
  destruct (k a s') as [[t2 s2] r]. reflexivity.
Qed.

Lemma test_bind_inl {A B} (m : test A) (k : A -> test B) s t s' stop :
  m s = (t, s', inl stop) -> (m ≫= k) s = (t, s', inl stop).
Proof. intros H. unfold mbind, test_bind, bind. rewrite H. reflexivity. Qed.

Lemma kept_ret {A} (a : A) (Q : list event -> A -> Prop) : Q [] a -> kept (ret a) Q.
Proof.
  intros HQ s. exists [], s, (inr a).
  split; [reflexivity|]. split; [apply same_settings_refl|]. split; [reflexivity|].
  right. now exists a.
Qed.

Lemma kept_print line : kept (print line) (fun _ _ => True).
Proof.
  intros s. exists [Print line], s, (inr tt).
  split; [reflexivity|]. split; [apply same_settings_refl|]. split; [reflexivity|].
  right. now exists tt.
Qed.

Lemma kept_lift {A} (r : exn + A) : kept (lift r) (fun _ _ => True).
Proof.
  intros s. destruct r as [e|a].
  - exists [], s, (inl (Raised e)).
    split; [reflexivity|]. split; [apply same_settings_refl|]. split; [reflexivity|].
    left. now exists e.
  - exists [], s, (inr a).
    split; [reflexivity|]. split; [apply same_settings_refl|]. split; [reflexivity|].
    right. now exists a.
Qed.

Lemma kept_draw : kept draw (fun _ _ => True).
Proof.
  intros s. eexists [], _, (inr (drawn s)).
  split; [reflexivity|]. split; [split; reflexivity|]. split; [reflexivity|].
  right. now exists (drawn s).
Qed.

Lemma kept_assert c message : kept (assert_ c message) (fun _ _ => True).
Proof.
  intros s. destruct c.
  - exists [], s, (inr tt).
    split; [reflexivity|]. split; [apply same_settings_refl|]. split; [reflexivity|].
    right. now exists tt.
  - eexists [], s, (inl (Raised _)).
    split; [reflexivity|]. split; [apply same_settings_refl|]. split; [reflexivity|].
    left. eauto.
Qed.

Lemma kept_new_model {model} (Net : string -> Z -> Z -> Z -> exn + model) a b :
  kept (new_model Net a b) (fun _ _ => True).
Proof.
  intros s. unfold new_model.
  destruct (Net (model_type s) (nAttentionHeads s) a b) as [e|m].
  - exists [], s, (inl (Raised e)).
    split; [reflexivity|]. split; [apply same_settings_refl|]. split; [reflexivity|].
    left. now exists e.
  - exists [], s, (inr m).
    split; [reflexivity|]. split; [apply same_settings_refl|]. split; [reflexivity|].
    right. now exists m.
Qed.

Lemma kept_bind {A B} (m : test A) (k : A -> test B) (Q : list event -> B -> Prop) :
  kept m (fun _ _ => True) -> (forall a, kept (k a) Q) -> prefix_closed Q ->
  kept (m ≫= k) Q.
Proof.
  intros Hm Hk HQ s.
  destruct (Hm s) as [t1 [s1 [r1 [E1 [S1 [T1 R1]]]]]].
  destruct R1 as [[e ->]|[a [-> _]]].
  - exists t1, s1, (inl (Raised e)).
    split; [now apply test_bind_inl|]. split; [exact S1|]. split; [exact T1|].
    left. now exists e.
  - destruct (Hk a s1) as [t2 [s2 [r2 [E2 [S2 [T2 R2]]]]]].
    exists (t1 ++ t2), s2, r2.
    split; [rewrite (test_bind_inr m k s t1 s1 a E1), E2; reflexivity|].
    split; [eapply same_settings_trans; eassumption|].
    split; [rewrite tracebacks_app, T1, T2; reflexivity|].
    destruct R2 as [R2|[b [-> Hb]]]; [now left|].
    right. exists b. split; [reflexivity|]. now apply HQ.
Qed.

Lemma prefix_closed_True {A} : prefix_closed (fun (_ : list event) (_ : A) => True).
Proof. intros t1 t2 a _. exact I. Qed.

Lemma kept_for_fold {A S} (l : list A) (body : A -> S -> test S) :
  (forall x acc, kept (body x acc) (fun _ _ => True)) ->
  forall acc, kept (for_fold l acc body) (fun _ _ => True).
Proof.
  intros Hbody. induction l as [|x l IH]; intros acc.
  - apply kept_ret. exact I.
  - cbn [for_fold]. apply kept_bind; [apply Hbody|intros acc'; apply IH|].
    apply prefix_closed_True.
Qed.

Lemma prefix_closed_last {A} (a0 : A) (ev : event) :
  prefix_closed (fun t a => a = a0 /\ last t = Some ev).
Proof.
  intros t1 t2 a [-> Hl]. split; [reflexivity|].
  destruct t2 as [|x t2]; [discriminate|]. now rewrite last_app_cons.
Qed.

Lemma kept_last {A} (a : A) line :
  kept (print line ≫= fun _ => ret a) (fun t b => b = a /\ last t = Some (Print line)).
Proof.
  intros s. exists [Print line], s, (inr a).
  split; [reflexivity|]. split; [apply same_settings_refl|]. split; [reflexivity|].
  right. exists a. auto.
Qed.

End KeptFacts.

(** Chains of steps that keep the settings. *)
Ltac kept_step :=
  first [ apply kept_print | apply kept_lift | apply kept_draw | apply kept_assert
        | apply kept_new_model
        | apply kept_for_fold; intros [? ?] ?; cbn [fst snd];
          match goal with |- context [if ?c then _ else _] => destruct c end;
          first [apply kept_lift | apply kept_ret; exact I] ].

Ltac kept_go :=
  cbv zeta;
  repeat first
    [ apply kept_last
    | apply kept_bind;
      [kept_step|intros ?|first [apply prefix_closed_True|apply prefix_closed_last]] ].

Section TrialFacts.
Import Py PyLib More TestAttentionModels TestsTable.

Context {model tensor : Type}.
Variable Net : string -> Z -> Z -> Z -> exn + model.
Variables total_params trainable_params : model -> nat.
Variable randn : nat -> bool -> Z -> Z -> Z -> exn + tensor.
Variable zero_from : tensor -> nat -> Z -> exn + tensor.
Variable forward : bool -> model -> tensor -> list Z -> exn + tensor.
Variable backward : tensor -> exn + unit.
Variable shape : tensor -> list nat.
Variable has_nan : tensor -> bool.
Variable all_zero : tensor -> bool.

Local Abbreviation the_trial :=
  (trial Net total_params trainable_params randn zero_from forward backward shape
     has_nan all_zero).

Local Abbreviation the_test :=
  (test_model_architecture Net total_params trainable_params randn zero_from forward
     backward shape has_nan all_zero).

(** Lines 46-100: the body keeps the settings; it raises, or returns
    [True] right after the line that says so. *)
Lemma trial_kept name max_len num_mks batch_size :
  kept (the_trial name max_len num_mks batch_size)
       (fun t b => b = true /\ last t = Some (Print (passed_line name))).
Proof. unfold trial, passed_line. kept_go. Qed.

(** Lines 17-111, for every way the body can go. *)
Lemma test_model_architecture_run name max_len num_mks batch_size s :
  exists t s' b,
    the_test name max_len num_mks batch_size s = (t, s', inr b)
    /\ same_settings s s'
    /\ In (Print ("Testing " +:+ str_upper name +:+ " architecture")) t
    /\ (if b
        then last t = Some (Print (passed_line name)) /\ tracebacks t = []
        else exists e,
               last t = Some (PrintExc e) /\ tracebacks t = [e]
               /\ In (Print (failed_line name)) t).
Proof.
  set (s1 := {| model_type := name; nAttentionHeads := nAttentionHeads s;
                drawn := drawn s |}).
  destruct (trial_kept name max_len num_mks batch_size s1)
    as [t1 [s2 [r [E [[_ Hh] [T R]]]]]].
  assert (Hrun : the_test name max_len num_mks batch_size s
                 = match r with
                   | inl (Raised e) =>
                       ([Print (nl +:+ rule);
                         Print ("Testing " +:+ str_upper name +:+ " architecture");
                         Print rule] ++ t1
                          ++ [Print (failed_line name);
                              Print ("✗ Error: " +:+ exn_message e); PrintExc e],
                        {| model_type := model_type s;
                           nAttentionHeads := nAttentionHeads s2;
                           drawn := drawn s2 |}, inr false)
                   | _ =>
                       ([Print (nl +:+ rule);
                         Print ("Testing " +:+ str_upper name +:+ " architecture");
                         Print rule] ++ t1,
                        {| model_type := model_type s;
                           nAttentionHeads := nAttentionHeads s2;
                           drawn := drawn s2 |}, r)
                   end).
  { unfold test_model_architecture, try_except_finally, try_except.
    unfold mbind, test_bind, bind, print, get_model_type, set_model_type.
    cbn [fst snd app]. fold s1. rewrite E.
    destruct r as [[code|e]|b]; rewrite ?app_nil_r; try reflexivity.
    unfold trial_failed, mbind, test_bind, bind, print, traceback_print_exc, ret,
      failed_line.
    cbn [fst snd app]. rewrite app_nil_r. reflexivity. }
  rewrite Hrun. clear Hrun.
  destruct R as [[e ->]|[b [-> [-> Hlast]]]].
  - eexists _, _, false. split; [reflexivity|].
    split; [split; [reflexivity|exact Hh]|].
    split; [right; left; reflexivity|].
    exists e. split; [|split].
    + rewrite !app_assoc.
      change [Print (failed_line name); Print ("✗ Error: " +:+ exn_message e); PrintExc e]
        with ([Print (failed_line name); Print ("✗ Error: " +:+ exn_message e)]
                ++ [PrintExc e]).
      rewrite app_assoc. apply last_snoc.
    + rewrite !tracebacks_app, T. reflexivity.
    + apply in_or_app. right. apply in_or_app. right. left. reflexivity.
  - eexists _, _, true. split; [reflexivity|].
    split; [split; [reflexivity|exact Hh]|].
    split; [right; left; reflexivity|].
    split.
    + destruct t1 as [|x t1]; [discriminate|]. now rewrite last_app_cons.
    + rewrite tracebacks_app, T. reflexivity.
Qed.

(** The model of the test is built under the requested architecture: when
    that cannot be done, the test fails with the error of [Net]. *)
Lemma test_model_architecture_net name max_len num_mks batch_size s e :
  Net name (nAttentionHeads s) max_len num_mks = inl e ->
  the_test name max_len num_mks batch_size s
  = ([Print (nl +:+ rule);
      Print ("Testing " +:+ str_upper name +:+ " architecture");
      Print rule;
      Print ("Creating " +:+ name +:+ " model...");
      Print (failed_line name);
      Print ("✗ Error: " +:+ exn_message e);
      PrintExc e], s, inr false).
Proof.
  intros HNet.
  unfold test_model_architecture, try_except_finally, try_except, trial, new_model.
  unfold mbind, test_bind, bind, print, get_model_type, set_model_type.
  cbn [fst snd app model_type nAttentionHeads]. rewrite HNet.
  unfold trial_failed, mbind, test_bind, bind, print, traceback_print_exc, ret,
    failed_line.
  cbn [fst snd app model_type nAttentionHeads drawn]. destruct s; reflexivity.
Qed.

End TrialFacts.

Section SuiteFacts.
Import Py PyLib More TestAttentionModels TestsTable.

Lemma results_lookup (ra rb rc : bool) :
  let results : gmap string bool :=
    <["hybrid" := rc]> (<["transformer" := rb]> (<["lstm" := ra]> ∅)) in
  results !! "lstm" = Some ra
  /\ results !! "transformer" = Some rb
  /\ results !! "hybrid" = Some rc.
Proof.
  cbn zeta. split; [|split].
  - rewrite lookup_insert_ne by discriminate.
    rewrite lookup_insert_ne by discriminate.
    apply lookup_insert_eq.
  - rewrite lookup_insert_ne by discriminate. apply lookup_insert_eq.
  - apply lookup_insert_eq.
Qed.

Lemma all_values_three (ra rb rc : bool) :
  all_values (<["hybrid" := rc]> (<["transformer" := rb]> (<["lstm" := ra]>
                (∅ : gmap string bool))))
  = ra && rb && rc.
Proof.
  unfold all_values.
  assert (H : map_Forall (fun (_ : string) (b : bool) => b = true)
                (<["hybrid" := rc]> (<["transformer" := rb]> (<["lstm" := ra]>
                   (∅ : gmap string bool))))
              <-> ra = true /\ rb = true /\ rc = true).
  { rewrite map_Forall_insert.
    2:{ rewrite lookup_insert_ne by discriminate.
        rewrite lookup_insert_ne by discriminate. apply lookup_empty. }
    rewrite map_Forall_insert.
    2:{ rewrite lookup_insert_ne by discriminate. apply lookup_empty. }
    rewrite map_Forall_insert by apply lookup_empty.
    pose proof (map_Forall_empty (M := gmap string)
                  (fun (_ : string) (b : bool) => b = true)) as He.
    tauto. }
  destruct ra, rb, rc; cbn [andb];
    first [ apply bool_decide_eq_true; apply H; auto
          | apply bool_decide_eq_false; intros Hall; apply H in Hall;
            destruct Hall as [? [? ?]]; discriminate ].
Qed.

End SuiteFacts.

Section ScriptFacts.
Import Py PyLib More TestAttentionModels TestsTable.

Context {model tensor : Type}.
Variable Net : string -> Z -> Z -> Z -> exn + model.
Variables total_params trainable_params : model -> nat.
Variable randn : nat -> bool -> Z -> Z -> Z -> exn + tensor.
Variable zero_from : tensor -> nat -> Z -> exn + tensor.
Variable forward : bool -> model -> tensor -> list Z -> exn + tensor.
Variable backward : tensor -> exn + unit.
Variable shape : tensor -> list nat.
Variable has_nan : tensor -> bool.
Variable all_zero : tensor -> bool.

Local Abbreviation the_test :=
  (test_model_architecture Net total_params trainable_params randn zero_from forward
     backward shape has_nan all_zero).

Local Abbreviation the_suite :=
  (test_all_architectures Net total_params trainable_params randn zero_from forward
     backward shape has_nan all_zero).

Local Abbreviation the_script :=
  (main Net total_params trainable_params randn zero_from forward backward shape
     has_nan all_zero).

(** Lines 114-164: the three tests one after the other, then the
    summary. *)
Lemma test_all_architectures_run s ta sa ra tb sb rb tc sc rc :
  the_test "lstm" 120 10 4 s = (ta, sa, inr ra) ->
  the_test "transformer" 120 10 4 sa = (tb, sb, inr rb) ->
  the_test "hybrid" 120 10 4 sb = (tc, sc, inr rc) ->
  exists head tail,
    the_suite s
    = (map Print head ++ ta ++ tb ++ tc ++ map Print tail, sc, inr (ra && rb && rc)).
Proof.
  intros Ea Eb Ec.
  destruct (results_lookup ra rb rc) as [La [Lb Lc]]. cbn zeta in La, Lb, Lc.
  unfold test_all_architectures, architectures. cbv zeta.
  cbn [for_fold for_each]. unfold getitem.
  unfold mbind, test_bind, bind, print, ret.
  rewrite Ea, Eb, Ec, La, Lb, Lc, all_values_three.
  destruct (ra && rb && rc);
    (eexists [_; _; _; _; _; _; _; _; _];
     eexists (_ :: _ :: _ :: _ :: _ :: _ :: _ :: _ :: _ :: nil);
     cbn [map app]; rewrite ?app_nil_r, <- ?app_assoc; cbn [app]; reflexivity).
Qed.

(** Lines 167-203, for every way the three constructions can go. *)
Lemma test_architecture_compatibility_run s :
  exists ls,
    test_architecture_compatibility Net s
    = (map Print ls,
       match first_failing Net with
       | None => s
       | Some config =>
           {| model_type := config.1; nAttentionHeads := config.2; drawn := drawn s |}
       end,
       inr (if first_failing Net is None then true else false)).
Proof.
  unfold first_failing, constructs, configs. cbn [List.find fst snd].
  unfold test_architecture_compatibility, try_except, switching, configs.
  cbn [for_each]. unfold new_model.
  unfold mbind, test_bind, bind, print, ret, get_model_type, get_nAttentionHeads,
    set_model_type, set_nAttentionHeads.
  cbn [fst snd model_type nAttentionHeads drawn].
  destruct (Net "lstm" 8 120 10) as [e|m1]; cbn [negb].
  { eexists [_; _; _; _]. reflexivity. }
  destruct (Net "transformer" 4 120 10) as [e|m2]; cbn [negb].
  { eexists [_; _; _; _; _]. reflexivity. }
  destruct (Net "hybrid" 16 120 10) as [e|m3]; cbn [negb].
  { eexists [_; _; _; _; _; _]. reflexivity. }
  eexists [_; _; _; _; _; _; _]. destruct s. reflexivity.
Qed.

(** Lines 206-219: the suite, then the switching test, then the exit. *)
Lemma main_run s t1 s1 b1 t2 s2 b2 :
  the_suite s = (t1, s1, inr b1) ->
  test_architecture_compatibility Net s1 = (t2, s2, inr b2) ->
  the_script s
  = (t1 ++ t2 ++ [Print (closing_line (b1 && b2))], s2,
     inl (SystemExit (if b1 && b2 then 0 else 1))).
Proof.
  intros E1 E2. unfold main.
  unfold mbind, test_bind, bind. rewrite E1, E2.
  destruct (b1 && b2); reflexivity.
Qed.

End ScriptFacts.

(** * Further properties, by script *)

(** ** generate_synthetic_data.py *)

Section WrapperExtras.
Import Py GenerateSyntheticData Obs More SummaryTable WrapperTable.
Local Open Scope nat_scope.

Context {tensor : Type}.
Variable shape : tensor -> list nat.
Variable core : Aml.kwargs -> exn + list tensor.
Variables dirname abspath : string -> string.
Variables e1 e2 : string.

Local Abbreviation wrapper := (main shape core dirname abspath e1 e2).

(** How a parsed run ends, by validation and by what the core returns. *)
Lemma run_status args w :
  status (run shape core dirname abspath e1 e2 args w) =
    if validated args w then
      match core (core_kwargs args) with
      | inl _ => 1%Z
      | inr data =>
          match (summary_outcome shape abspath e1 e2 args data).2 with
          | Some _ => 1%Z
          | None => 0%Z
          end
      end
    else 1%Z.
Proof.
  destruct (validated args w) eqn:Hv.
  - rewrite run_validated_eq by exact Hv. cbn zeta. rewrite generation_eq.
    destruct (core (core_kwargs args)) as [e|data]; [reflexivity|].
    destruct ((summary_outcome shape abspath e1 e2 args data).2); reflexivity.
  - rewrite run_rejected by exact Hv. reflexivity.
Qed.



(** X3.  The checks are made in a fixed order and the first one that fails
    ends the run: a missing body-kinematics file is reported alone even if
    the marker set is missing too, a missing marker set is reported before
    a bad participant count; a rejected run prints nothing else, creates
    no directory and leaves the world as it found it. *)
Theorem X3_wrapper_rejection_is_first_failure_only
    (c : cmdline) (w : world) (args : Namespace) :
  parse_args c w = ([], w, inr args) ->
  validated args w = false ->
  (wrapper c w).1.2 = w
  /\ made_dirs (events (wrapper c w)) = []
  /\ core_calls (events (wrapper c w)) = []
  /\ events (wrapper c w)
     = map Print
         (if fs_exists w (bodykin args) then
            if fs_exists w (markerset args) then
              ["ERROR: num_participants must be between 1 and 100"]
            else ["ERROR: Marker set file not found: " +:+ markerset args]
          else ["ERROR: Body kinematics file not found: " +:+ bodykin args;
                "Download from: https://doi.org/10.5281/zenodo.4293999"]).
Proof.
  intros Hp Hv.
  rewrite (main_rejected shape core dirname abspath e1 e2 c args w Hp Hv).
  cbn [events fst snd]. rewrite made_dirs_prints, core_calls_prints.
  repeat split. unfold rejection.
  destruct (fs_exists w (bodykin args)), (fs_exists w (markerset args)); reflexivity.
Qed.


(** X5.  When the summary is printed to its end, the marker count it shows
    is the second dimension of the first tensor only, and the two segment
    lengths it shows are the least and the greatest first dimension of the
    dataset: every tensor's length lies between them and each is the
    length of some tensor. *)
Theorem X5_wrapper_reported_numbers
    (c : cmdline) (w : world) (args : Namespace) (data : list tensor) :
  parse_args c w = ([], w, inr args) ->
  validated args w = true ->
  core (core_kwargs args) = inr data ->
  well_shaped shape data ->
  exists mk lo hi,
    In ("Markers per segment: " +:+ show_nat mk) (printed (events (wrapper c w)))
    /\ In ("Segment lengths:    " +:+ show_nat lo +:+ " - " +:+ show_nat hi +:+ " frames")
          (printed (events (wrapper c w)))
    /\ (exists d ds, data = d :: ds /\ nth_error (shape d) 1 = Some mk)
    /\ (forall x, In x data ->
          exists n, nth_error (shape x) 0 = Some n /\ lo <= n <= hi)
    /\ (exists x, In x data /\ nth_error (shape x) 0 = Some lo)
    /\ (exists x, In x data /\ nth_error (shape x) 0 = Some hi).
Proof.
  intros Hp Hv Hc Hw.
  rewrite (main_parsed shape core dirname abspath e1 e2 c args w Hp).
  rewrite run_validated_eq by exact Hv. cbn zeta. rewrite generation_eq, Hc.
  pose proof (proj2 (summary_outcome_None shape abspath e1 e2 args data) Hw) as Hnone.
  rewrite Hnone. unfold summary_outcome in *.
  destruct data as [|d0 ds]; [discriminate|].
  destruct (nth_error (shape d0) 1) as [mk|] eqn:Hmk; [|discriminate].
  destruct (first_dims shape (d0 :: ds)) as [[|l ls]|] eqn:Hf; try discriminate.
  exists mk, (fold_left Nat.min ls l), (fold_left Nat.max ls l).
  pose proof (first_dims_Some shape _ _ Hf) as Hall.
  split; [|split].
  - unfold after. cbn [events fst snd]. rewrite !printed_app. cbn [printed].
    rewrite !printed_prints. unfold summary_head, summary_tail. find_in.
  - unfold after. cbn [events fst snd]. rewrite !printed_app. cbn [printed].
    rewrite !printed_prints. unfold summary_head, summary_tail. find_in.
  - split; [exists d0, ds; auto|].
    split; [|split].
    + intros x Hx.
      destruct (forall2_in_l _ _ _ _ Hall Hx) as [n [Hn Hxn]].
      exists n. split; [exact Hxn|]. split.
      * now apply fold_min_lower.
      * now apply fold_max_upper.
    + destruct (forall2_in_r _ _ _ _ Hall (fold_min_In ls l)) as [x [Hx Hxn]].
      exists x. auto.
    + destruct (forall2_in_r _ _ _ _ Hall (fold_max_In ls l)) as [x [Hx Hxn]].
      exists x. auto.
Qed.

End WrapperExtras.

(** ** config_template.py *)

Section TemplateExtras.
Import Py ConfigTemplate Obs More TemplateTable WrapperTable.
Local Open Scope nat_scope.

Variable c : constants.
Context {tensor : Type}.
Variable shape : tensor -> list nat.
Variable core : Aml.kwargs -> exn + list tensor.
Variables dirname abspath : string -> string.
Variables e1 e2 : string.

Local Abbreviation template := (main c shape core dirname abspath e1 e2).

(** X6.  The template catches nothing.  With a valid configuration, an
    exception raised by the core leaves [main] right after the call, an
    empty dataset ends it with the IndexError of [data[0]] after the line
    that counts 0 segments, and the end of standard input at the prompt
    ends it with EOFError; the status is 1 each time and the script prints
    no error line and no traceback of its own. *)
Theorem X6_template_lets_exceptions_escape (w : world) :
  expected_errors c w = [] ->
  tracebacks (events (template w)) = []
  /\ (stdin w = [] ->
      outcome (template w) = inl (Raised eof_error)
      /\ core_calls (events (template w)) = [])
  /\ (answers_yes w = true ->
      (forall e, core (core_kwargs c) = inl e ->
         outcome (template w) = inl (Raised e)
         /\ last (events (template w)) = Some (CallCore (core_kwargs c)))
      /\ (core (core_kwargs c) = inr [] ->
          outcome (template w) = inl (Raised empty_index_error)
          /\ last (events (template w)) = Some (Print "Total segments:      0"))).
Proof.
  intros He. unfold answers_yes.
  destruct (main_unconfirmed_t c shape core dirname abspath e1 e2 w He)
    as [pre [Hc [Hd [Ht Hm]]]].
  destruct (stdin w) as [|response rest] eqn:Hs.
  { rewrite Hm. cbn [events outcome fst snd].
    rewrite tracebacks_app, core_calls_app, Ht, Hc.
    split; [reflexivity|]. split; [auto|discriminate]. }
  destruct (declined response) eqn:Hdec.
  { rewrite Hm. cbn [events outcome fst snd].
    rewrite tracebacks_app, Ht.
    split; [reflexivity|]. split; discriminate. }
  clear pre Hc Hd Ht Hm.
  destruct (main_confirmed_t c shape core dirname abspath e1 e2 w response rest He Hs Hdec)
    as [pre [Hc [Hd [Hp [Ht Hm]]]]].
  rewrite Hm, generation_eq_t. cbn zeta.
  set (made := if must_create _ _ then _ else _).
  assert (Hmade : tracebacks made = []) by (unfold made; destruct (must_create _ _); reflexivity).
  split; [|split; [discriminate|intros _; split]].
  - destruct (core (core_kwargs c)) as [e|data];
      unfold after; cbn [events fst snd];
      rewrite !tracebacks_app, Ht, Hmade; cbn [tracebacks app];
      [reflexivity|apply tracebacks_prints].
  - intros e Hcore. rewrite Hcore. unfold after. cbn [events outcome fst snd].
    split; [reflexivity|]. rewrite app_assoc. apply last_snoc.
  - intros Hcore. rewrite Hcore. unfold after. cbn [events outcome fst snd].
    split; [reflexivity|].
    rewrite last_app. cbn [summary_outcome_t fst summary_head_t map].
    rewrite last_app. reflexivity.
Qed.
(** X7.  The prompt is accepted for [y] and [yes] written in any mix of
    upper and lower case, and for nothing else: an empty answer, [no], or
    [y] followed by a space all cancel the run. *)
Theorem X7_template_confirmation_spellings (response : string) :
  declined response = false <-> In response yes_spellings.
Proof using Type.
  unfold declined, yes_spellings. split.
  - intros H. apply negb_false_iff, orb_true_iff in H.
    destruct H as [H|H]; apply String.eqb_eq in H.
    + destruct response as [|a [|b t]]; try discriminate H.
      cbn [str_lower] in H. injection H as H.
      destruct (ascii_lower_y a H) as [-> | ->]; cbn; auto.
    + destruct response as [|a [|b [|d [|x t]]]]; try discriminate H.
      cbn [str_lower] in H. injection H as Ha Hb Hd.
      destruct (ascii_lower_y a Ha) as [-> | ->];
        destruct (ascii_lower_e b Hb) as [-> | ->];
        destruct (ascii_lower_s d Hd) as [-> | ->]; cbn; auto 12.
  - intros H. repeat (destruct H as [<-|H]; [vm_compute; reflexivity|]). destruct H.
Qed.

(** X8.  The template announces the output directory in [warnings] exactly
    when its name is not empty and it does not exist; it creates that
    directory, and only that one, once the configuration has no error and
    the user confirmed; a run that ends at the error report or at the
    prompt creates nothing. *)
Theorem X8_template_creates_only_the_announced_directory (w : world) :
  let d := dirname (OUTPUT_PATH c) in
  (In (directory_warning d) (expected_warnings dirname c w) <-> must_create w d = true)
  /\ made_dirs (events (template w))
     = match expected_errors c w with
       | [] => if answers_yes w && must_create w d then [d] else []
       | _ :: _ => []
       end
  /\ (forall d', In d' (made_dirs (events (template w))) ->
        In (directory_warning d') (expected_warnings dirname c w)).
Proof.
  intros d.
  assert (Hwarn : In (directory_warning d) (expected_warnings dirname c w)
                  <-> must_create w d = true).
  { unfold expected_warnings, directory_warning, must_create. fold d. split.
    - intros H.
      repeat (apply in_app_or in H; destruct H as [H|H]).
      + destruct (_ || _)%bool in H; [|destruct H].
        destruct H as [H|[H|[]]]; discriminate H.
      + destruct (_ || _)%bool in H; [|destruct H].
        destruct H as [H|[H|[]]]; discriminate H.
      + destruct (negb (String.eqb d "") && negb (fs_exists w d)); [reflexivity|destruct H].
    - intros ->. apply in_or_app. right. apply in_or_app. right. now left. }
  assert (Hmade : made_dirs (events (template w))
                  = match expected_errors c w with
                    | [] => if answers_yes w && must_create w d then [d] else []
                    | _ :: _ => []
                    end).
  { destruct (expected_errors c w) as [|x xs] eqn:He.
    2:{ destruct (main_errors_t c shape core dirname abspath e1 e2 w) as [ls ->];
          [congruence|]. cbn [events fst]. apply made_dirs_prints. }
    unfold answers_yes.
    destruct (main_unconfirmed_t c shape core dirname abspath e1 e2 w He)
      as [pre [Hc [Hd [Ht Hm]]]].
    destruct (stdin w) as [|response rest] eqn:Hs.
    { rewrite Hm. cbn [events fst]. rewrite made_dirs_app, Hd. reflexivity. }
    destruct (declined response) eqn:Hdec.
    { rewrite Hm. cbn [events fst]. rewrite made_dirs_app, Hd. reflexivity. }
    clear pre Hc Hd Ht Hm.
    destruct (main_confirmed_t c shape core dirname abspath e1 e2 w response rest
                He Hs Hdec) as [pre [Hc [Hd [Hp [Ht Hm]]]]].
    rewrite Hm, generation_eq_t. cbn zeta. fold d.
    change (must_create {| fs_exists := fs_exists w; stdin := rest |} d)
      with (must_create w d).
    cbn [negb andb].
    destruct (core (core_kwargs c)) as [e|data];
      unfold after; cbn [events fst snd];
      rewrite !made_dirs_app, Hd; cbn [app made_dirs];
      rewrite ?made_dirs_prints;
      destruct (must_create w d); reflexivity. }
  split; [exact Hwarn|]. split; [exact Hmade|].
  intros d' Hin. rewrite Hmade in Hin.
  destruct (expected_errors c w); [|destruct Hin].
  destruct (answers_yes w); [|destruct Hin]. cbn [andb] in Hin.
  destruct (must_create w d) eqn:Hmc; [|destruct Hin].
  destruct Hin as [<-|[]]. apply Hwarn. reflexivity.
Qed.


End TemplateExtras.

(** * check_hdf5_structure.py: properties *)

Section ListingExtras.
Import Py PyLib CheckHdf5Structure Hdf5Table.
Local Open Scope nat_scope.


End ListingExtras.

Section CheckerExtras.
Import Py PyLib CheckHdf5Structure Hdf5Table More.
Local Open Scope nat_scope.

Variable h5py_File : string -> exn + file.
Variable key_error : string -> exn.
Variable bad_subscript : item -> string -> exn.
Context {array : Type}.
Variable np_array : item -> exn + array.
Variable frame0 : array -> exn + string.
Variable first3 : array -> exn + string.
Variable abspath : string -> string.
Variable size_gb_2f : string -> string.

Local Abbreviation checker :=
  (main h5py_File key_error bad_subscript np_array frame0 first3 abspath size_gb_2f).



(** X13.  A [kin] group without participants, or whose first participant
    has no trials, makes the checker fail: the [IndexError] of [sids[0]]
    or [trials[0]] is caught, reported after an empty line and ends the
    run with status 1, though nothing is wrong with the file as an HDF5
    file. *)
Theorem X13_checker_fails_on_empty_kin
    (c : cmdline) (w : world) (path : string) (hf : file) :
  opt_hdf5_file c = Some path ->
  fs_exists w path = true ->
  h5py_File path = inr hf ->
  lookup "kin" hf = Some (Group [])
  \/ (exists sid ps, lookup "kin" hf = Some (Group ((sid, Group []) :: ps))) ->
  outcome (checker c w) = inl (SystemExit 1)
  /\ exists pre,
       events (checker c w)
       = pre ++ [Print ""; Print (error_line Obs.empty_index_error);
                 PrintExc Obs.empty_index_error].
Proof.
  intros Hc Hex Hopen Hkin.
  destruct (kinematics_empty key_error bad_subscript hf Hkin) as [ls Hls].
  assert (Hin : contains hf "kin" = true).
  { unfold contains. destruct Hkin as [->|[sid [ps ->]]]; reflexivity. }
  destruct (with_file_kin h5py_File key_error bad_subscript np_array frame0 first3
              {| hdf5_file := path; verbose := opt_verbose c |} hf _ _
              Hopen Hin Hls) as [pre Hy].
  rewrite (main_found h5py_File key_error bad_subscript np_array frame0 first3
             abspath size_gb_2f c w path _ _ Hc Hex Hy).
  split; [reflexivity|].
  exists (map Print (header abspath size_gb_2f path ++ pre ++ ls)).
  cbn [events fst]. rewrite !map_app. cbn [map]. rewrite <- !app_assoc. reflexivity.
Qed.


End CheckerExtras.

(** * inspect_synthetic_data.py: properties *)

Section InspectorExtras.
Import Py PyLib InspectSyntheticData InspectTable More.
Local Open Scope nat_scope.

Context {tensor : Type}.
Variable shape : tensor -> list nat.
Variable element_size : tensor -> nat.
Variable nan_count : tensor -> nat.
Variable pickle_load : string -> exn + list tensor.
Variable abspath : string -> string.
Variable size_mb_2f : string -> string.
Variables mean_1f median_0f std_1f : list nat -> string.
Variable percent_1f : nat -> nat -> string.
Variable percent_3f : nat -> nat -> string.
Variable megabytes_2f : nat -> string.
Context {coords : Type}.
Variable flatten : list tensor -> exn + coords.
Variables axis_min_8_1f axis_max_8_1f : coords -> nat -> exn + string.
Variables axis_mean_8_1f axis_std_8_1f : coords -> nat -> string.
Context {row : Type}.
Variable first_frame_rows : tensor -> nat -> exn + list row.
Variable xyz_8_2f : row -> exn + string * string * string.
Variable valid_values : tensor -> exn + nat.
Variable range_0f : tensor -> string.

Local Abbreviation inspector :=
  (main shape element_size nan_count pickle_load abspath size_mb_2f mean_1f median_0f
     std_1f percent_1f percent_3f megabytes_2f flatten axis_min_8_1f axis_max_8_1f
     axis_mean_8_1f axis_std_8_1f first_frame_rows xyz_8_2f valid_values range_0f).

(** X15.  An empty dataset is never reported as valid: [type(data[0])] on
    line 61 raises before the test [len(data) > 0] of line 63 is reached,
    so the run prints the segment count 0, then the error line and the
    traceback of the [IndexError], and exits with status 1. *)
Theorem X15_inspector_rejects_an_empty_dataset
    (c : cmdline) (w : world) (path : string) :
  opt_pickle_file c = Some path ->
  fs_exists w path = true ->
  pickle_load path = inr [] ->
  outcome (inspector c w) = inl (SystemExit 1)
  /\ (exists pre,
        events (inspector c w)
        = pre ++ [Print "Number of segments:  0";
                  Print (error_line Obs.empty_index_error);
                  PrintExc Obs.empty_index_error])
  /\ ~ In verdict (printed (events (inspector c w))).
Proof.
  intros Hc Hex Hload.
  rewrite (inspector_found shape element_size nan_count pickle_load abspath size_mb_2f
             mean_1f median_0f std_1f percent_1f percent_3f megabytes_2f flatten
             axis_min_8_1f axis_max_8_1f axis_mean_8_1f axis_std_8_1f first_frame_rows
             xyz_8_2f valid_values range_0f c w path _ _ Hc Hex
             (report_empty shape element_size nan_count pickle_load mean_1f median_0f
                std_1f percent_1f percent_3f megabytes_2f flatten axis_min_8_1f
                axis_max_8_1f axis_mean_8_1f axis_std_8_1f first_frame_rows xyz_8_2f
                valid_values range_0f
                {| pickle_file := path; verbose := opt_verbose c;
                   check_nans := opt_check_nans c |} Hload)).
  split; [reflexivity|]. split.
  - eexists (map Print (header abspath size_mb_2f path ++ [_; _; _; _; _])).
    cbn [events fst]. rewrite !map_app. cbn [map app]. rewrite <- !app_assoc.
    reflexivity.
  - cbn [events fst]. rewrite printed_app, printed_prints. cbn [printed app].
    rewrite app_nil_r. unfold header, verdict, error_line. cbn [app].
    intros Hin. repeat (destruct Hin as [Hin|Hin]; [vm_compute in Hin; discriminate Hin|]).
    exact Hin.
Qed.


(** X17.  The length distribution accounts for every segment exactly
    once: the five rows for the bins from 0 to 300 frames, the last one
    with 300 included, and the row for longer segments, which is printed
    exactly when there is such a segment, count as many segments together
    as the dataset holds. *)
Theorem X17_length_distribution_counts_every_segment
    (data : list tensor) (lengths : list nat) (w : world) :
  data <> [] ->
  first_dims shape data = Some lengths ->
  let run := length_distribution percent_1f data lengths w in
  let hist := np_histogram lengths bins in
  let over := count_above lengths 300 in
  outcome run = inr tt
  /\ printed (events run)
     = ["  Length distribution:"]
         ++ bin_rows percent_1f (length data) bins hist
         ++ (if 0 <? over then [overflow_row percent_1f (length data) over] else [])
         ++ [""]
  /\ length (bin_rows percent_1f (length data) bins hist) = 5
  /\ list_sum hist + over = length data.
Proof.
  intros Hne Hlens. cbn zeta.
  pose proof (first_dims_length shape data lengths Hlens) as Hlen.
  destruct lengths as [|l ls].
  { destruct data; [congruence|discriminate Hlen]. }
  rewrite (length_distribution_yields percent_1f data l ls w).
  cbn [outcome events fst snd]. rewrite printed_prints.
  split; [reflexivity|]. split; [reflexivity|]. split; [reflexivity|].
  rewrite histogram_total. exact Hlen.
Qed.

(** X18.  The NaN analysis divides by the number of values: on a dataset
    without any value it raises [ZeroDivisionError] after the line with
    the total, and otherwise it returns and tells NaNs from their absence:
    the warning is printed exactly when some entry is NaN, the all-clear
    exactly when none is. *)
Theorem X18_nan_analysis_warns_exactly_on_nans (data : list tensor) (w : world) :
  let run := nan_analysis shape nan_count percent_3f data w in
  let total_values := list_sum (map (numel shape) data) in
  let total_nans := list_sum (map nan_count data) in
  (total_values = 0 ->
   outcome run = inl (Raised zero_division)
   /\ last (printed (events run)) = Some "  Total values:      0")
  /\ (total_values <> 0 ->
      outcome run = inr tt
      /\ (In nan_warning (printed (events run)) <-> 0 < total_nans)
      /\ (In nan_clear (printed (events run)) <-> total_nans = 0)).
Proof.
  cbn zeta. split.
  - intros H0. rewrite (nan_analysis_empty shape nan_count percent_3f data H0 w).
    split; reflexivity.
  - intros H0. rewrite (nan_analysis_yields shape nan_count percent_3f data H0 w).
    cbn [outcome events fst snd]. rewrite printed_prints.
    split; [reflexivity|].
    destruct (Nat.ltb_spec 0 (list_sum (map nan_count data))) as [Hn|Hn];
      unfold nan_warning, nan_clear, dashes; cbn [app].
    + split; split.
      * intros _. exact Hn.
      * intros _. right. right. right. right. left. reflexivity.
      * intros Hin. exfalso.
        repeat (destruct Hin as [Hin|Hin]; [simpl in Hin; discriminate Hin|]).
        exact Hin.
      * lia.
    + split; split.
      * intros Hin. exfalso.
        repeat (destruct Hin as [Hin|Hin]; [simpl in Hin; discriminate Hin|]).
        exact Hin.
      * lia.
      * intros _. lia.
      * intros _. right. right. right. right. left. reflexivity.
Qed.


End InspectorExtras.

(** * test_attention_models.py: properties *)

Section TestScriptExtras.
Import Py PyLib More TestAttentionModels TestsTable.
Local Open Scope nat_scope.

Context {model tensor : Type}.
Variable Net : string -> Z -> Z -> Z -> exn + model.
Variables total_params trainable_params : model -> nat.
Variable randn : nat -> bool -> Z -> Z -> Z -> exn + tensor.
Variable zero_from : tensor -> nat -> Z -> exn + tensor.
Variable forward : bool -> model -> tensor -> list Z -> exn + tensor.
Variable backward : tensor -> exn + unit.
Variable shape : tensor -> list nat.
Variable has_nan : tensor -> bool.
Variable all_zero : tensor -> bool.

Local Abbreviation the_test :=
  (test_model_architecture Net total_params trainable_params randn zero_from forward
     backward shape has_nan all_zero).

Local Abbreviation the_suite :=
  (test_all_architectures Net total_params trainable_params randn zero_from forward
     backward shape has_nan all_zero).

Local Abbreviation the_script :=
  (main Net total_params trainable_params randn zero_from forward backward shape
     has_nan all_zero).

(** X20.  [test_model_architecture] never raises and always puts
    [automarkerlabel.model_type] back: whatever the library does, it
    returns a boolean and leaves both settings as it found them.  It
    returns [True] exactly when its last line is the PASSED line, prints
    one traceback when it returns [False] and none otherwise, and it
    builds the model under the requested architecture: if [Net] cannot be
    built under it, the test fails with that error. *)
Theorem X20_architecture_test_restores_the_model_type
    (name : string) (max_len num_mks batch_size : Z) (s : state) :
  let run := the_test name max_len num_mks batch_size s in
  model_type (final run) = model_type s
  /\ nAttentionHeads (final run) = nAttentionHeads s
  /\ (exists b,
        outcome run = inr b
        /\ (b = true <-> last (events run) = Some (Print (passed_line name)))
        /\ length (tracebacks (events run)) = (if b then 0 else 1))
  /\ (forall e,
        Net name (nAttentionHeads s) max_len num_mks = inl e ->
        outcome run = inr false
        /\ In (Print ("✗ Error: " +:+ exn_message e)) (events run)).
Proof.
  cbn zeta.
  destruct (test_model_architecture_run Net total_params trainable_params randn
              zero_from forward backward shape has_nan all_zero
              name max_len num_mks batch_size s)
    as [t [s' [b [E [[Hm Hh] [_ Hb]]]]]].
  split; [rewrite E; exact Hm|]. split; [rewrite E; exact Hh|]. split.
  - exists b. rewrite E. cbn [outcome events fst snd]. split; [reflexivity|].
    destruct b.
    + destruct Hb as [Hl Ht]. rewrite Ht. split; [|reflexivity].
      split; [intros _; exact Hl|reflexivity].
    + destruct Hb as [e [Hl [Ht _]]]. rewrite Ht. split; [|reflexivity].
      split; [discriminate|]. rewrite Hl. discriminate.
  - intros e HNet.
    rewrite (test_model_architecture_net Net total_params trainable_params randn
               zero_from forward backward shape has_nan all_zero
               name max_len num_mks batch_size s e HNet).
    split; [reflexivity|].
    cbn [events fst]. do 5 right. left. reflexivity.
Qed.

(** X21.  [test_architecture_compatibility] never raises and prints no
    traceback, and it restores the two settings only when it passes: it
    returns [True], with both settings as they were, exactly when [Net]
    can be built under all three configurations; otherwise it returns
    [False] and leaves [model_type] and [nAttentionHeads] at the first
    configuration under which [Net] could not be built. *)
Theorem X21_switching_test_restores_only_on_success (s : state) :
  let run := test_architecture_compatibility Net s in
  tracebacks (events run) = []
  /\ match first_failing Net with
     | None => outcome run = inr true /\ final run = s
     | Some config =>
         outcome run = inr false
         /\ model_type (final run) = config.1
         /\ nAttentionHeads (final run) = config.2
         /\ In config configs
     end.
Proof.
  cbn zeta. destruct (test_architecture_compatibility_run Net s) as [ls E].
  rewrite E. cbn [events outcome final fst snd].
  split; [apply tracebacks_prints|].
  destruct (first_failing Net) as [config|] eqn:Hf.
  - split; [reflexivity|]. split; [reflexivity|]. split; [reflexivity|].
    unfold first_failing in Hf. apply List.find_some in Hf. apply Hf.
  - split; reflexivity.
Qed.


End TestScriptExtras.

(** * From the generation script to the inspector *)

Section AcrossScripts.
Import Py PyLib More SummaryTable WrapperTable InspectTable.
Local Open Scope nat_scope.

Context {tensor : Type}.
Variable shape : tensor -> list nat.
Variable core : Aml.kwargs -> exn + list tensor.
Variables dirname abspath : string -> string.
Variables e1 e2 : string.
Variable element_size : tensor -> nat.
Variable nan_count : tensor -> nat.
Variable pickle_load : string -> exn + list tensor.
Variable size_mb_2f : string -> string.
Variables mean_1f median_0f std_1f : list nat -> string.
Variable percent_1f : nat -> nat -> string.
Variable percent_3f : nat -> nat -> string.
Variable megabytes_2f : nat -> string.
Context {coords : Type}.
Variable flatten : list tensor -> exn + coords.
Variables axis_min_8_1f axis_max_8_1f : coords -> nat -> exn + string.
Variables axis_mean_8_1f axis_std_8_1f : coords -> nat -> string.
Context {row : Type}.
Variable first_frame_rows : tensor -> nat -> exn + list row.
Variable xyz_8_2f : row -> exn + string * string * string.
Variable valid_values : tensor -> exn + nat.
Variable range_0f : tensor -> string.

Local Abbreviation wrapper :=
  (GenerateSyntheticData.main shape core dirname abspath e1 e2).

Local Abbreviation inspector :=
  (InspectSyntheticData.main shape element_size nan_count pickle_load abspath
     size_mb_2f mean_1f median_0f std_1f percent_1f percent_3f megabytes_2f flatten
     axis_min_8_1f axis_max_8_1f axis_mean_8_1f axis_std_8_1f first_frame_rows
     xyz_8_2f valid_values range_0f).

(** X23.  A dataset that [generate_synthetic_data.py] summarised with
    status 0 is never turned down by [inspect_synthetic_data.py] for its
    shapes: when the inspector finds the output file and loads the same
    dataset from it, it ends with status 0 exactly when the numeric part
    of its report goes through, since the summary of the first script
    already needed a first tensor with two dimensions and a first
    dimension on every tensor. *)
Theorem X23_a_summarised_dataset_has_the_shapes_the_inspector_needs
    (c : GenerateSyntheticData.cmdline) (w : world)
    (args : GenerateSyntheticData.Namespace) (data : list tensor)
    (ci : InspectSyntheticData.cmdline) (w' : world) :
  GenerateSyntheticData.parse_args c w = ([], w, inr args) ->
  core (GenerateSyntheticData.core_kwargs args) = inr data ->
  status (wrapper c w) = 0%Z ->
  InspectSyntheticData.opt_pickle_file ci = Some (GenerateSyntheticData.output args) ->
  fs_exists w' (GenerateSyntheticData.output args) = true ->
  pickle_load (GenerateSyntheticData.output args) = inr data ->
  (status (inspector ci w') = 0%Z
   <-> readable shape flatten axis_min_8_1f axis_max_8_1f first_frame_rows xyz_8_2f
         valid_values (InspectSyntheticData.opt_check_nans ci)
         (InspectSyntheticData.opt_verbose ci) data = true).
Proof.
  intros Hp Hcore Hs Hfile Hex Hload.
  assert (Hwell : well_shaped shape data).
  { rewrite (main_parsed shape core dirname abspath e1 e2 c args w Hp) in Hs.
    destruct (Obs.validated args w) eqn:Hv.
    - rewrite run_validated_eq in Hs by exact Hv. cbn zeta in Hs.
      rewrite generation_eq, Hcore in Hs.
      apply (summary_outcome_None shape abspath e1 e2 args data).
      destruct ((summary_outcome shape abspath e1 e2 args data).2);
        [discriminate Hs|reflexivity].
    - rewrite run_rejected in Hs by exact Hv. discriminate Hs. }
  apply shapes_ok_spec in Hwell.
  pose proof (inspector_cases shape element_size nan_count pickle_load abspath
                size_mb_2f mean_1f median_0f std_1f percent_1f percent_3f megabytes_2f
                flatten axis_min_8_1f axis_max_8_1f axis_mean_8_1f axis_std_8_1f
                first_frame_rows xyz_8_2f valid_values range_0f ci w') as H.
  rewrite Hfile, Hex, Hload in H. unfold accepted in H. rewrite Hwell in H.
  cbn [andb] in H.
  destruct (readable shape flatten axis_min_8_1f axis_max_8_1f first_frame_rows
              xyz_8_2f valid_values (InspectSyntheticData.opt_check_nans ci)
              (InspectSyntheticData.opt_verbose ci) data).
  - destruct H as [ls ->]. split; reflexivity.
  - destruct H as [ls [e ->]]. split; discriminate.
Qed.

End AcrossScripts.

(** ** The further properties on concrete runs *)

Section ExtraWitnesses.
Import Py Obs More WrapperTable TemplateTable Demo MoreDemo.
Local Open Scope nat_scope.


(** [--num-participants 0] with both files present: the one message of
    the third check and nothing else. *)
Lemma X3_wrapper_rejection_is_first_failure_only_witness :
  events (GenerateSyntheticData.main shape core_two dirname abspath seconds minutes
            (cmd_with 0) world_ready)
  = [Print "ERROR: num_participants must be between 1 and 100"].
Proof.
  exact (proj2 (proj2 (proj2
           (X3_wrapper_rejection_is_first_failure_only shape core_two dirname abspath
              seconds minutes (cmd_with 0) world_ready (args_with 0)
              eq_refl eq_refl)))).
Defined.


(** Segments of 240 and 60 frames with 5 markers. *)
Lemma X5_wrapper_reported_numbers_witness :
  exists mk lo hi,
    In ("Markers per segment: " +:+ show_nat mk)
       (printed (events (GenerateSyntheticData.main shape core_two dirname abspath
                           seconds minutes (cmd_with 10) world_ready)))
    /\ In ("Segment lengths:    " +:+ show_nat lo +:+ " - " +:+ show_nat hi +:+ " frames")
          (printed (events (GenerateSyntheticData.main shape core_two dirname abspath
                              seconds minutes (cmd_with 10) world_ready)))
    /\ (forall x, In x [[240; 5; 3]; [60; 5; 3]] ->
          exists n, nth_error (shape x) 0 = Some n /\ lo <= n <= hi).
Proof.
  destruct (X5_wrapper_reported_numbers shape core_two dirname abspath seconds minutes
              (cmd_with 10) world_ready (args_with 10) [[240; 5; 3]; [60; 5; 3]]
              eq_refl eq_refl eq_refl)
    as [mk [lo [hi [H1 [H2 [_ [H3 _]]]]]]].
  - split.
    + exists [240; 5; 3], [[60; 5; 3]]. split; [reflexivity|]. simpl. lia.
    + repeat constructor; simpl; lia.
  - exists mk, lo, hi. auto.
Defined.

(** The shipped constants, the answer [y] and a core that returns nothing:
    the IndexError of the summary leaves the template. *)
Lemma X6_template_lets_exceptions_escape_witness :
  outcome (ConfigTemplate.main ConfigTemplate.template shape core_none dirname abspath
             seconds minutes world_ready)
  = inl (Raised empty_index_error).
Proof.
  exact (proj1
           (proj2 (proj2 (proj2
              (X6_template_lets_exceptions_escape ConfigTemplate.template shape
                 core_none dirname abspath seconds minutes world_ready eq_refl))
              eq_refl) eq_refl)).
Defined.

(** [YeS] confirms. *)
Lemma X7_template_confirmation_spellings_witness :
  ConfigTemplate.declined "YeS" = false.
Proof.
  apply (proj2 (X7_template_confirmation_spellings "YeS")).
  unfold yes_spellings. simpl. tauto.
Defined.

(** The directory [../data] is missing and the user confirms: it is
    created, and it was announced. *)
Lemma X8_template_creates_only_the_announced_directory_witness :
  made_dirs (events (ConfigTemplate.main ConfigTemplate.template shape core_two
                       dirname_data abspath seconds minutes world_fresh))
  = ["../data"]
  /\ In (directory_warning "../data")
        (expected_warnings dirname_data ConfigTemplate.template world_fresh).
Proof.
  pose proof (X8_template_creates_only_the_announced_directory ConfigTemplate.template
                shape core_two dirname_data abspath seconds minutes world_fresh)
    as [Hw [Hm _]].
  split; [exact Hm|]. apply (proj2 Hw). reflexivity.
Defined.



(** A [kin] group without participants: status 1 after the [IndexError]. *)
Lemma X13_checker_fails_on_empty_kin_witness :
  outcome (ToolsDemo.checker ToolsDemo.hf_empty_kin (ToolsDemo.cmd_hdf5 false) world_ready)
  = inl (SystemExit 1).
Proof.
  apply (X13_checker_fails_on_empty_kin (fun _ => inr ToolsDemo.hf_empty_kin)
           ToolsDemo.key_error ToolsDemo.bad_subscript ToolsDemo.np_array
           ToolsDemo.slice_text ToolsDemo.slice_text abspath ToolsDemo.size_2f
           (ToolsDemo.cmd_hdf5 false) world_ready
           "../data/bodykinematics.hdf5" ToolsDemo.hf_empty_kin);
    first [reflexivity | left; reflexivity].
Defined.


(** The inspector on a pickle that holds the empty list: status 1. *)
Lemma X15_inspector_rejects_an_empty_dataset_witness :
  outcome (ToolsDemo.inspector [] (ToolsDemo.cmd_pickle false false) world_ready)
  = inl (SystemExit 1).
Proof.
  apply (X15_inspector_rejects_an_empty_dataset shape (fun _ => 4) (fun _ => 0)
           (fun _ => inr []) abspath ToolsDemo.size_2f
           (fun _ => "0.0") (fun _ => "0") (fun _ => "0.0")
           (fun _ _ => "0.0") (fun _ _ => "0.000") (fun _ => "0.00")
           (fun d => inr d) (fun _ _ => inr "     0.0") (fun _ _ => inr "     0.0")
           (fun _ _ => "     0.0") (fun _ _ => "     0.0")
           (fun (_ : tensor) (k : nat) => inr (seq 0 k))
           (fun _ : nat => inr ("    0.00", "    0.00", "    0.00"))
           (fun t => inr (InspectSyntheticData.numel shape t))
           (fun _ => "0 to 0")
           (ToolsDemo.cmd_pickle false false) world_ready
           "../data/simulatedTrajectories.pickle");
    reflexivity.
Defined.


(** Segments of 240 and 60 frames: one in the bin from 60 and one in the
    last bin, none beyond. *)
Lemma X17_length_distribution_counts_every_segment_witness :
  list_sum (InspectSyntheticData.np_histogram [240; 60] InspectSyntheticData.bins)
  + InspectSyntheticData.count_above [240; 60] 300
  = length ToolsDemo.two_segments.
Proof.
  apply (proj2 (proj2 (proj2
           (X17_length_distribution_counts_every_segment shape (fun _ _ => "0.0")
              ToolsDemo.two_segments [240; 60] world_ready
              ltac:(discriminate) eq_refl)))).
Defined.

(** The two segments the wrapper summarised, loaded by the inspector with
    both flags. *)
Lemma X23_a_summarised_dataset_has_the_shapes_the_inspector_needs_witness :
  status (ToolsDemo.inspector ToolsDemo.two_segments (ToolsDemo.cmd_pickle true true)
            world_ready) = 0%Z.
Proof.
  apply (proj2 (X23_a_summarised_dataset_has_the_shapes_the_inspector_needs
           shape core_two dirname abspath seconds minutes
           (fun _ => 4) (fun _ => 0)
           (fun _ => inr ToolsDemo.two_segments) ToolsDemo.size_2f
           (fun _ => "0.0") (fun _ => "0") (fun _ => "0.0")
           (fun _ _ => "0.0") (fun _ _ => "0.000") (fun _ => "0.00")
           (fun d => inr d) (fun _ _ => inr "     0.0") (fun _ _ => inr "     0.0")
           (fun _ _ => "     0.0") (fun _ _ => "     0.0")
           (fun (_ : tensor) (k : nat) => inr (seq 0 k))
           (fun _ : nat => inr ("    0.00", "    0.00", "    0.00"))
           (fun t => inr (InspectSyntheticData.numel shape t))
           (fun _ => "0 to 0")
           (cmd_with 10) world_ready (args_with 10) ToolsDemo.two_segments
           (ToolsDemo.cmd_pickle true true) world_ready
           eq_refl eq_refl eq_refl eq_refl eq_refl eq_refl)).
  reflexivity.
Defined.



(** Two segments with one NaN each: the warning is printed. *)
Lemma X18_nan_analysis_warns_exactly_on_nans_witness :
  In InspectTable.nan_warning
     (printed (events (InspectSyntheticData.nan_analysis shape (fun _ => 1)
                         (fun _ _ => "0.028") ToolsDemo.two_segments world_ready))).
Proof.
  apply (proj2 (proj1 (proj2
           (proj2 (X18_nan_analysis_warns_exactly_on_nans shape (fun _ => 1)
                     (fun _ _ => "0.028") ToolsDemo.two_segments world_ready)
              ltac:(vm_compute; discriminate))))).
  vm_compute. lia.
Defined.

(** The hybrid architecture cannot be built: its test returns [False]. *)
Lemma X20_architecture_test_restores_the_model_type_witness :
  TestAttentionModels.outcome (TestsDemo.the_test "hybrid" 120 10 4 TestsDemo.fresh)
  = inr false.
Proof.
  apply (proj1 (proj2 (proj2 (proj2
           (X20_architecture_test_restores_the_model_type TestsDemo.Net TestsDemo.params
              TestsDemo.params TestsDemo.randn TestsDemo.zero_from TestsDemo.forward
              TestsDemo.backward (fun t => t) (fun _ => false) (fun _ => false)
              "hybrid" 120 10 4 TestsDemo.fresh)))
           (Exn ValueError "Unknown model type: hybrid") eq_refl)).
Defined.

(** The switching test fails on the hybrid configuration and leaves the
    module switched to it. *)
Lemma X21_switching_test_restores_only_on_success_witness :
  TestAttentionModels.outcome
    (TestAttentionModels.test_architecture_compatibility TestsDemo.Net TestsDemo.fresh)
  = inr false
  /\ TestAttentionModels.model_type
       (TestAttentionModels.final
          (TestAttentionModels.test_architecture_compatibility TestsDemo.Net
             TestsDemo.fresh)) = "hybrid".
Proof.
  pose proof (proj2 (X21_switching_test_restores_only_on_success TestsDemo.Net
                       TestsDemo.fresh)) as [H1 [H2 _]].
  split; [exact H1|exact H2].
Defined.


End ExtraWitnesses.
